(** * Clock OS: the ring renderer, the persistent settings and the menus

    A shallow embedding of [src/main.cpp].  The sketch keeps its whole state
    in global [byte] variables; here they are the fields of one record,
    [Clock], that every function takes and returns.  A [byte] is a [Z] in
    [0, 256); arithmetic that can leave that range is wrapped explicitly with
    [byte] (conversion to [uint8_t]) or [int8] (conversion to [int8_t]).

    The sketch talks to three devices.  The LED rings are driven through a
    serial command stream, modelled as a list of [RingCmd]; the EEPROM is a
    byte-addressed store together with the log of the writes issued to it;
    the buttons are the list of debounced chords that [readPressedKeys]
    returns, one per iteration of a menu loop.  The seven-segment display is
    write-only and no state read by the functions below depends on it, so it
    is left out. *)

From Stdlib Require Import ZArith List Bool Lia.
Import ListNotations.
Open Scope Z_scope.

(** ** Constants of the sketch *)

Definition KEY_PRESSED_NONE : Z := 0x00.
Definition KEY_PRESSED_1 : Z := 0x01.
Definition KEY_PRESSED_2 : Z := 0x02.
Definition KEY_PRESSED_3 : Z := 0x04.

Definition SET_POSITION_NONE : Z := 0x00.
Definition SET_POSITION_HOURS : Z := 0x01.
Definition SET_POSITION_MINUTES : Z := 0x02.
Definition SET_POSITION_SECONDS : Z := 0x03.
Definition SET_POSITION_YEAR : Z := 0x04.
Definition SET_POSITION_MONTH : Z := 0x05.
Definition SET_POSITION_DAY : Z := 0x06.
Definition SET_POSITION_MARKERS : Z := 0x08.
Definition SET_POSITION_CLOCK_FACE : Z := 0x10.
Definition SET_POSITION_TIME_DATE : Z := 0x11.
Definition SET_POSITION_ALT_TIMER : Z := 0x12.
Definition SET_POSITION_FLASH_COLON : Z := 0x13.

Definition EEPROM_CLOCK_FACE_NUMBER : Z := 0.
Definition EEPROM_DATE_TIME_AND_COLON : Z := 1.
Definition EEPROM_ALTERNATE_COUNTER : Z := 2.
Definition EEPROM_CLOCK_FACE_SETTINGS : Z := 10.
Definition DEFAULT_CLOCK_FACE_LENGTH : Z := 10.
Definition DEFAULT_FACTORY_CLOCK_FACES : Z := 10.

Definition MARKER_HOUR_EVERY : Z := 0x10.
Definition MARKER_HOUR_QUARTERS : Z := 0x20.
Definition MARKER_HOUR_TWELTH : Z := 0x40.
Definition MARKER_BIT_HOUR_EVERY : Z := 4.
Definition MARKER_BIT_HOUR_QUARTERS : Z := 5.
Definition MARKER_BIT_HOUR_TWELTH : Z := 6.

Definition COLOR_HANDS : Z := 0x10.
Definition COLOR_DOT : Z := 0x20.
Definition COLOR_TRACE : Z := 0x40.
Definition COLOR_BIT_HANDS : Z := 4.
Definition COLOR_BIT_DOT : Z := 5.
Definition COLOR_BIT_TRACE : Z := 6.

Definition RING_NONE : Z := 0x00.
Definition RING_SECONDS : Z := 0x01.
Definition RING_MINUTES : Z := 0x02.
Definition RING_MINUTES_SECONDS : Z := 0x03.
Definition RING_HOURS : Z := 0x04.
Definition RING_HOURS_SECONDS : Z := 0x05.
Definition RING_HOURS_MINUTES : Z := 0x06.
Definition RING_HOURS_MINUTES_SECONDS : Z := 0x07.

Definition COLORS_START : Z := 0.
Definition COLORS_END : Z := 7.

Definition COLOR_BLANK : Z := 0x00.
Definition COLOR_RED : Z := 0x01.
Definition COLOR_GREEN : Z := 0x02.
Definition COLOR_ORANGE : Z := 0x03.
Definition COLOR_BLUE : Z := 0x04.
Definition COLOR_PURPLE : Z := 0x05.
Definition COLOR_CYAN : Z := 0x06.
Definition COLOR_WHITE : Z := 0x07.

Definition DISPLAY_COLONS_OFF : Z := 0x00.
Definition DISPLAY_COLONS_ON : Z := 0x01.
Definition DISPLAY_COLONS_FLASH_EVERY_SECOND : Z := 0x02.

Definition DISPLAY_NONE : Z := 0x00.
Definition DISPLAY_TIME : Z := 0x10.
Definition DISPLAY_DATE : Z := 0x20.
Definition DISPLAY_TIME_AND_DATE : Z := 0x30.

Definition valueTimeDateMin : list Z := [0; 0; 0; 0; 1; 1].
Definition valueTimeDateMax : list Z := [23; 59; 59; 99; 12; 31].
Definition valueAltTimes : list Z := [1; 2; 5; 10; 15; 30; 60].

(** One row per factory face: (hoursMarkers, hours, minutes, seconds). *)
Definition DEFAULT_FACTORY_COLORS : list (Z * Z * Z * Z) :=
  [ (Z.lor COLOR_BLUE MARKER_HOUR_EVERY, Z.lor COLOR_CYAN COLOR_HANDS,
     Z.lor COLOR_GREEN COLOR_HANDS, Z.lor COLOR_RED COLOR_HANDS);
    (Z.lor COLOR_PURPLE MARKER_HOUR_QUARTERS, Z.lor COLOR_CYAN COLOR_TRACE,
     Z.lor COLOR_GREEN COLOR_HANDS, Z.lor COLOR_RED COLOR_DOT);
    (Z.lor COLOR_BLUE MARKER_HOUR_EVERY, Z.lor COLOR_BLANK COLOR_DOT,
     Z.lor COLOR_BLANK COLOR_DOT, Z.lor COLOR_RED COLOR_TRACE);
    (Z.lor COLOR_RED MARKER_HOUR_QUARTERS, Z.lor COLOR_BLANK COLOR_DOT,
     Z.lor COLOR_BLANK COLOR_DOT, Z.lor COLOR_BLUE COLOR_TRACE);
    (Z.lor COLOR_ORANGE MARKER_HOUR_TWELTH, Z.lor COLOR_BLANK COLOR_DOT,
     Z.lor COLOR_GREEN COLOR_TRACE, Z.lor COLOR_BLUE COLOR_TRACE);
    (COLOR_BLANK, Z.lor COLOR_BLANK COLOR_DOT,
     Z.lor COLOR_BLANK COLOR_DOT, Z.lor COLOR_RED COLOR_DOT);
    (COLOR_BLANK, Z.lor COLOR_BLUE COLOR_DOT,
     Z.lor COLOR_GREEN COLOR_DOT, Z.lor COLOR_RED COLOR_DOT);
    (COLOR_BLANK, Z.lor COLOR_BLANK COLOR_DOT,
     Z.lor COLOR_BLANK COLOR_DOT, Z.lor COLOR_RED COLOR_TRACE);
    (Z.lor COLOR_BLUE MARKER_HOUR_EVERY, Z.lor COLOR_CYAN COLOR_TRACE,
     Z.lor COLOR_GREEN COLOR_TRACE, Z.lor COLOR_RED COLOR_TRACE);
    (COLOR_BLANK, Z.lor COLOR_BLANK COLOR_TRACE,
     Z.lor COLOR_GREEN COLOR_TRACE, Z.lor COLOR_RED COLOR_TRACE) ].

(** ** Bytes *)

(** Conversion to [uint8_t] and to [int8_t] (two's complement wrap-around, as
    avr-gcc does it). *)
Definition byte (z : Z) : Z := z mod 256.

Definition int8 (z : Z) : Z :=
  let m := z mod 256 in if m <? 128 then m else m - 256.

Definition is_byte (z : Z) : Prop := 0 <= z < 256.

(** Arduino's [bitRead(value, bit)]. *)
Definition bitRead (value bit : Z) : Z := if Z.testbit value bit then 1 else 0.

Definition neqb (a b : Z) : bool := negb (a =? b).
Infix "!=?" := neqb (at level 70, no associativity) : Z_scope.

Definition decToBcd (val : Z) : Z := byte (val / 10 * 16 + val mod 10).
Definition bcdToDec (val : Z) : Z := byte (val / 16 * 10 + val mod 16).

(** ** The global variables *)

Record Clock : Set := mkClock {
  hours : Z;
  minutes : Z;
  seconds : Z;
  dayOfWeek : Z;
  dayOfMonth : Z;
  months : Z;
  years : Z;
  hoursHand : Z;
  previousHoursHand : Z;
  previousHours : Z;
  previousMinutes : Z;
  previousSeconds : Z;
  clockFace : Z;
  hoursMarkerColor : Z;
  hoursColor : Z;
  minutesColor : Z;
  secondsColor : Z;
  ledSegmentsSettings : Z;
  ledSegmentsToggleSeconds : Z;
  position : Z;
  settingsChangedFlag : Z;
  blinkUpdate : Z;
  exitFlag : bool
}.

Definition set_hours (v : Z) (c : Clock) : Clock :=
  mkClock v (minutes c) (seconds c) (dayOfWeek c) (dayOfMonth c) (months c)
    (years c) (hoursHand c) (previousHoursHand c) (previousHours c)
    (previousMinutes c) (previousSeconds c) (clockFace c) (hoursMarkerColor c)
    (hoursColor c) (minutesColor c) (secondsColor c) (ledSegmentsSettings c)
    (ledSegmentsToggleSeconds c) (position c) (settingsChangedFlag c)
    (blinkUpdate c) (exitFlag c).

Definition set_minutes (v : Z) (c : Clock) : Clock :=
  mkClock (hours c) v (seconds c) (dayOfWeek c) (dayOfMonth c) (months c)
    (years c) (hoursHand c) (previousHoursHand c) (previousHours c)
    (previousMinutes c) (previousSeconds c) (clockFace c) (hoursMarkerColor c)
    (hoursColor c) (minutesColor c) (secondsColor c) (ledSegmentsSettings c)
    (ledSegmentsToggleSeconds c) (position c) (settingsChangedFlag c)
    (blinkUpdate c) (exitFlag c).

Definition set_seconds (v : Z) (c : Clock) : Clock :=
  mkClock (hours c) (minutes c) v (dayOfWeek c) (dayOfMonth c) (months c)
    (years c) (hoursHand c) (previousHoursHand c) (previousHours c)
    (previousMinutes c) (previousSeconds c) (clockFace c) (hoursMarkerColor c)
    (hoursColor c) (minutesColor c) (secondsColor c) (ledSegmentsSettings c)
    (ledSegmentsToggleSeconds c) (position c) (settingsChangedFlag c)
    (blinkUpdate c) (exitFlag c).

Definition set_dayOfWeek (v : Z) (c : Clock) : Clock :=
  mkClock (hours c) (minutes c) (seconds c) v (dayOfMonth c) (months c) (years
    c) (hoursHand c) (previousHoursHand c) (previousHours c) (previousMinutes
    c) (previousSeconds c) (clockFace c) (hoursMarkerColor c) (hoursColor c)
    (minutesColor c) (secondsColor c) (ledSegmentsSettings c)
    (ledSegmentsToggleSeconds c) (position c) (settingsChangedFlag c)
    (blinkUpdate c) (exitFlag c).

Definition set_dayOfMonth (v : Z) (c : Clock) : Clock :=
  mkClock (hours c) (minutes c) (seconds c) (dayOfWeek c) v (months c) (years
    c) (hoursHand c) (previousHoursHand c) (previousHours c) (previousMinutes
    c) (previousSeconds c) (clockFace c) (hoursMarkerColor c) (hoursColor c)
    (minutesColor c) (secondsColor c) (ledSegmentsSettings c)
    (ledSegmentsToggleSeconds c) (position c) (settingsChangedFlag c)
    (blinkUpdate c) (exitFlag c).

Definition set_months (v : Z) (c : Clock) : Clock :=
  mkClock (hours c) (minutes c) (seconds c) (dayOfWeek c) (dayOfMonth c) v
    (years c) (hoursHand c) (previousHoursHand c) (previousHours c)
    (previousMinutes c) (previousSeconds c) (clockFace c) (hoursMarkerColor c)
    (hoursColor c) (minutesColor c) (secondsColor c) (ledSegmentsSettings c)
    (ledSegmentsToggleSeconds c) (position c) (settingsChangedFlag c)
    (blinkUpdate c) (exitFlag c).

Definition set_years (v : Z) (c : Clock) : Clock :=
  mkClock (hours c) (minutes c) (seconds c) (dayOfWeek c) (dayOfMonth c)
    (months c) v (hoursHand c) (previousHoursHand c) (previousHours c)
    (previousMinutes c) (previousSeconds c) (clockFace c) (hoursMarkerColor c)
    (hoursColor c) (minutesColor c) (secondsColor c) (ledSegmentsSettings c)
    (ledSegmentsToggleSeconds c) (position c) (settingsChangedFlag c)
    (blinkUpdate c) (exitFlag c).

Definition set_hoursHand (v : Z) (c : Clock) : Clock :=
  mkClock (hours c) (minutes c) (seconds c) (dayOfWeek c) (dayOfMonth c)
    (months c) (years c) v (previousHoursHand c) (previousHours c)
    (previousMinutes c) (previousSeconds c) (clockFace c) (hoursMarkerColor c)
    (hoursColor c) (minutesColor c) (secondsColor c) (ledSegmentsSettings c)
    (ledSegmentsToggleSeconds c) (position c) (settingsChangedFlag c)
    (blinkUpdate c) (exitFlag c).

Definition set_previousHoursHand (v : Z) (c : Clock) : Clock :=
  mkClock (hours c) (minutes c) (seconds c) (dayOfWeek c) (dayOfMonth c)
    (months c) (years c) (hoursHand c) v (previousHours c) (previousMinutes c)
    (previousSeconds c) (clockFace c) (hoursMarkerColor c) (hoursColor c)
    (minutesColor c) (secondsColor c) (ledSegmentsSettings c)
    (ledSegmentsToggleSeconds c) (position c) (settingsChangedFlag c)
    (blinkUpdate c) (exitFlag c).

Definition set_previousHours (v : Z) (c : Clock) : Clock :=
  mkClock (hours c) (minutes c) (seconds c) (dayOfWeek c) (dayOfMonth c)
    (months c) (years c) (hoursHand c) (previousHoursHand c) v
    (previousMinutes c) (previousSeconds c) (clockFace c) (hoursMarkerColor c)
    (hoursColor c) (minutesColor c) (secondsColor c) (ledSegmentsSettings c)
    (ledSegmentsToggleSeconds c) (position c) (settingsChangedFlag c)
    (blinkUpdate c) (exitFlag c).

Definition set_previousMinutes (v : Z) (c : Clock) : Clock :=
  mkClock (hours c) (minutes c) (seconds c) (dayOfWeek c) (dayOfMonth c)
    (months c) (years c) (hoursHand c) (previousHoursHand c) (previousHours c)
    v (previousSeconds c) (clockFace c) (hoursMarkerColor c) (hoursColor c)
    (minutesColor c) (secondsColor c) (ledSegmentsSettings c)
    (ledSegmentsToggleSeconds c) (position c) (settingsChangedFlag c)
    (blinkUpdate c) (exitFlag c).

Definition set_previousSeconds (v : Z) (c : Clock) : Clock :=
  mkClock (hours c) (minutes c) (seconds c) (dayOfWeek c) (dayOfMonth c)
    (months c) (years c) (hoursHand c) (previousHoursHand c) (previousHours c)
    (previousMinutes c) v (clockFace c) (hoursMarkerColor c) (hoursColor c)
    (minutesColor c) (secondsColor c) (ledSegmentsSettings c)
    (ledSegmentsToggleSeconds c) (position c) (settingsChangedFlag c)
    (blinkUpdate c) (exitFlag c).

Definition set_clockFace (v : Z) (c : Clock) : Clock :=
  mkClock (hours c) (minutes c) (seconds c) (dayOfWeek c) (dayOfMonth c)
    (months c) (years c) (hoursHand c) (previousHoursHand c) (previousHours c)
    (previousMinutes c) (previousSeconds c) v (hoursMarkerColor c) (hoursColor
    c) (minutesColor c) (secondsColor c) (ledSegmentsSettings c)
    (ledSegmentsToggleSeconds c) (position c) (settingsChangedFlag c)
    (blinkUpdate c) (exitFlag c).

Definition set_hoursMarkerColor (v : Z) (c : Clock) : Clock :=
  mkClock (hours c) (minutes c) (seconds c) (dayOfWeek c) (dayOfMonth c)
    (months c) (years c) (hoursHand c) (previousHoursHand c) (previousHours c)
    (previousMinutes c) (previousSeconds c) (clockFace c) v (hoursColor c)
    (minutesColor c) (secondsColor c) (ledSegmentsSettings c)
    (ledSegmentsToggleSeconds c) (position c) (settingsChangedFlag c)
    (blinkUpdate c) (exitFlag c).

Definition set_hoursColor (v : Z) (c : Clock) : Clock :=
  mkClock (hours c) (minutes c) (seconds c) (dayOfWeek c) (dayOfMonth c)
    (months c) (years c) (hoursHand c) (previousHoursHand c) (previousHours c)
    (previousMinutes c) (previousSeconds c) (clockFace c) (hoursMarkerColor c)
    v (minutesColor c) (secondsColor c) (ledSegmentsSettings c)
    (ledSegmentsToggleSeconds c) (position c) (settingsChangedFlag c)
    (blinkUpdate c) (exitFlag c).

Definition set_minutesColor (v : Z) (c : Clock) : Clock :=
  mkClock (hours c) (minutes c) (seconds c) (dayOfWeek c) (dayOfMonth c)
    (months c) (years c) (hoursHand c) (previousHoursHand c) (previousHours c)
    (previousMinutes c) (previousSeconds c) (clockFace c) (hoursMarkerColor c)
    (hoursColor c) v (secondsColor c) (ledSegmentsSettings c)
    (ledSegmentsToggleSeconds c) (position c) (settingsChangedFlag c)
    (blinkUpdate c) (exitFlag c).

Definition set_secondsColor (v : Z) (c : Clock) : Clock :=
  mkClock (hours c) (minutes c) (seconds c) (dayOfWeek c) (dayOfMonth c)
    (months c) (years c) (hoursHand c) (previousHoursHand c) (previousHours c)
    (previousMinutes c) (previousSeconds c) (clockFace c) (hoursMarkerColor c)
    (hoursColor c) (minutesColor c) v (ledSegmentsSettings c)
    (ledSegmentsToggleSeconds c) (position c) (settingsChangedFlag c)
    (blinkUpdate c) (exitFlag c).

Definition set_ledSegmentsSettings (v : Z) (c : Clock) : Clock :=
  mkClock (hours c) (minutes c) (seconds c) (dayOfWeek c) (dayOfMonth c)
    (months c) (years c) (hoursHand c) (previousHoursHand c) (previousHours c)
    (previousMinutes c) (previousSeconds c) (clockFace c) (hoursMarkerColor c)
    (hoursColor c) (minutesColor c) (secondsColor c) v
    (ledSegmentsToggleSeconds c) (position c) (settingsChangedFlag c)
    (blinkUpdate c) (exitFlag c).

Definition set_ledSegmentsToggleSeconds (v : Z) (c : Clock) : Clock :=
  mkClock (hours c) (minutes c) (seconds c) (dayOfWeek c) (dayOfMonth c)
    (months c) (years c) (hoursHand c) (previousHoursHand c) (previousHours c)
    (previousMinutes c) (previousSeconds c) (clockFace c) (hoursMarkerColor c)
    (hoursColor c) (minutesColor c) (secondsColor c) (ledSegmentsSettings c) v
    (position c) (settingsChangedFlag c) (blinkUpdate c) (exitFlag c).

Definition set_position (v : Z) (c : Clock) : Clock :=
  mkClock (hours c) (minutes c) (seconds c) (dayOfWeek c) (dayOfMonth c)
    (months c) (years c) (hoursHand c) (previousHoursHand c) (previousHours c)
    (previousMinutes c) (previousSeconds c) (clockFace c) (hoursMarkerColor c)
    (hoursColor c) (minutesColor c) (secondsColor c) (ledSegmentsSettings c)
    (ledSegmentsToggleSeconds c) v (settingsChangedFlag c) (blinkUpdate c)
    (exitFlag c).

Definition set_settingsChangedFlag (v : Z) (c : Clock) : Clock :=
  mkClock (hours c) (minutes c) (seconds c) (dayOfWeek c) (dayOfMonth c)
    (months c) (years c) (hoursHand c) (previousHoursHand c) (previousHours c)
    (previousMinutes c) (previousSeconds c) (clockFace c) (hoursMarkerColor c)
    (hoursColor c) (minutesColor c) (secondsColor c) (ledSegmentsSettings c)
    (ledSegmentsToggleSeconds c) (position c) v (blinkUpdate c) (exitFlag c).

Definition set_blinkUpdate (v : Z) (c : Clock) : Clock :=
  mkClock (hours c) (minutes c) (seconds c) (dayOfWeek c) (dayOfMonth c)
    (months c) (years c) (hoursHand c) (previousHoursHand c) (previousHours c)
    (previousMinutes c) (previousSeconds c) (clockFace c) (hoursMarkerColor c)
    (hoursColor c) (minutesColor c) (secondsColor c) (ledSegmentsSettings c)
    (ledSegmentsToggleSeconds c) (position c) (settingsChangedFlag c) v
    (exitFlag c).

Definition set_exitFlag (v : bool) (c : Clock) : Clock :=
  mkClock (hours c) (minutes c) (seconds c) (dayOfWeek c) (dayOfMonth c)
    (months c) (years c) (hoursHand c) (previousHoursHand c) (previousHours c)
    (previousMinutes c) (previousSeconds c) (clockFace c) (hoursMarkerColor c)
    (hoursColor c) (minutesColor c) (secondsColor c) (ledSegmentsSettings c)
    (ledSegmentsToggleSeconds c) (position c) (settingsChangedFlag c)
    (blinkUpdate c) v.
(** ** Partial computations

    A [for] loop over a [byte] counter need not terminate (the counter wraps
    before [r <= 255] can fail), so the functions that contain one return an
    [option]; [None] stands for a run that never returns.  A loop of the
    sketch has a deterministic counter with 256 values: when it has not left
    after 256 tests it never will, and [byteFuel] tests decide it. *)

Definition bind {A B : Type} (m : option A) (f : A -> option B) : option B :=
  match m with
  | Some a => f a
  | None => None
  end.

Notation "x <- m ;; k" := (bind m (fun x => k))
  (at level 61, m at next level, right associativity).

(** ** The ring peripheral *)

(** The two commands the renderer sends: [0xF1 ring number color 0x03] and
    [0xF5 ring 0 0 0x03]. *)
Inductive RingCmd : Set :=
| LedWrite (ring number color : Z)
| LedWriteAllInRingOff (ring : Z).

Definition ledWrite (ring number color : Z) : list RingCmd :=
  [LedWrite ring number color].

Definition ledWriteAllInRingOff (ring : Z) : list RingCmd :=
  [LedWriteAllInRingOff ring].

Definition ledWriteAllOff : list RingCmd :=
  ledWriteAllInRingOff RING_HOURS_MINUTES_SECONDS.

Definition byteFuel : nat := 257.

Fixpoint for_loop (fuel : nat) (r : Z) (cond : Z -> bool) (next : Z -> Z)
    (body : Z -> list RingCmd) : option (list RingCmd) :=
  match fuel with
  | O => None
  | S fuel' =>
      if cond r
      then rest <- for_loop fuel' (next r) cond next body ;;
           Some (body r ++ rest)
      else Some []
  end.

(** [for (r = from; r > downTo; r--) body] *)
Definition for_down (from downTo : Z) (body : Z -> list RingCmd) :=
  for_loop byteFuel from (fun r => downTo <? r) (fun r => byte (r - 1)) body.

(** [for (r = from; r <= upTo; r++) body] *)
Definition for_up (from upTo : Z) (body : Z -> list RingCmd) :=
  for_loop byteFuel from (fun r => r <=? upTo) (fun r => byte (r + 1)) body.

(** The state of the rings that a command stream leaves behind, read off the
    command list at the head of the sketch: a ring is one of the mask bits
    [RING_SECONDS], [RING_MINUTES], [RING_HOURS]; [0xF1] sets the LED at
    [number] to [color] on every ring of its mask (color 0 is off), [0xF5]
    turns every LED of the rings of its mask off. *)
Definition Rings : Type := Z -> Z -> Z.

Definition allOff : Rings := fun _ _ => COLOR_BLANK.

Definition inMask (mask ring : Z) : bool := Z.land mask ring !=? 0.

Definition exec1 (rs : Rings) (cmd : RingCmd) : Rings :=
  match cmd with
  | LedWrite mask number color =>
      fun ring p =>
        if inMask mask ring && (p =? number) then color else rs ring p
  | LedWriteAllInRingOff mask =>
      fun ring p => if inMask mask ring then COLOR_BLANK else rs ring p
  end.

Definition exec (cmds : list RingCmd) (rs : Rings) : Rings :=
  fold_left exec1 cmds rs.

Definition lit (rs : Rings) (ring p : Z) : bool := rs ring p !=? COLOR_BLANK.

(** The lit positions of the 60-LED rings, as (ring, position) pairs. *)
Definition ringPositions : list Z := map Z.of_nat (seq 0 60).

Definition litPositions (rs : Rings) : list (Z * Z) :=
  flat_map (fun ring =>
              map (fun p => (ring, p))
                  (filter (fun p => lit rs ring p) ringPositions))
           [RING_HOURS; RING_MINUTES; RING_SECONDS].

(** ** Markers *)

(** The body of the loop of [drawHourMarkers]: the rings on which the marker
    at [loopMarker] is drawn. *)
Definition markerRings (c : Clock) (loopMarker : Z) : Z :=
  let markers :=
    if loopMarker =? 0 then RING_HOURS_MINUTES_SECONDS
    else if (loopMarker =? 15) || (loopMarker =? 30) || (loopMarker =? 45)
         then RING_MINUTES_SECONDS
    else RING_SECONDS in
  let markers :=
    if (Z.land (secondsColor c) 0x0f !=? COLOR_BLANK)
       && (seconds c =? loopMarker)
    then
      if bitRead (secondsColor c) COLOR_BIT_TRACE =? 1 then
        if 0 <? seconds c then Z.land markers RING_HOURS_MINUTES else markers
      else if bitRead (secondsColor c) COLOR_BIT_DOT =? 1 then
        Z.land markers RING_HOURS_MINUTES
      else if bitRead (secondsColor c) COLOR_BIT_HANDS =? 1 then RING_NONE
      else markers
    else markers in
  let markers :=
    if (Z.land (minutesColor c) 0x0f !=? COLOR_BLANK)
       && (minutes c =? loopMarker)
    then
      if bitRead (minutesColor c) COLOR_BIT_TRACE =? 1 then
        if 0 <? minutes c then Z.land markers RING_HOURS_SECONDS else markers
      else if bitRead (minutesColor c) COLOR_BIT_DOT =? 1 then
        Z.land markers RING_HOURS_SECONDS
      else if bitRead (minutesColor c) COLOR_BIT_HANDS =? 1 then RING_NONE
      else markers
    else markers in
  let markers :=
    if (Z.land (hoursColor c) 0x0f !=? COLOR_BLANK)
       && (hoursHand c =? loopMarker)
    then
      if bitRead (hoursColor c) COLOR_BIT_TRACE =? 1 then
        if 0 <? hoursHand c then Z.land markers RING_MINUTES_SECONDS
        else markers
      else if bitRead (hoursColor c) COLOR_BIT_DOT =? 1 then
        Z.land markers RING_MINUTES_SECONDS
      else if bitRead (hoursColor c) COLOR_BIT_HANDS =? 1 then
        Z.land markers RING_SECONDS
      else markers
    else markers in
  markers.

Definition drawHourMarkers (steps drawColor : Z) (c : Clock)
  : option (list RingCmd) :=
  for_loop byteFuel 0 (fun loopMarker => loopMarker <? 60)
    (fun loopMarker => byte (loopMarker + steps))
    (fun loopMarker =>
       let markers := markerRings c loopMarker in
       if markers !=? RING_NONE then ledWrite markers loopMarker drawColor
       else []).

Definition drawMarkers (c : Clock) : option (list RingCmd) :=
  if Z.land (hoursMarkerColor c) 0x0f !=? COLOR_BLANK then
    if bitRead (hoursMarkerColor c) MARKER_BIT_HOUR_EVERY =? 1 then
      drawHourMarkers 5 (Z.land (hoursMarkerColor c) 0x0f) c
    else if bitRead (hoursMarkerColor c) MARKER_BIT_HOUR_QUARTERS =? 1 then
      drawHourMarkers 15 (Z.land (hoursMarkerColor c) 0x0f) c
    else if bitRead (hoursMarkerColor c) MARKER_BIT_HOUR_TWELTH =? 1 then
      drawHourMarkers 60 (Z.land (hoursMarkerColor c) 0x0f) c
    else Some []
  else Some [].

(** ** Clear phase

    [clearHands] is three blocks, one per hand, in the order hours, minutes,
    seconds. *)

Definition clearHours (c : Clock) : option (list RingCmd) :=
  if Z.land (hoursColor c) 0x0f !=? COLOR_BLANK then
    if hoursHand c !=? previousHoursHand c then
      if bitRead (hoursColor c) COLOR_BIT_TRACE =? 1 then
        if hoursHand c =? 0 then Some (ledWriteAllInRingOff RING_HOURS)
        else for_down (previousHoursHand c) (hoursHand c)
               (fun r => ledWrite RING_HOURS r COLOR_BLANK)
      else if bitRead (hoursColor c) COLOR_BIT_DOT =? 1 then
        Some (ledWrite RING_HOURS (previousHoursHand c) COLOR_BLANK)
      else if bitRead (hoursColor c) COLOR_BIT_HANDS =? 1 then
        Some (ledWrite RING_HOURS_MINUTES (previousHoursHand c) COLOR_BLANK)
      else Some []
    else Some []
  else Some [].

Definition clearMinutes (c : Clock) : option (list RingCmd) :=
  if Z.land (minutesColor c) 0x0f !=? COLOR_BLANK then
    if minutes c !=? previousMinutes c then
      if bitRead (minutesColor c) COLOR_BIT_TRACE =? 1 then
        if minutes c =? 0 then Some (ledWriteAllInRingOff RING_MINUTES)
        else for_down (previousMinutes c) (minutes c)
               (fun r => ledWrite RING_MINUTES r COLOR_BLANK)
      else if bitRead (minutesColor c) COLOR_BIT_DOT =? 1 then
        Some (ledWrite RING_MINUTES (previousMinutes c) COLOR_BLANK)
      else if bitRead (minutesColor c) COLOR_BIT_HANDS =? 1 then
        Some (ledWrite RING_HOURS_MINUTES_SECONDS (previousMinutes c)
                COLOR_BLANK)
      else Some []
    else Some []
  else Some [].

Definition clearSeconds (c : Clock) : option (list RingCmd) :=
  if Z.land (secondsColor c) 0x0f !=? COLOR_BLANK then
    if seconds c !=? previousSeconds c then
      if bitRead (secondsColor c) COLOR_BIT_TRACE =? 1 then
        if seconds c =? 0 then Some (ledWriteAllInRingOff RING_SECONDS)
        else for_down (previousSeconds c) (seconds c)
               (fun r => ledWrite RING_SECONDS r COLOR_BLANK)
      else if bitRead (secondsColor c) COLOR_BIT_DOT =? 1 then
        Some (ledWrite RING_SECONDS (previousSeconds c) COLOR_BLANK)
      else if bitRead (secondsColor c) COLOR_BIT_HANDS =? 1 then
        Some (ledWrite RING_HOURS_MINUTES_SECONDS (previousSeconds c)
                COLOR_BLANK)
      else Some []
    else Some []
  else Some [].

Definition clearHands (c : Clock) : option (list RingCmd) :=
  h <- clearHours c ;;
  m <- clearMinutes c ;;
  s <- clearSeconds c ;;
  Some (h ++ m ++ s).

(** ** Draw phase

    [drawHands] is three blocks in the order minutes, hours, seconds. *)

Definition drawMinutes (c : Clock) : option (list RingCmd) :=
  if Z.land (minutesColor c) 0x0f !=? COLOR_BLANK then
    if bitRead (minutesColor c) COLOR_BIT_TRACE =? 1 then
      fill <-
        (if (minutes c !=? previousMinutes c)
            && ((0 <? minutes c)
                || (Z.land (hoursMarkerColor c) 0x0f =? COLOR_BLANK))
         then for_up (if minutes c <=? 1 then minutes c else previousMinutes c)
                (minutes c)
                (fun r => ledWrite RING_MINUTES r (Z.land (minutesColor c) 0x0f))
         else Some []) ;;
      Some (fill
        ++ (if Z.land (secondsColor c) 0x0f !=? COLOR_BLANK then
              if bitRead (secondsColor c) COLOR_BIT_HANDS =? 1 then
                if (seconds c !=? previousSeconds c)
                   && (previousSeconds c <=? minutes c)
                   && (0 <? previousSeconds c)
                then ledWrite RING_MINUTES (previousSeconds c)
                       (Z.land (minutesColor c) 0x0f)
                else []
              else []
            else [])
        ++ (if Z.land (hoursColor c) 0x0f !=? COLOR_BLANK then
              if bitRead (hoursColor c) COLOR_BIT_HANDS =? 1 then
                if (hoursHand c !=? previousHoursHand c)
                   && (previousHoursHand c <=? minutes c)
                   && (0 <? previousHoursHand c)
                then ledWrite RING_MINUTES (previousHoursHand c)
                       (Z.land (minutesColor c) 0x0f)
                else []
              else []
            else []))
    else if bitRead (minutesColor c) COLOR_BIT_DOT =? 1 then
      Some (if (minutes c !=? previousMinutes c)
               || (minutes c =? previousSeconds c)
               || (minutes c =? previousHoursHand c)
            then ledWrite RING_MINUTES (minutes c)
                   (Z.land (minutesColor c) 0x0f)
            else [])
    else if bitRead (minutesColor c) COLOR_BIT_HANDS =? 1 then
      Some (if (minutes c !=? previousMinutes c)
               || (minutes c =? previousSeconds c)
               || (minutes c =? previousHoursHand c)
            then ledWrite RING_HOURS_MINUTES_SECONDS (minutes c)
                   (Z.land (minutesColor c) 0x0f)
            else [])
    else Some []
  else Some [].

Definition drawHours (c : Clock) : option (list RingCmd) :=
  if Z.land (hoursColor c) 0x0f !=? COLOR_BLANK then
    if bitRead (hoursColor c) COLOR_BIT_TRACE =? 1 then
      fill <-
        (if (hoursHand c !=? previousHoursHand c)
            && ((0 <? hoursHand c)
                || (Z.land (hoursMarkerColor c) 0x0f =? COLOR_BLANK))
         then for_up (if hoursHand c <=? 1 then hoursHand c
                      else previousHoursHand c)
                (hoursHand c)
                (fun r => ledWrite RING_HOURS r (Z.land (hoursColor c) 0x0f))
         else Some []) ;;
      Some (fill
        ++ (if Z.land (minutesColor c) 0x0f !=? COLOR_BLANK then
              if bitRead (minutesColor c) COLOR_BIT_HANDS =? 1 then
                if (minutes c !=? previousMinutes c)
                   && (previousMinutes c <=? hoursHand c)
                   && (0 <? previousMinutes c)
                then ledWrite RING_HOURS (previousMinutes c)
                       (Z.land (hoursColor c) 0x0f)
                else []
              else []
            else [])
        ++ (if Z.land (secondsColor c) 0x0f !=? COLOR_BLANK then
              if bitRead (secondsColor c) COLOR_BIT_HANDS =? 1 then
                if (seconds c !=? previousSeconds c)
                   && (previousSeconds c <=? hoursHand c)
                   && (0 <? previousSeconds c)
                then ledWrite RING_HOURS (previousSeconds c)
                       (Z.land (hoursColor c) 0x0f)
                else []
              else []
            else []))
    else if bitRead (hoursColor c) COLOR_BIT_DOT =? 1 then
      Some (if (hoursHand c !=? previousHoursHand c)
               || (hoursHand c =? previousMinutes c)
               || (hoursHand c =? previousSeconds c)
            then ledWrite RING_HOURS (hoursHand c) (Z.land (hoursColor c) 0x0f)
            else [])
    else if bitRead (hoursColor c) COLOR_BIT_HANDS =? 1 then
      Some (if (hoursHand c !=? previousHoursHand c)
               || (hoursHand c =? previousMinutes c)
               || (hoursHand c =? previousSeconds c)
            then ledWrite RING_HOURS_MINUTES (hoursHand c)
                   (Z.land (hoursColor c) 0x0f)
            else [])
    else Some []
  else Some [].

Definition drawSeconds (c : Clock) : option (list RingCmd) :=
  if Z.land (secondsColor c) 0x0f !=? COLOR_BLANK then
    if bitRead (secondsColor c) COLOR_BIT_TRACE =? 1 then
      fill <-
        (if (seconds c !=? previousSeconds c)
            && ((0 <? seconds c)
                || (Z.land (hoursMarkerColor c) 0x0f =? COLOR_BLANK))
         then for_up (if seconds c <=? 1 then seconds c else previousSeconds c)
                (seconds c)
                (fun r => ledWrite RING_SECONDS r (Z.land (secondsColor c) 0x0f))
         else Some []) ;;
      Some (fill
        ++ (if Z.land (minutesColor c) 0x0f !=? COLOR_BLANK then
              if bitRead (minutesColor c) COLOR_BIT_HANDS =? 1 then
                if (minutes c !=? previousMinutes c)
                   && (previousMinutes c <=? seconds c)
                   && (0 <? previousMinutes c)
                then ledWrite RING_SECONDS (previousMinutes c)
                       (Z.land (secondsColor c) 0x0f)
                else []
              else []
            else []))
    else if bitRead (secondsColor c) COLOR_BIT_DOT =? 1 then
      Some (if (seconds c !=? previousSeconds c)
               || (seconds c =? previousMinutes c)
            then ledWrite RING_SECONDS (seconds c)
                   (Z.land (secondsColor c) 0x0f)
            else [])
    else if bitRead (secondsColor c) COLOR_BIT_HANDS =? 1 then
      Some (if (seconds c !=? previousSeconds c)
               || (seconds c =? previousMinutes c)
            then ledWrite RING_HOURS_MINUTES_SECONDS (seconds c)
                   (Z.land (secondsColor c) 0x0f)
            else [])
    else Some []
  else Some [].

Definition drawHands (c : Clock) : option (list RingCmd) :=
  m <- drawMinutes c ;;
  h <- drawHours c ;;
  s <- drawSeconds c ;;
  Some (m ++ h ++ s).

(** ** One invocation of the renderer *)

Definition drawClockFace (c : Clock) : option (list RingCmd * Clock) :=
  let c := set_hoursHand (byte (hours c mod 12 * 5 + minutes c / 12)) c in
  cl <- clearHands c ;;
  dr <- drawHands c ;;
  mk <- drawMarkers c ;;
  let c := set_previousHoursHand (hoursHand c) c in
  let c := set_previousHours (hours c) c in
  let c := set_previousMinutes (minutes c) c in
  let c := set_previousSeconds (seconds c) c in
  Some (cl ++ dr ++ mk, c).

(** Forces redrawing the clock face. *)
Definition resetPreviousValues (c : Clock) : Clock :=
  let c := set_previousHoursHand 0 c in
  let c := set_previousHours 0 c in
  let c := set_previousMinutes 0 c in
  set_previousSeconds 0 c.

Definition drawDisplayConfiguration (c : Clock)
  : option (list RingCmd * Clock) :=
  let c := set_hours 22 c in
  let c := set_minutes 10 c in
  let c := set_seconds 23 c in
  drawClockFace (resetPreviousValues c).

(** ** Normal mode

    The time source is the DS1307: [getDateDs1307] reads its seven registers
    (seconds, minutes, hours, day of week, day of month, month, year) and
    decodes them from BCD. *)
Record Ds1307 : Set := mkDs1307 {
  regSeconds : Z;
  regMinutes : Z;
  regHours : Z;
  regDayOfWeek : Z;
  regDayOfMonth : Z;
  regMonth : Z;
  regYear : Z
}.

Definition getDateDs1307 (rtc : Ds1307) (c : Clock) : Clock :=
  let c := set_seconds (bcdToDec (Z.land (regSeconds rtc) 0x7f)) c in
  let c := set_minutes (bcdToDec (regMinutes rtc)) c in
  let c := set_hours (bcdToDec (Z.land (regHours rtc) 0x3f)) c in
  let c := set_dayOfWeek (bcdToDec (regDayOfWeek rtc)) c in
  let c := set_dayOfMonth (bcdToDec (regDayOfMonth rtc)) c in
  let c := set_months (bcdToDec (regMonth rtc)) c in
  set_years (bcdToDec (regYear rtc)) c.

(** [normalMode], with the ring state that the emitted commands produce
    threaded along. *)
Definition normalMode (rtc : Ds1307) (st : Clock * Rings)
  : option (Clock * Rings) :=
  let c := getDateDs1307 rtc (fst st) in
  if seconds c !=? previousSeconds c then
    r <- drawClockFace c ;;
    Some (snd r, exec (fst r) (snd st))
  else Some (c, snd st).

(** A run of the main loop in normal mode over successive readings of the
    time source. *)
Fixpoint normalModeRun (rtcs : list Ds1307) (st : Clock * Rings)
  : option (Clock * Rings) :=
  match rtcs with
  | [] => Some st
  | rtc :: rest => st' <- normalMode rtc st ;; normalModeRun rest st'
  end.

(** ** The wipe that ends a menu *)

Definition ringAnimation (color : Z) : list RingCmd :=
  ledWrite RING_HOURS_MINUTES_SECONDS 0 color
  ++ flat_map (fun loopCtr =>
                 ledWrite RING_HOURS_MINUTES_SECONDS (60 - loopCtr) color
                 ++ ledWrite RING_HOURS_MINUTES_SECONDS loopCtr color)
              (map Z.of_nat (seq 1 29))
  ++ ledWrite RING_HOURS_MINUTES_SECONDS 30 color.

(** ** Persistent settings *)

(** The EEPROM: its cells, and the log of the [EEPROM.write] calls issued. *)
Record Eeprom : Type := mkEeprom {
  cell : Z -> Z;
  written : list (Z * Z)
}.

Definition EEPROM_read (addr : Z) (e : Eeprom) : Z := cell e addr.

Definition EEPROM_write (addr value : Z) (e : Eeprom) : Eeprom :=
  mkEeprom (fun a => if a =? addr then value else cell e a)
           (written e ++ [(addr, value)]).

(** An array access; [None] is an access outside the array. *)
Definition at_index {A : Type} (table : list A) (i : Z) : option A :=
  if i <? 0 then None else nth_error table (Z.to_nat i).

Definition faceAddress (face offset : Z) : Z :=
  EEPROM_CLOCK_FACE_SETTINGS + face * DEFAULT_CLOCK_FACE_LENGTH + offset.

Definition loadSettingsOrFactoryDefaults (e : Eeprom) (c : Clock) : Clock :=
  let c := set_clockFace (EEPROM_read EEPROM_CLOCK_FACE_NUMBER e) c in
  let c := if DEFAULT_FACTORY_CLOCK_FACES <? clockFace c
           then set_clockFace 0 c else c in
  let c := set_ledSegmentsSettings
             (EEPROM_read EEPROM_DATE_TIME_AND_COLON e) c in
  let c := set_ledSegmentsToggleSeconds
             (EEPROM_read EEPROM_ALTERNATE_COUNTER e) c in
  if ledSegmentsToggleSeconds c =? 0
  then set_ledSegmentsToggleSeconds 5 c else c.

(** [None]: the factory table was read outside its ten rows. *)
Definition loadFaceSettingsOrFactoryDefaults (e : Eeprom) (c : Clock)
  : option Clock :=
  let c := set_hoursMarkerColor
             (EEPROM_read (faceAddress (clockFace c) 0) e) c in
  let c := set_hoursColor (EEPROM_read (faceAddress (clockFace c) 1) e) c in
  let c := set_minutesColor (EEPROM_read (faceAddress (clockFace c) 2) e) c in
  let c := set_secondsColor (EEPROM_read (faceAddress (clockFace c) 3) e) c in
  if (hoursMarkerColor c =? 0) && (hoursColor c =? 0)
     && (minutesColor c =? 0) && (secondsColor c =? 0)
  then
    row <- at_index DEFAULT_FACTORY_COLORS (clockFace c) ;;
    let '(mk, h, m, s) := row in
    let c := set_hoursMarkerColor mk c in
    let c := set_hoursColor h c in
    let c := set_minutesColor m c in
    Some (set_secondsColor s c)
  else Some c.

(** The two loads of [setup], in order. *)
Definition setup_load (e : Eeprom) (c : Clock) : option Clock :=
  loadFaceSettingsOrFactoryDefaults e (loadSettingsOrFactoryDefaults e c).

(** ** Common to the menus *)

Definition initUserSelect (c : Clock) : Clock :=
  set_blinkUpdate 0 (set_exitFlag false c).

(** The appearance of the active face, as it is stored. *)
Definition appearance (c : Clock) : Z * Z * Z * Z :=
  (hoursMarkerColor c, hoursColor c, minutesColor c, secondsColor c).

(** ** The styling menu *)

Definition getOptionsByPosition (pos : Z) (c : Clock) : Z :=
  if pos =? SET_POSITION_HOURS then Z.land (hoursColor c) 0xf0
  else if pos =? SET_POSITION_MINUTES then Z.land (minutesColor c) 0xf0
  else if pos =? SET_POSITION_SECONDS then Z.land (secondsColor c) 0xf0
  else if pos =? SET_POSITION_MARKERS then Z.land (hoursMarkerColor c) 0xf0
  else 0.

Definition setOptionsByPosition (pos value : Z) (c : Clock) : Clock :=
  if pos =? SET_POSITION_HOURS then
    set_hoursColor
      (Z.lor (Z.land (hoursColor c) 0x0f) (Z.land value 0xf0)) c
  else if pos =? SET_POSITION_MINUTES then
    set_minutesColor
      (Z.lor (Z.land (minutesColor c) 0x0f) (Z.land value 0xf0)) c
  else if pos =? SET_POSITION_SECONDS then
    set_secondsColor
      (Z.lor (Z.land (secondsColor c) 0x0f) (Z.land value 0xf0)) c
  else if pos =? SET_POSITION_MARKERS then
    set_hoursMarkerColor
      (Z.lor (Z.land (hoursMarkerColor c) 0x0f) (Z.land value 0xf0)) c
  else c.

Definition getColorByPosition (pos : Z) (c : Clock) : Z :=
  if pos =? SET_POSITION_HOURS then Z.land (hoursColor c) 0x0f
  else if pos =? SET_POSITION_MINUTES then Z.land (minutesColor c) 0x0f
  else if pos =? SET_POSITION_SECONDS then Z.land (secondsColor c) 0x0f
  else if pos =? SET_POSITION_MARKERS then Z.land (hoursMarkerColor c) 0x0f
  else 0.

Definition setColorByPosition (pos value : Z) (c : Clock) : Clock :=
  if pos =? SET_POSITION_HOURS then
    set_hoursColor
      (Z.lor (Z.land (hoursColor c) 0xf0) (Z.land value 0x0f)) c
  else if pos =? SET_POSITION_MINUTES then
    set_minutesColor
      (Z.lor (Z.land (minutesColor c) 0xf0) (Z.land value 0x0f)) c
  else if pos =? SET_POSITION_SECONDS then
    set_secondsColor
      (Z.lor (Z.land (secondsColor c) 0xf0) (Z.land value 0x0f)) c
  else if pos =? SET_POSITION_MARKERS then
    set_hoursMarkerColor
      (Z.lor (Z.land (hoursMarkerColor c) 0xf0) (Z.land value 0x0f)) c
  else c.

(** The three [if (pressedKeys == ...)] blocks of the loop of
    [userSetFaceColorAndStyle], with the ring commands they send. *)
Definition stylingKeys (pressedKeys : Z) (c : Clock) : list RingCmd * Clock :=
  let r :=
    if pressedKeys =? KEY_PRESSED_1 then
      let value := getOptionsByPosition (position c) c in
      let value :=
        if position c =? SET_POSITION_MARKERS then
          if value =? MARKER_HOUR_TWELTH then MARKER_HOUR_QUARTERS
          else if value =? MARKER_HOUR_QUARTERS then MARKER_HOUR_EVERY
          else MARKER_HOUR_TWELTH
        else
          if value =? COLOR_HANDS then COLOR_TRACE
          else if value =? COLOR_TRACE then COLOR_DOT
          else COLOR_HANDS in
      let c := setOptionsByPosition (position c) value c in
      (ledWriteAllOff, set_blinkUpdate 2 (set_settingsChangedFlag 1 c))
    else ([], c) in
  let r :=
    let c := snd r in
    if pressedKeys =? KEY_PRESSED_3 then
      let value := getColorByPosition (position c) c in
      let value := byte (value + 1) in
      let value := if COLORS_END <? value then COLORS_START else value in
      let c := setColorByPosition (position c) value c in
      (fst r ++ (if value =? COLOR_BLANK then ledWriteAllOff else []),
       set_blinkUpdate 2 (set_settingsChangedFlag 1 c))
    else r in
  let c := snd r in
  if pressedKeys =? KEY_PRESSED_2 then
    let c := set_blinkUpdate 3 c in
    let c := set_position (byte (position c + 1)) c in
    if position c =? SET_POSITION_YEAR then
      (fst r, set_position SET_POSITION_MARKERS c)
    else if SET_POSITION_MARKERS <? position c then
      (fst r, set_exitFlag true (set_position SET_POSITION_NONE c))
    else (fst r, c)
  else r.

(** One iteration of the loop: the key blocks, the redraw of the demo face
    after an edit, and the reset of [blinkUpdate] that ends the iteration
    (the blink timer can raise it from 0 to 1 in between, which only selects
    what the display shows). *)
Definition stylingIter (pressedKeys : Z) (c : Clock)
  : option (list RingCmd * Clock) :=
  let r := stylingKeys pressedKeys c in
  d <- (if blinkUpdate (snd r) =? 2 then drawDisplayConfiguration (snd r)
        else Some ([], snd r)) ;;
  Some (fst r ++ fst d, set_blinkUpdate 0 (snd d)).

(** [while (!exitFlag)] over the chords read; [None] when the chords run out
    before the menu is left, or an iteration does not return. *)
Fixpoint stylingLoop (keys : list Z) (c : Clock)
  : option (list RingCmd * Clock) :=
  if exitFlag c then Some ([], c)
  else
    match keys with
    | [] => None
    | k :: rest =>
        r <- stylingIter k c ;;
        r' <- stylingLoop rest (snd r) ;;
        Some (fst r ++ fst r', snd r')
    end.

(** The part of [userSetFaceColorAndStyle] before the loop. *)
Definition stylingEntry (c : Clock) : option (list RingCmd * Clock) :=
  let c := initUserSelect c in
  let c := set_settingsChangedFlag 0 c in
  let c := set_position SET_POSITION_HOURS c in
  d <- drawDisplayConfiguration c ;;
  Some (ledWriteAllOff ++ fst d, snd d).

(** The part after the loop: the commit. *)
Definition stylingCommit (c : Clock) (e : Eeprom)
  : list RingCmd * Clock * Eeprom :=
  let r :=
    if 0 <? settingsChangedFlag c then
      let e := EEPROM_write (faceAddress (clockFace c) 0)
                 (hoursMarkerColor c) e in
      let e := EEPROM_write (faceAddress (clockFace c) 1) (hoursColor c) e in
      let e := EEPROM_write (faceAddress (clockFace c) 2) (minutesColor c) e in
      let e := EEPROM_write (faceAddress (clockFace c) 3) (secondsColor c) e in
      (ringAnimation COLOR_GREEN, e)
    else (ringAnimation COLOR_BLUE, e) in
  (fst r ++ ringAnimation COLOR_BLANK, resetPreviousValues c, snd r).

Definition userSetFaceColorAndStyle (keys : list Z) (c : Clock) (e : Eeprom)
  : option (list RingCmd * Clock * Eeprom) :=
  r0 <- stylingEntry c ;;
  r <- stylingLoop keys (snd r0) ;;
  let '(out, c, e) := stylingCommit (snd r) e in
  Some (fst r0 ++ fst r ++ out, c, e).

(** Whether some iteration of the menu loop changed a field of the
    appearance: the value after the iteration differs from the one before. *)
Definition appearance_eqb (a b : Z * Z * Z * Z) : bool :=
  let '(a1, a2, a3, a4) := a in
  let '(b1, b2, b3, b4) := b in
  (a1 =? b1) && (a2 =? b2) && (a3 =? b3) && (a4 =? b4).

Fixpoint stylingLoopEdited (keys : list Z) (c : Clock) : bool :=
  if exitFlag c then false
  else
    match keys with
    | [] => false
    | k :: rest =>
        match stylingIter k c with
        | Some r =>
            negb (appearance_eqb (appearance c) (appearance (snd r)))
            || stylingLoopEdited rest (snd r)
        | None => false
        end
    end.

Definition stylingSessionEdited (keys : list Z) (c : Clock) : bool :=
  match stylingEntry c with
  | Some r0 => stylingLoopEdited keys (snd r0)
  | None => false
  end.

(** ** The time and date menu *)

Definition getValueByPosition (pos : Z) (c : Clock) : Z :=
  if pos =? SET_POSITION_HOURS then hours c
  else if pos =? SET_POSITION_MINUTES then minutes c
  else if pos =? SET_POSITION_SECONDS then seconds c
  else if pos =? SET_POSITION_YEAR then years c
  else if pos =? SET_POSITION_MONTH then months c
  else if pos =? SET_POSITION_DAY then dayOfMonth c
  else 0.

Definition setValueByPosition (pos value : Z) (c : Clock) : Clock :=
  if pos =? SET_POSITION_HOURS then set_hours value c
  else if pos =? SET_POSITION_MINUTES then set_minutes value c
  else if pos =? SET_POSITION_SECONDS then set_seconds value c
  else if pos =? SET_POSITION_YEAR then set_years value c
  else if pos =? SET_POSITION_MONTH then set_months value c
  else if pos =? SET_POSITION_DAY then set_dayOfMonth value c
  else c.

Definition getDaysMaxBasedOnMonthAndLeapYear (c : Clock) : Z :=
  let days := 31 in
  let days :=
    if (months c =? 4) || (months c =? 6) || (months c =? 9)
       || (months c =? 11)
    then 30
    else if months c =? 2 then
      let days := 28 in
      if years c mod 4 =? 0 then 29 else days
    else days in
  int8 days.

(** The [if (pressedKeys == ...)] blocks of the loop of [userSetTimeAndDate].
    [value] is an [int8_t]; it is stored back into a [byte].  [None]: a
    bounds table was read outside its six entries. *)
Definition timeDateKeys (pressedKeys : Z) (c : Clock) : option Clock :=
  c <-
    (if pressedKeys =? KEY_PRESSED_1 then
       let value := int8 (getValueByPosition (position c) c) in
       let value := int8 (value - 1) in
       lo <- at_index valueTimeDateMin (position c - 1) ;;
       value <-
         (if value <? lo then
            if position c =? SET_POSITION_DAY
            then Some (getDaysMaxBasedOnMonthAndLeapYear c)
            else hi <- at_index valueTimeDateMax (position c - 1) ;;
                 Some (int8 hi)
          else Some value) ;;
       let c := setValueByPosition (position c) (byte value) c in
       Some (set_blinkUpdate 2 (set_settingsChangedFlag 1 c))
     else Some c) ;;
  c <-
    (if pressedKeys =? KEY_PRESSED_3 then
       let value := int8 (getValueByPosition (position c) c) in
       let value := int8 (value + 1) in
       value <-
         (if position c =? SET_POSITION_DAY then
            if getDaysMaxBasedOnMonthAndLeapYear c <? value
            then lo <- at_index valueTimeDateMin (position c - 1) ;;
                 Some (int8 lo)
            else Some value
          else
            hi <- at_index valueTimeDateMax (position c - 1) ;;
            if hi <? value
            then lo <- at_index valueTimeDateMin (position c - 1) ;;
                 Some (int8 lo)
            else Some value) ;;
       let c := setValueByPosition (position c) (byte value) c in
       Some (set_blinkUpdate 2 (set_settingsChangedFlag 1 c))
     else Some c) ;;
  if pressedKeys =? KEY_PRESSED_2 then
    let c := set_blinkUpdate 3 c in
    let c := set_position (byte (position c + 1)) c in
    if SET_POSITION_DAY <? position c then
      Some (set_exitFlag true (set_position SET_POSITION_NONE c))
    else Some c
  else Some c.

(** ** The settings menu *)

Definition getSettingByPosition (pos : Z) (c : Clock) : Z :=
  if pos =? SET_POSITION_CLOCK_FACE then clockFace c
  else if pos =? SET_POSITION_TIME_DATE then
    Z.land (ledSegmentsSettings c) 0xf0
  else if pos =? SET_POSITION_ALT_TIMER then ledSegmentsToggleSeconds c
  else if pos =? SET_POSITION_FLASH_COLON then
    Z.land (ledSegmentsSettings c) 0x0f
  else 0.

Definition setSettingByPosition (pos value : Z) (c : Clock) : Clock :=
  if pos =? SET_POSITION_CLOCK_FACE then set_clockFace value c
  else if pos =? SET_POSITION_TIME_DATE then
    set_ledSegmentsSettings
      (Z.lor (Z.land (minutesColor c) 0x0f) (Z.land value 0xf0)) c
  else if pos =? SET_POSITION_ALT_TIMER then
    set_ledSegmentsToggleSeconds value c
  else if pos =? SET_POSITION_FLASH_COLON then
    set_ledSegmentsSettings
      (Z.lor (Z.land (ledSegmentsSettings c) 0xf0) (Z.land value 0x0f)) c
  else c.

(** The scan both [findPreviousAltTime] and [findNextAltTime] make: the
    entry after the first one equal to [value], the last entry excluded. *)
Fixpoint entryAfter (table : list Z) (value dflt : Z) : Z :=
  match table with
  | a :: (b :: _) as rest =>
      if a =? value then b else entryAfter rest value dflt
  | _ => dflt
  end.

(** The scan runs from the last index down to 1. *)
Definition findPreviousAltTime (value : Z) : Z :=
  entryAfter (rev valueAltTimes) value (last valueAltTimes 0).

Definition findNextAltTime (value : Z) : Z :=
  entryAfter valueAltTimes value (hd 0 valueAltTimes).

(** The [if (pressedKeys == ...)] blocks of the loop of [userSettings]. *)
Definition settingsKeys (pressedKeys : Z) (c : Clock) : Clock :=
  let c :=
    if pressedKeys =? KEY_PRESSED_1 then
      let value := getSettingByPosition (position c) c in
      let value :=
        if position c =? SET_POSITION_CLOCK_FACE then
          let value := byte (value - 1) in
          if DEFAULT_FACTORY_CLOCK_FACES <=? value then 0 else value
        else if position c =? SET_POSITION_TIME_DATE then
          if value =? DISPLAY_TIME_AND_DATE then DISPLAY_TIME
          else if value =? DISPLAY_TIME then DISPLAY_DATE
          else if value =? DISPLAY_DATE then DISPLAY_NONE
          else DISPLAY_TIME_AND_DATE
        else if position c =? SET_POSITION_ALT_TIMER then
          findPreviousAltTime value
        else if position c =? SET_POSITION_FLASH_COLON then
          if value =? DISPLAY_COLONS_FLASH_EVERY_SECOND
          then DISPLAY_COLONS_ON
          else DISPLAY_COLONS_FLASH_EVERY_SECOND
        else value in
      let c := setSettingByPosition (position c) value c in
      set_blinkUpdate 2 (set_settingsChangedFlag 1 c)
    else c in
  let c :=
    if pressedKeys =? KEY_PRESSED_3 then
      let value := getSettingByPosition (position c) c in
      let value :=
        if position c =? SET_POSITION_CLOCK_FACE then
          let value := byte (value + 1) in
          if DEFAULT_FACTORY_CLOCK_FACES <=? value
          then DEFAULT_FACTORY_CLOCK_FACES - 1 else value
        else if position c =? SET_POSITION_TIME_DATE then
          if value =? DISPLAY_TIME_AND_DATE then DISPLAY_NONE
          else if value =? DISPLAY_NONE then DISPLAY_DATE
          else if value =? DISPLAY_DATE then DISPLAY_TIME
          else DISPLAY_TIME_AND_DATE
        else if position c =? SET_POSITION_ALT_TIMER then
          findNextAltTime value
        else if position c =? SET_POSITION_FLASH_COLON then
          if value =? DISPLAY_COLONS_FLASH_EVERY_SECOND
          then DISPLAY_COLONS_ON
          else DISPLAY_COLONS_FLASH_EVERY_SECOND
        else value in
      let c := setSettingByPosition (position c) value c in
      set_blinkUpdate 2 (set_settingsChangedFlag 1 c)
    else c in
  if pressedKeys =? KEY_PRESSED_2 then
    let c := set_blinkUpdate 3 c in
    let c := set_position (byte (position c + 1)) c in
    if SET_POSITION_FLASH_COLON <? position c then
      set_exitFlag true (set_position SET_POSITION_NONE c)
    else c
  else c.

(** The face selection at the head of [loop], in normal mode: button 1 is
    the previous face, button 3 the next one ([userSelectedStyle], which
    follows each, does not touch [clockFace]). *)
Definition loopFaceKeys (pressedKeys : Z) (c : Clock) : Clock :=
  let c :=
    if pressedKeys =? KEY_PRESSED_1 then
      let c := set_clockFace (byte (clockFace c - 1)) c in
      if DEFAULT_FACTORY_CLOCK_FACES <=? clockFace c
      then set_clockFace (DEFAULT_FACTORY_CLOCK_FACES - 1) c else c
    else c in
  if pressedKeys =? KEY_PRESSED_3 then
    let c := set_clockFace (byte (clockFace c + 1)) c in
    if DEFAULT_FACTORY_CLOCK_FACES <=? clockFace c
    then set_clockFace 0 c else c
  else c.

(** ** States and inputs used in the statements *)

(** The globals as their initialisers leave them. *)
Definition powerOnClock : Clock :=
  {| hours := 0; minutes := 0; seconds := 0; dayOfWeek := 0;
     dayOfMonth := 0; months := 0; years := 0;
     hoursHand := 0; previousHoursHand := 0; previousHours := 0;
     previousMinutes := 0; previousSeconds := 0;
     clockFace := 0;
     hoursMarkerColor := Z.lor COLOR_PURPLE MARKER_HOUR_EVERY;
     hoursColor := COLOR_RED;
     minutesColor := COLOR_RED;
     secondsColor := COLOR_GREEN;
     ledSegmentsSettings :=
       Z.lor DISPLAY_TIME_AND_DATE DISPLAY_COLONS_FLASH_EVERY_SECOND;
     ledSegmentsToggleSeconds := 10;
     position := 0; settingsChangedFlag := 0; blinkUpdate := 0;
     exitFlag := false |}.

(** The day field selected in the time and date menu, on 29 February of
    year 24. *)
Definition leapFebruary29 : Clock :=
  set_position SET_POSITION_DAY
    (set_dayOfMonth 29 (set_months 2 (set_years 24 powerOnClock))).

(** The face field selected in the settings menu, at face 9 and at face 0. *)
Definition faceFieldAt9 : Clock :=
  set_clockFace 9 (set_position SET_POSITION_CLOCK_FACE powerOnClock).

Definition faceFieldAt0 : Clock :=
  set_clockFace 0 (set_position SET_POSITION_CLOCK_FACE powerOnClock).

(** An EEPROM whose every cell reads zero. *)
Definition zeroEeprom : Eeprom := mkEeprom (fun _ => 0) [].

Definition setAppearance (a : Z * Z * Z * Z) (c : Clock) : Clock :=
  let '(mk, h, m, s) := a in
  set_secondsColor s (set_minutesColor m
    (set_hoursColor h (set_hoursMarkerColor mk c))).

(** The registers of the time source at [h:m:s], each given in BCD (so that
    [0x10 0x11 0x01] is 10:11:01), on Monday 1 January. *)
Definition rtcAt (h m s : Z) : Ds1307 :=
  {| regSeconds := s; regMinutes := m; regHours := h;
     regDayOfWeek := 1; regDayOfMonth := 1; regMonth := 1; regYear := 0x24 |}.

(** What a run in normal mode leaves, started on dark rings with the
    previous values reset (as every menu leaves them): the lit positions, and
    the values the renderer draws from. *)
Definition litAfter (rtcs : list Ds1307) (c : Clock)
  : option (list (Z * Z)) :=
  option_map (fun st => litPositions (snd st))
             (normalModeRun rtcs (resetPreviousValues c, allOff)).

Definition shownAfter (rtcs : list Ds1307) (c : Clock)
  : option (Z * Z * Z * (Z * Z * Z * Z)) :=
  option_map (fun st => (hoursHand (fst st), minutes (fst st),
                         seconds (fst st), appearance (fst st)))
             (normalModeRun rtcs (resetPreviousValues c, allOff)).

(** Factory face 9: no markers, every hand a trace (the hours one blank). *)
Definition factoryFace9 : Z * Z * Z * Z :=
  (COLOR_BLANK, Z.lor COLOR_BLANK COLOR_TRACE,
   Z.lor COLOR_GREEN COLOR_TRACE, Z.lor COLOR_RED COLOR_TRACE).

(** The same face after the styling menu has switched the seconds hand to
    the Hands style. *)
Definition face9SecondsHands : Z * Z * Z * Z :=
  (COLOR_BLANK, Z.lor COLOR_BLANK COLOR_TRACE,
   Z.lor COLOR_GREEN COLOR_TRACE, Z.lor COLOR_RED COLOR_HANDS).

(** Four successive seconds across 10:11:00, and the last of them alone. *)
Definition ticksAcross1011 : list Ds1307 :=
  [rtcAt 0x10 0x10 0x58; rtcAt 0x10 0x10 0x59; rtcAt 0x10 0x11 0x00;
   rtcAt 0x10 0x11 0x01].

Definition tickAt101101 : list Ds1307 := [rtcAt 0x10 0x11 0x01].

(** Four successive seconds across 10:00:00, and the last of them alone. *)
Definition ticksAcross1000 : list Ds1307 :=
  [rtcAt 0x09 0x59 0x59; rtcAt 0x10 0x00 0x00; rtcAt 0x10 0x00 0x01;
   rtcAt 0x10 0x00 0x02].

Definition tickAt100002 : list Ds1307 := [rtcAt 0x10 0x00 0x02].

(** The seconds hand of factory face 9, a red trace, one second after 59
    and one second after 23. *)
Definition secondsTraceWrapped : Clock :=
  set_seconds 0 (set_previousSeconds 59
    (setAppearance factoryFace9 powerOnClock)).

Definition secondsTraceAdvanced : Clock :=
  set_seconds 24 (set_previousSeconds 23
    (setAppearance factoryFace9 powerOnClock)).

(** Rings with every LED white. *)
Definition allWhite : Rings := fun _ _ => COLOR_WHITE.

(** The three hands, and the variables and blocks of each. *)
Inductive Hand : Set := HoursHand | MinutesHand | SecondsHand.

Definition handColor (h : Hand) (c : Clock) : Z :=
  match h with
  | HoursHand => hoursColor c
  | MinutesHand => minutesColor c
  | SecondsHand => secondsColor c
  end.

Definition handValue (h : Hand) (c : Clock) : Z :=
  match h with
  | HoursHand => hoursHand c
  | MinutesHand => minutes c
  | SecondsHand => seconds c
  end.

Definition handPrevious (h : Hand) (c : Clock) : Z :=
  match h with
  | HoursHand => previousHoursHand c
  | MinutesHand => previousMinutes c
  | SecondsHand => previousSeconds c
  end.

Definition handRing (h : Hand) : Z :=
  match h with
  | HoursHand => RING_HOURS
  | MinutesHand => RING_MINUTES
  | SecondsHand => RING_SECONDS
  end.

Definition clearBlock (h : Hand) : Clock -> option (list RingCmd) :=
  match h with
  | HoursHand => clearHours
  | MinutesHand => clearMinutes
  | SecondsHand => clearSeconds
  end.

Definition drawBlock (h : Hand) : Clock -> option (list RingCmd) :=
  match h with
  | HoursHand => drawHours
  | MinutesHand => drawMinutes
  | SecondsHand => drawSeconds
  end.

(** The positions the styling menu visits. *)
Definition stylingPosition (c : Clock) : Prop :=
  position c = SET_POSITION_HOURS \/ position c = SET_POSITION_MINUTES
  \/ position c = SET_POSITION_SECONDS \/ position c = SET_POSITION_MARKERS.

(** Chords read in a session of the styling menu: one press of button 3
    on the hours field followed by four confirms, and four confirms alone. *)
Definition stylingEditKeys : list Z :=
  [KEY_PRESSED_3; KEY_PRESSED_2; KEY_PRESSED_2; KEY_PRESSED_2; KEY_PRESSED_2].

Definition stylingConfirmKeys : list Z :=
  [KEY_PRESSED_2; KEY_PRESSED_2; KEY_PRESSED_2; KEY_PRESSED_2].

(** The confirms that leave the styling menu from a position. *)
Definition confirmsLeft (pos : Z) : nat :=
  if pos =? SET_POSITION_HOURS then 4
  else if pos =? SET_POSITION_MINUTES then 3
  else if pos =? SET_POSITION_SECONDS then 2
  else if pos =? SET_POSITION_MARKERS then 1
  else 0.

(** The variables that drawing the clock face leaves alone. *)
Definition sameMenuState (c c' : Clock) : Prop :=
  appearance c' = appearance c /\ clockFace c' = clockFace c
  /\ position c' = position c
  /\ settingsChangedFlag c' = settingsChangedFlag c
  /\ exitFlag c' = exitFlag c.

(** The values the renderer compares are bytes. *)
Definition handsAreBytes (c : Clock) : Prop :=
  is_byte (hoursHand c) /\ is_byte (minutes c) /\ is_byte (seconds c)
  /\ is_byte (previousHoursHand c) /\ is_byte (previousMinutes c)
  /\ is_byte (previousSeconds c).

(** No hand is drawn: the colour of each is [COLOR_BLANK]. *)
Definition handsOff (c : Clock) : Prop :=
  Z.land (hoursColor c) 0x0f = COLOR_BLANK
  /\ Z.land (minutesColor c) 0x0f = COLOR_BLANK
  /\ Z.land (secondsColor c) 0x0f = COLOR_BLANK.

(** A command that can only darken. *)
Definition darkens (cmd : RingCmd) : Prop :=
  match cmd with
  | LedWrite _ _ color => color = COLOR_BLANK
  | LedWriteAllInRingOff _ => True
  end.

(** A command that writes one position, not above [v]. *)
Definition writesUpTo (v : Z) (cmd : RingCmd) : Prop :=
  match cmd with
  | LedWrite _ number _ => number <= v
  | LedWriteAllInRingOff _ => False
  end.

(** A command that does not light position [p] of a ring. *)
Definition keepsOff (ring p : Z) (cmd : RingCmd) : Prop :=
  match cmd with
  | LedWrite mask number color =>
      inMask mask ring = true -> number = p -> color = COLOR_BLANK
  | LedWriteAllInRingOff _ => True
  end.

(** The rings a hand is drawn on when its style is Hands. *)
Definition handsMask (h : Hand) : Z :=
  match h with
  | HoursHand => RING_HOURS_MINUTES
  | MinutesHand => RING_HOURS_MINUTES_SECONDS
  | SecondsHand => RING_HOURS_MINUTES_SECONDS
  end.

(** The hand is drawn, and in the style Hands: the branch of [drawHands]
    taken when the colour is not 0, the trace and dot bits are not set and
    the hands bit is. *)
Definition drawnAsHands (h : Hand) (c : Clock) : bool :=
  (Z.land (handColor h c) 0x0f !=? COLOR_BLANK)
  && negb (bitRead (handColor h c) COLOR_BIT_TRACE =? 1)
  && negb (bitRead (handColor h c) COLOR_BIT_DOT =? 1)
  && (bitRead (handColor h c) COLOR_BIT_HANDS =? 1).

(** Position [p] of the ring of [h] is where another hand stands, drawn in
    the style Hands across that ring. *)
Definition underOtherHand (h : Hand) (c : Clock) (p : Z) : Prop :=
  exists h',
    h' <> h /\ drawnAsHands h' c = true
    /\ inMask (handsMask h') (handRing h) = true
    /\ p = handValue h' c.

(** The seconds ring lit in red up to a position, the other rings dark. *)
Definition secondsLitTo (n : Z) : Rings :=
  fun ring p =>
    if (ring =? RING_SECONDS) && (p <=? n) then COLOR_RED else COLOR_BLANK.

(** The seconds hand of factory face 9 set back from 30 to 24. *)
Definition secondsTraceSetBack : Clock :=
  set_seconds 24 (set_previousSeconds 30
    (setAppearance factoryFace9 powerOnClock)).

(** * The rest of the sketch *)

From Stdlib Require Import Ascii.

(** ** Further constants *)

Definition KEY_PRESSED_1_2 : Z := 0x03.

Definition DISPLAY_COLONS_BOTTOM_TWO : Z := 0x04.
Definition DISPLAY_COLONS_TOP_TWO : Z := 0x08.
Definition LED_SEGMENT_ZERO_BYTE : Z := 0x00.

Definition MODE_SET_STYLING : Z := 1.
Definition MODE_SET_SETTINGS : Z := 2.

(** A character is its code. *)
Definition chr (a : ascii) : Z := Z.of_nat (nat_of_ascii a).

Definition DISP_CHAR_BLANK : Z := chr " ".
Definition DISP_CHAR_SELECTED : Z := chr " ".

(** The binary literal [Bb7b6b5b4b3b2b1b0] of the Arduino headers. *)
Definition B (b7 b6 b5 b4 b3 b2 b1 b0 : Z) : Z :=
  128 * b7 + 64 * b6 + 32 * b5 + 16 * b4 + 8 * b3 + 4 * b2 + 2 * b1 + b0.

(** ** The time source, write side *)

(** The registers after [setDateDs1307]: the seven bytes written from
    register 0 on. *)
Definition setDateDs1307 (seconds minutes hours dayOfWeek dayOfMonth
                          months years : Z) : Ds1307 :=
  {| regSeconds := decToBcd seconds;
     regMinutes := decToBcd minutes;
     regHours := decToBcd hours;
     regDayOfWeek := decToBcd dayOfWeek;
     regDayOfMonth := decToBcd dayOfMonth;
     regMonth := decToBcd months;
     regYear := decToBcd years |}.

(** ** Characters and glyphs *)

Definition translateValueToHex (value : Z) : Z :=
  if (0 <=? value) && (value <? 10) then byte (value + chr "0")
  else if (9 <? value) && (value <? 16) then byte (value - 10 + chr "a")
  else chr "?".

Definition translateCharTo7SegDigit (value : Z) (hideZeros : bool) : Z :=
  if value =? chr " " then B 0 0 0 0 0 0 0 0
  else if value =? chr "-" then B 0 1 0 0 0 0 0 0
  else if value =? chr "_" then B 0 0 0 0 1 0 0 0
  else if value =? chr "=" then B 0 1 0 0 1 0 0 0
  else if value =? chr "0" then
    if hideZeros then B 0 0 0 0 0 0 0 0 else B 0 0 1 1 1 1 1 1
  else if (value =? chr "1") || (value =? chr "i") || (value =? chr "I")
       then B 0 0 0 0 0 1 1 0
  else if value =? chr "2" then B 0 1 0 1 1 0 1 1
  else if value =? chr "3" then B 0 1 0 0 1 1 1 1
  else if value =? chr "4" then B 0 1 1 0 0 1 1 0
  else if (value =? chr "5") || (value =? chr "s") || (value =? chr "S")
       then B 0 1 1 0 1 1 0 1
  else if value =? chr "6" then B 0 1 1 1 1 1 0 1
  else if value =? chr "7" then B 0 0 0 0 0 1 1 1
  else if value =? chr "8" then B 0 1 1 1 1 1 1 1
  else if value =? chr "9" then B 0 1 1 0 1 1 1 1
  else if value =? chr "A" then B 0 1 1 1 0 1 1 1
  else if value =? chr "b" then B 0 1 1 1 1 1 0 0
  else if value =? chr "C" then B 0 0 1 1 1 0 0 1
  else if value =? chr "d" then B 0 1 0 1 1 1 1 0
  else if value =? chr "E" then B 0 1 1 1 1 0 0 1
  else if value =? chr "F" then B 0 1 1 1 0 0 0 1
  else if value =? chr "G" then B 0 0 1 1 1 1 0 1
  else if value =? chr "h" then B 0 1 1 1 0 1 0 0
  else if value =? chr "H" then B 0 1 1 1 0 1 1 0
  else if value =? chr "J" then B 0 0 0 1 1 1 1 0
  else if value =? chr "L" then B 0 0 1 1 1 0 0 0
  else if value =? chr "n" then B 0 1 0 1 0 1 0 0
  else if value =? chr "o" then B 0 1 0 1 1 1 0 0
  else if value =? chr "O" then B 0 0 1 1 1 1 1 1
  else if value =? chr "P" then B 0 1 1 1 0 0 1 1
  else if value =? chr "Q" then B 0 1 1 0 0 1 1 1
  else if value =? chr "r" then B 0 1 0 1 0 0 0 0
  else if value =? chr "t" then B 0 1 1 1 1 0 0 0
  else if value =? chr "U" then B 0 0 1 1 1 1 1 0
  else B 0 1 0 1 0 0 1 1.

(** ** The seven-segment display

    The display is driven over I2C; a transaction is the list of the bytes
    written between [beginTransmission] and [endTransmission].  The state
    the display functions keep is the four globals below. *)
Record Segments : Set := mkSegments {
  ledSegmentsStatus : Z;
  ledSegmentsColons : Z;
  ledSegmentsDisplay : Z;
  ledSegmentsCounter : Z
}.

Definition ledSegmentsStatusWriteByte (d : Segments) : Z :=
  let byteToWrite := byte (Z.shiftl (ledSegmentsStatus d) 4) in
  if ledSegmentsColons d =? DISPLAY_COLONS_ON then Z.lor byteToWrite 0x0f
  else if ledSegmentsColons d =? DISPLAY_COLONS_BOTTOM_TWO
       then Z.lor byteToWrite 0x0a
  else if ledSegmentsColons d =? DISPLAY_COLONS_TOP_TWO
       then Z.lor byteToWrite 0x05
  else byteToWrite.

(** [segmentsDisplayChars] is the list of its six characters, index 0
    first. *)
Definition charAt (chars : list Z) (i : nat) : Z := nth i chars 0.

Definition ledSegmentsDisplayChars (chars : list Z) (d : Segments) : list Z :=
  [0x00;
   translateCharTo7SegDigit (charAt chars 5) false; LED_SEGMENT_ZERO_BYTE;
   translateCharTo7SegDigit (charAt chars 4) false; LED_SEGMENT_ZERO_BYTE;
   translateCharTo7SegDigit (charAt chars 3) false; LED_SEGMENT_ZERO_BYTE;
   translateCharTo7SegDigit (charAt chars 2) false; LED_SEGMENT_ZERO_BYTE;
   translateCharTo7SegDigit (charAt chars 1) false; LED_SEGMENT_ZERO_BYTE;
   translateCharTo7SegDigit (charAt chars 0) false; LED_SEGMENT_ZERO_BYTE;
   LED_SEGMENT_ZERO_BYTE;
   ledSegmentsStatusWriteByte d].

Definition ledSegmentsClearAll : list Z :=
  0x00 :: repeat LED_SEGMENT_ZERO_BYTE 16.

(** [None]: the argument is out of range and nothing is sent. *)
Definition setLedSegmentsBrightness (b : Z) : option (list Z) :=
  if 15 <? b then None else Some [Z.lor 0xE0 b].

Definition setLedSegmentsBlink (b : Z) : option (list Z) :=
  if 3 <? b then None else Some [Z.lor (Z.lor 0x80 (Z.shiftl b 1)) 1].

(** The six characters [ledSegmentsDisplayTime] puts in the buffer. *)
Definition timeChars (positionAlternate : Z) (c : Clock) : list Z :=
  [ (if positionAlternate !=? SET_POSITION_HOURS
     then byte (hours c / 10 + chr "0") else DISP_CHAR_SELECTED);
    (if positionAlternate !=? SET_POSITION_HOURS
     then byte (hours c mod 10 + chr "0") else DISP_CHAR_SELECTED);
    (if positionAlternate !=? SET_POSITION_MINUTES
     then byte (minutes c / 10 + chr "0") else DISP_CHAR_SELECTED);
    (if positionAlternate !=? SET_POSITION_MINUTES
     then byte (minutes c mod 10 + chr "0") else DISP_CHAR_SELECTED);
    (if positionAlternate !=? SET_POSITION_SECONDS
     then byte (seconds c / 10 + chr "0") else DISP_CHAR_SELECTED);
    (if positionAlternate !=? SET_POSITION_SECONDS
     then byte (seconds c mod 10 + chr "0") else DISP_CHAR_SELECTED) ].

Definition ledSegmentsDisplayTime (positionAlternate : Z) (c : Clock)
    (d : Segments) : list Z :=
  ledSegmentsDisplayChars (timeChars positionAlternate c) d.

(** The six characters [ledSegmentsDisplayDate] puts in the buffer. *)
Definition dateChars (positionAlternate : Z) (c : Clock) : list Z :=
  [ (if positionAlternate !=? SET_POSITION_YEAR
     then byte (years c / 10 + chr "0") else DISP_CHAR_SELECTED);
    (if positionAlternate !=? SET_POSITION_YEAR
     then byte (years c mod 10 + chr "0") else DISP_CHAR_SELECTED);
    (if positionAlternate !=? SET_POSITION_MONTH
     then byte (months c / 10 + chr "0") else DISP_CHAR_SELECTED);
    (if positionAlternate !=? SET_POSITION_MONTH
     then byte (months c mod 10 + chr "0") else DISP_CHAR_SELECTED);
    (if positionAlternate !=? SET_POSITION_DAY
     then byte (dayOfMonth c / 10 + chr "0") else DISP_CHAR_SELECTED);
    (if positionAlternate !=? SET_POSITION_DAY
     then byte (dayOfMonth c mod 10 + chr "0") else DISP_CHAR_SELECTED) ].

Definition ledSegmentsDisplayDate (positionAlternate : Z) (c : Clock)
    (d : Segments) : list Z :=
  ledSegmentsDisplayChars (dateChars positionAlternate c) d.

(** The six characters [displayHexAndPause] shows. *)
Definition hexChars (hexValue : Z) : list Z :=
  [chr "-"; chr "-";
   translateValueToHex (Z.shiftr hexValue 4);
   translateValueToHex (Z.land hexValue 0x0f);
   chr "-"; chr "-"].

(** [displayHexAndPause]: the transaction it sends, before it waits for a
    key. *)
Definition displayHexAndPause (hexValue : Z) (d : Segments) : list Z :=
  ledSegmentsDisplayChars (hexChars hexValue) d.

(** [drawNormalLedSegments]: the new display state and the transaction sent.
    [None]: [seconds % ledSegmentsToggleSeconds] with a zero divisor. *)
Definition drawNormalLedSegments (c : Clock) (d : Segments)
  : option (Segments * list Z) :=
  d <-
    (if Z.land (ledSegmentsSettings c) DISPLAY_TIME_AND_DATE
        =? DISPLAY_TIME_AND_DATE
     then
       if ledSegmentsToggleSeconds c =? 0 then None
       else
         let d := mkSegments (ledSegmentsStatus d) (ledSegmentsColons d)
                    (ledSegmentsDisplay d)
                    (seconds c mod ledSegmentsToggleSeconds c) in
         if (ledSegmentsCounter d =? 0)
            || (Z.land (ledSegmentsDisplay d) DISPLAY_TIME_AND_DATE
                =? DISPLAY_NONE)
         then
           if (seconds c / ledSegmentsToggleSeconds c) mod 2 =? 0
           then Some (mkSegments (ledSegmentsStatus d) DISPLAY_COLONS_OFF
                        DISPLAY_TIME (ledSegmentsCounter d))
           else Some (mkSegments (ledSegmentsStatus d) (ledSegmentsColons d)
                        DISPLAY_DATE (ledSegmentsCounter d))
         else Some d
     else
       Some (mkSegments (ledSegmentsStatus d) (ledSegmentsColons d)
               (Z.land (ledSegmentsSettings c) DISPLAY_TIME_AND_DATE)
               (ledSegmentsCounter d))) ;;
  if Z.land (ledSegmentsDisplay d) DISPLAY_TIME =? DISPLAY_TIME then
    let colons :=
      if Z.land (ledSegmentsSettings c) DISPLAY_COLONS_FLASH_EVERY_SECOND
         =? DISPLAY_COLONS_FLASH_EVERY_SECOND
      then
        if ledSegmentsColons d =? DISPLAY_COLONS_ON then DISPLAY_COLONS_OFF
        else DISPLAY_COLONS_ON
      else DISPLAY_COLONS_ON in
    let d := mkSegments (ledSegmentsStatus d) colons (ledSegmentsDisplay d)
               (ledSegmentsCounter d) in
    Some (d, ledSegmentsDisplayTime 0 c d)
  else if Z.land (ledSegmentsDisplay d) DISPLAY_DATE =? DISPLAY_DATE then
    let d := mkSegments (ledSegmentsStatus d) DISPLAY_COLONS_BOTTOM_TWO
               (ledSegmentsDisplay d) (ledSegmentsCounter d) in
    Some (d, ledSegmentsDisplayDate 0 c d)
  else Some (d, ledSegmentsClearAll).

(** ** Factory reset *)

(** The [for (byte r = 0; r < DEFAULT_FACTORY_CLOCK_FACES; r++)] loop of
    [writeFactorySettingsToEeprom], from [r] on. *)
Fixpoint writeFactoryFaces (fuel : nat) (r : Z) (e : Eeprom)
  : option Eeprom :=
  match fuel with
  | O => None
  | S fuel' =>
      if r <? DEFAULT_FACTORY_CLOCK_FACES then
        row <- at_index DEFAULT_FACTORY_COLORS r ;;
        let '(mk, h, m, s) := row in
        let e := EEPROM_write (faceAddress r 0) mk e in
        let e := EEPROM_write (faceAddress r 1) h e in
        let e := EEPROM_write (faceAddress r 2) m e in
        let e := EEPROM_write (faceAddress r 3) s e in
        writeFactoryFaces fuel' (byte (r + 1)) e
      else Some e
  end.

Definition writeFactorySettingsToEeprom (e : Eeprom) : option Eeprom :=
  let e := EEPROM_write EEPROM_CLOCK_FACE_NUMBER 0 e in
  let e := EEPROM_write EEPROM_DATE_TIME_AND_COLON
             (Z.lor DISPLAY_TIME_AND_DATE DISPLAY_COLONS_FLASH_EVERY_SECOND)
             e in
  let e := EEPROM_write EEPROM_ALTERNATE_COUNTER 5 e in
  writeFactoryFaces byteFuel 0 e.

(** The buttons as [readPressedKeys] reports them, call after call: the
    [k]-th call returns [readings k]. *)
Definition Readings : Type := nat -> Z.

(** The [for] loop of [ringAnimationUntilNotKeyCombination]: the commands
    sent, [pressedKeys], and whether the function returned from inside the
    loop. *)
Fixpoint animationUntilLoop (n : nat) (loopCtr : Z) (k : nat)
    (color keyCombination : Z) (readings : Readings)
  : list RingCmd * Z * bool :=
  match n with
  | O => ([], keyCombination, false)
  | S n' =>
      let out :=
        ledWrite RING_HOURS_MINUTES_SECONDS (60 - loopCtr) color
        ++ ledWrite RING_HOURS_MINUTES_SECONDS loopCtr color in
      let pressedKeys := readings k in
      if pressedKeys !=? keyCombination then (out, pressedKeys, true)
      else
        let '(rest, pressed, returned) :=
          animationUntilLoop n' (loopCtr + 1) (S k) color keyCombination
            readings in
        (out ++ rest, pressed, returned)
  end.

(** The commands sent and the value [pressedKeys] is left with. *)
Definition ringAnimationUntilNotKeyCombination (color keyCombination : Z)
    (readings : Readings) : list RingCmd * Z :=
  let out0 := ledWrite RING_HOURS_MINUTES_SECONDS 0 color in
  let pressedKeys := readings 0%nat in
  if pressedKeys !=? keyCombination then (out0, pressedKeys)
  else
    let '(out, pressed, returned) :=
      animationUntilLoop 29 1 1 color keyCombination readings in
    if returned then (out0 ++ out, pressed)
    else
      (out0 ++ out ++ ledWrite RING_HOURS_MINUTES_SECONDS 30 color,
       readings 30%nat).

(** One loop of [waitForReleaseAllButtons], on the results of [readKeys]
    call after call, the [k]-th call returning [pins k]: it reads until no
    button is down and gives the number of the next call.  [None]: a button
    is still down when the fuel runs out; the source then goes on
    waiting. *)
Fixpoint waitLoop (fuel : nat) (pins : Readings) (k : nat) : option nat :=
  match fuel with
  | O => None
  | S fuel' =>
      if pins k !=? KEY_PRESSED_NONE then waitLoop fuel' pins (S k)
      else Some (S k)
  end.

(** [waitForReleaseAllButtons]: the loop, the debouncing delay, the loop
    again. *)
Definition waitForReleaseAllButtons (fuel : nat) (pins : Readings)
  : option nat :=
  k <- waitLoop fuel pins 0 ;;
  waitLoop fuel pins k.

(** [userResetFactoryDefaults]: [readings] are the results of
    [readPressedKeys] during the red wipe, [pins] those of [readKeys] during
    the wait for the release that follows when the chord was held.  [None]:
    the wait has not ended when the fuel runs out, or the factory table was
    read outside its rows. *)
Definition userResetFactoryDefaults (fuel : nat) (readings pins : Readings)
    (c : Clock) (e : Eeprom) : option (list RingCmd * Clock * Eeprom) :=
  let r := ringAnimationUntilNotKeyCombination COLOR_RED KEY_PRESSED_1_2
             readings in
  st <-
    (if snd r =? KEY_PRESSED_1_2 then
       _ <- waitForReleaseAllButtons fuel pins ;;
       e <- writeFactorySettingsToEeprom e ;;
       c <- loadFaceSettingsOrFactoryDefaults e
              (loadSettingsOrFactoryDefaults e c) ;;
       Some (ringAnimation COLOR_BLANK ++ ringAnimation COLOR_GREEN, c, e)
     else Some ([], c, e)) ;;
  let '(out, c, e) := st in
  Some (ledWriteAllOff ++ fst r ++ out ++ ringAnimation COLOR_BLANK,
        resetPreviousValues c, e).

(** ** Selecting a menu *)



(** ** The settings menu, whole *)

Definition settingsIter (pressedKeys : Z) (c : Clock) : Clock :=
  set_blinkUpdate 0 (settingsKeys pressedKeys c).

Fixpoint settingsLoop (keys : list Z) (c : Clock) : option Clock :=
  if exitFlag c then Some c
  else
    match keys with
    | [] => None
    | k :: rest => settingsLoop rest (settingsIter k c)
    end.

Definition settingsEntry (c : Clock) : Clock :=
  let c := initUserSelect c in
  let c := set_settingsChangedFlag 0 c in
  set_position SET_POSITION_CLOCK_FACE c.

Definition settingsCommit (c : Clock) (e : Eeprom) : Clock * Eeprom :=
  let e :=
    if 0 <? settingsChangedFlag c then
      let e := EEPROM_write EEPROM_CLOCK_FACE_NUMBER (clockFace c) e in
      let e := EEPROM_write EEPROM_DATE_TIME_AND_COLON
                 (ledSegmentsSettings c) e in
      EEPROM_write EEPROM_ALTERNATE_COUNTER (ledSegmentsToggleSeconds c) e
    else e in
  (resetPreviousValues c, e).

(** [userSettings]: the state it leaves and the EEPROM (the ring commands it
    sends are the wipes of [ringAnimation] and one [ledWriteAllOff]). *)
Definition userSettings (keys : list Z) (c : Clock) (e : Eeprom)
  : option (Clock * Eeprom) :=
  c <- settingsLoop keys (settingsEntry c) ;;
  Some (settingsCommit c e).

(** ** The time and date menu, whole *)

(** One iteration of the loop of [userSetTimeAndDate]: the key blocks, then
    the redraw of the clock face when the time shown has changed. *)
Definition timeDateIter (pressedKeys : Z) (c : Clock)
  : option (list RingCmd * Clock) :=
  c <- timeDateKeys pressedKeys c ;;
  r <- (if (seconds c !=? previousSeconds c)
           || (minutes c !=? previousMinutes c)
           || (hours c !=? previousHours c)
        then drawClockFace c else Some ([], c)) ;;
  Some (fst r, set_blinkUpdate 0 (snd r)).

Fixpoint timeDateLoop (keys : list Z) (c : Clock)
  : option (list RingCmd * Clock) :=
  if exitFlag c then Some ([], c)
  else
    match keys with
    | [] => None
    | k :: rest =>
        r <- timeDateIter k c ;;
        r' <- timeDateLoop rest (snd r) ;;
        Some (fst r ++ fst r', snd r')
    end.

Definition timeDateEntry (c : Clock) : Clock :=
  let c := initUserSelect c in
  let c := set_settingsChangedFlag 0 c in
  set_position SET_POSITION_HOURS c.

(** [userSetTimeAndDate]: the ring commands, the state and the registers of
    the time source it leaves. *)
Definition userSetTimeAndDate (keys : list Z) (c : Clock) (rtc : Ds1307)
  : option (list RingCmd * Clock * Ds1307) :=
  r <- timeDateLoop keys (timeDateEntry c) ;;
  let c := snd r in
  let w :=
    if 0 <? settingsChangedFlag c then
      (ringAnimation COLOR_GREEN,
       setDateDs1307 0 (minutes c) (hours c) (dayOfWeek c) (dayOfMonth c)
         (months c) (years c))
    else (ringAnimation COLOR_BLUE, rtc) in
  Some (fst r ++ fst w ++ ringAnimation COLOR_BLANK,
        resetPreviousValues c, snd w).

(** ** Selecting a face in normal mode *)

(** [userSelectedStyle], after the face keys of [loop]: the wipes, the load
    of the face and the reset of the previous values. *)
Definition userSelectedStyle (e : Eeprom) (c : Clock)
  : option (list RingCmd * Clock) :=
  c <- loadFaceSettingsOrFactoryDefaults e c ;;
  Some (ringAnimation COLOR_WHITE ++ ringAnimation COLOR_BLANK,
        resetPreviousValues c).

(** ** Vocabulary of the further properties *)


(** A hexadecimal digit whose character has a glyph in
    [translateCharTo7SegDigit]: 0 to 9, b and d. *)
Definition hexDigitShown (n : Z) : Prop := 0 <= n < 10 \/ n = 11 \/ n = 13.

(** The ranges the time and date menu keeps its fields in. *)
Definition timeDateInRange (c : Clock) : Prop :=
  0 <= hours c <= 23 /\ 0 <= minutes c <= 59 /\ 0 <= seconds c <= 59
  /\ 0 <= years c <= 99 /\ 1 <= months c <= 12 /\ 1 <= dayOfMonth c <= 31.

(** The positions the time and date menu visits. *)
Definition timeDatePosition (c : Clock) : Prop :=
  SET_POSITION_HOURS <= position c <= SET_POSITION_DAY.

(** Whether the menu loop read button 1 or button 3 before it was left. *)
Fixpoint settingsLoopPressed (keys : list Z) (c : Clock) : bool :=
  if exitFlag c then false
  else
    match keys with
    | [] => false
    | k :: rest =>
        (k =? KEY_PRESSED_1) || (k =? KEY_PRESSED_3)
        || settingsLoopPressed rest (settingsIter k c)
    end.

Fixpoint timeDateLoopPressed (keys : list Z) (c : Clock) : bool :=
  if exitFlag c then false
  else
    match keys with
    | [] => false
    | k :: rest =>
        match timeDateIter k c with
        | Some r =>
            (k =? KEY_PRESSED_1) || (k =? KEY_PRESSED_3)
            || timeDateLoopPressed rest (snd r)
        | None => false
        end
    end.

(** A command that can only light. *)
Definition lights (cmd : RingCmd) : Prop :=
  match cmd with
  | LedWrite _ _ color => color <> COLOR_BLANK
  | LedWriteAllInRingOff _ => False
  end.

(** The positions [drawHourMarkers] visits for a step. *)
Definition markerPositions (steps : Z) : list Z :=
  filter (fun p => p mod steps =? 0) ringPositions.

(** The rings a marker can be drawn on at a position. *)
Definition markerBase (p : Z) : Z :=
  if p =? 0 then RING_HOURS_MINUTES_SECONDS
  else if (p =? 15) || (p =? 30) || (p =? 45) then RING_MINUTES_SECONDS
  else RING_SECONDS.

(** The position written by a command, if it writes one. *)
Definition writtenPosition (cmd : RingCmd) : option Z :=
  match cmd with
  | LedWrite _ number _ => Some number
  | LedWriteAllInRingOff _ => None
  end.

(** Whether a command stream writes position [p]. *)
Definition writesTo (p : Z) (cmds : list RingCmd) : bool :=
  existsb (fun cmd => match writtenPosition cmd with
                      | Some n => p =? n
                      | None => false
                      end) cmds.

(** The positions a command stream writes, in order. *)
Definition writtenPositions (cmds : list RingCmd) : list Z :=
  flat_map (fun cmd => match writtenPosition cmd with
                       | Some n => [n]
                       | None => []
                       end) cmds.

(** What [drawMarkers] may send for a marker at a position: the marker
    colour, not blank, at a multiple of 5 below 60, on a non-empty set of
    rings within those of the position. *)
Definition markerWrite (c : Clock) (cmd : RingCmd) : Prop :=
  exists p,
    cmd = LedWrite (markerRings c p) p (Z.land (hoursMarkerColor c) 0x0f)
    /\ Z.land (hoursMarkerColor c) 0x0f <> COLOR_BLANK
    /\ 0 <= p < 60 /\ p mod 5 = 0
    /\ markerRings c p <> RING_NONE
    /\ Z.land (markerRings c p) (markerBase p) = markerRings c p.



(** The chord is read at each of the 31 readings of the animation. *)
Definition heldThrough (keyCombination : Z) (readings : Readings) : bool :=
  forallb (fun k => readings k =? keyCombination) (seq 0 31).

(** The time and date the clock holds. *)
Definition timeAndDate (c : Clock) : Z * Z * Z * Z * Z * Z * Z :=
  (hours c, minutes c, seconds c, dayOfWeek c, dayOfMonth c, months c,
   years c).

(** ** Further states and inputs used in the statements *)

(** The keys of a session that sets the period: next face, confirm, confirm,
    previous period, confirm, confirm. *)
Definition periodSession : list Z :=
  [KEY_PRESSED_3; KEY_PRESSED_2; KEY_PRESSED_2; KEY_PRESSED_1;
   KEY_PRESSED_2; KEY_PRESSED_2].

Definition atColonField : Clock :=
  set_position SET_POSITION_FLASH_COLON powerOnClock.

(** The alternating mode with the period 60, at second 30. *)
Definition everySixty : Clock :=
  set_seconds 30 (set_ledSegmentsToggleSeconds 60 powerOnClock).



(** The chord of buttons 1 and 2 at every reading of the wipe. *)
Definition chordHeld : Readings := fun _ => KEY_PRESSED_1_2.

(** The pins with buttons 1 and 2 down for three readings, then all up. *)
Definition releasedAfterThree : Readings :=
  fun k => if (k <? 3)%nat then KEY_PRESSED_1_2 else KEY_PRESSED_NONE.

(** ** The buttons *)

(** [readKeys]: a pin reads LOW when its button is down; an argument is
    [true] when the pin reads LOW. *)
Definition readKeys (button1 button2 button3 : bool) : Z :=
  let result := KEY_PRESSED_NONE in
  let result := if button1 then Z.lor result KEY_PRESSED_1 else result in
  let result := if button2 then Z.lor result KEY_PRESSED_2 else result in
  if button3 then Z.lor result KEY_PRESSED_3 else result.

(** [readPressedKeys], from the two results of [readKeys] it compares. *)
Definition readPressedKeys (result1 result2 : Z) : Z :=
  if result1 =? result2 then result1 else KEY_PRESSED_NONE.

(** ** The displays of the styling and settings menus *)

Definition DISP_FACE : list Z :=
  [chr "F"; chr "A"; chr "C"; chr "E"; chr " "; chr " "].


(** The six characters [ledSegmentsDisplaySettings] puts in the buffer. *)
Definition settingsChars (positionAlternate : Z) (c : Clock) : list Z :=
  if position c =? SET_POSITION_CLOCK_FACE then
    if positionAlternate !=? SET_POSITION_CLOCK_FACE
    then firstn 5 DISP_FACE ++ [byte (clockFace c + chr "0")]
    else DISP_FACE
  else
    let '(c0, c1) :=
      if positionAlternate =? SET_POSITION_TIME_DATE
      then (DISP_CHAR_SELECTED, DISP_CHAR_SELECTED)
      else
        let value := Z.land (ledSegmentsSettings c) 0xf0 in
        if value =? DISPLAY_TIME_AND_DATE then (chr "t", chr "d")
        else if value =? DISPLAY_TIME then (chr "t", DISP_CHAR_BLANK)
        else if value =? DISPLAY_DATE then (DISP_CHAR_BLANK, chr "d")
        else (chr "n", chr "o") in
    let '(c2, c3) :=
      if positionAlternate =? SET_POSITION_ALT_TIMER
      then (DISP_CHAR_SELECTED, DISP_CHAR_SELECTED)
      else
        ((if ledSegmentsToggleSeconds c <? 10 then DISP_CHAR_BLANK
          else byte (ledSegmentsToggleSeconds c / 10 + chr "0")),
         byte (ledSegmentsToggleSeconds c mod 10 + chr "0")) in
    let '(c4, c5) :=
      if positionAlternate =? SET_POSITION_FLASH_COLON
      then (DISP_CHAR_SELECTED, DISP_CHAR_SELECTED)
      else
        let value := Z.land (ledSegmentsSettings c) 0x0f in
        if value =? DISPLAY_COLONS_FLASH_EVERY_SECOND
        then (chr "F", chr "L")
        else (chr "o", chr "n") in
    [c0; c1; c2; c3; c4; c5].


(** A display mode of the settings menu. *)
Definition displayMode (x : Z) : Prop :=
  Z.land x 0xf0 = DISPLAY_NONE \/ Z.land x 0xf0 = DISPLAY_TIME
  \/ Z.land x 0xf0 = DISPLAY_DATE \/ Z.land x 0xf0 = DISPLAY_TIME_AND_DATE.

(** * Properties *)

(** ** Worked values *)

Example bcdToDec_0x58 : bcdToDec 0x58 = 58.
Proof. reflexivity. Qed.

Example int8_200 : int8 200 = -56.
Proof. reflexivity. Qed.

Example hours_hand_at_22_10 :
  option_map (fun r => hoursHand (snd r))
    (drawClockFace (set_hours 22 (set_minutes 10 powerOnClock)))
  = Some 50.
Proof. reflexivity. Qed.

Example alt_time_steps :
  map findNextAltTime [1; 2; 5; 10; 15; 30; 60; 7]
  = [2; 5; 10; 15; 30; 60; 1; 1]
  /\ map findPreviousAltTime [1; 2; 5; 10; 15; 30; 60; 7]
     = [60; 1; 2; 5; 10; 15; 30; 60].
Proof. split; reflexivity. Qed.

Example hours_dec_wraps_to_23 :
  option_map hours
    (timeDateKeys KEY_PRESSED_1
       (set_position SET_POSITION_HOURS powerOnClock))
  = Some 23.
Proof. reflexivity. Qed.

Example february_of_year_23 :
  getDaysMaxBasedOnMonthAndLeapYear
    (set_months 2 (set_years 23 powerOnClock)) = 28.
Proof. reflexivity. Qed.

Example ring_animation_length : length (ringAnimation COLOR_WHITE) = 60%nat.
Proof. reflexivity. Qed.

Example twelve_marker_under_seconds_hand :
  markerRings (set_secondsColor (Z.lor COLOR_RED COLOR_HANDS) powerOnClock) 0
  = RING_NONE.
Proof. reflexivity. Qed.

(** ** Loops *)

Lemma for_loop_down (P : RingCmd -> Prop) (body : Z -> list RingCmd)
    (downTo : Z) :
  0 <= downTo ->
  (forall r, Forall P (body r)) ->
  forall (fuel : nat) (from : Z),
    0 <= from < Z.of_nat fuel -> from < 256 ->
    exists l,
      for_loop fuel from (fun r => downTo <? r) (fun r => byte (r - 1)) body
      = Some l
      /\ Forall P l
      /\ (from <= downTo -> l = []).
Proof.
  intros Hlo Hbody fuel.
  induction fuel as [|fuel IH]; intros from Hfrom Hbyte; [lia|].
  cbn [for_loop].
  destruct (downTo <? from) eqn:Hc.
  - apply Z.ltb_lt in Hc.
    assert (Hb : byte (from - 1) = from - 1)
      by (unfold byte; apply Z.mod_small; lia).
    rewrite Hb.
    destruct (IH (from - 1)) as (l & -> & Hl & _); [lia | lia |].
    cbn [bind]. eexists; split; [reflexivity|].
    split; [apply Forall_app; auto | lia].
  - exists []. repeat split; auto.
Qed.

Lemma for_down_total (P : RingCmd -> Prop) (body : Z -> list RingCmd)
    (from downTo : Z) :
  is_byte from -> 0 <= downTo ->
  (forall r, Forall P (body r)) ->
  exists l, for_down from downTo body = Some l /\ Forall P l
            /\ (from <= downTo -> l = []).
Proof.
  intros Hf Hlo Hbody. unfold for_down, byteFuel.
  unfold is_byte in Hf. apply for_loop_down; auto; lia.
Qed.

Lemma for_loop_up (P : RingCmd -> Prop) (body : Z -> list RingCmd)
    (upTo : Z) :
  upTo < 255 ->
  forall (fuel : nat) (from : Z),
    0 <= from ->
    Z.max 0 (upTo - from + 1) < Z.of_nat fuel ->
    (forall r, from <= r <= upTo -> Forall P (body r)) ->
    exists l,
      for_loop fuel from (fun r => r <=? upTo) (fun r => byte (r + 1)) body
      = Some l
      /\ Forall P l.
Proof.
  intros Hhi fuel.
  induction fuel as [|fuel IH]; intros from Hfrom Hfuel Hbody.
  - exfalso. cbn in Hfuel. lia.
  - cbn [for_loop].
    destruct (from <=? upTo) eqn:Hc.
    + apply Z.leb_le in Hc.
      assert (Hb : byte (from + 1) = from + 1)
        by (unfold byte; apply Z.mod_small; lia).
      rewrite Hb.
      destruct (IH (from + 1)) as (l & -> & Hl); [lia | lia | |].
      * intros r Hr. apply Hbody. lia.
      * cbn [bind]. eexists; split; [reflexivity|].
        apply Forall_app; split; auto. apply Hbody. lia.
    + exists []. split; auto.
Qed.

(** ** Reading the record *)

Ltac clock_simpl :=
  cbn [hours minutes seconds dayOfWeek dayOfMonth months years hoursHand
       previousHoursHand previousHours previousMinutes previousSeconds
       clockFace hoursMarkerColor hoursColor minutesColor secondsColor
       ledSegmentsSettings ledSegmentsToggleSeconds position
       settingsChangedFlag blinkUpdate exitFlag
       set_hours set_minutes set_seconds set_dayOfWeek set_dayOfMonth
       set_months set_years set_hoursHand set_previousHoursHand
       set_previousHours set_previousMinutes set_previousSeconds
       set_clockFace set_hoursMarkerColor set_hoursColor set_minutesColor
       set_secondsColor set_ledSegmentsSettings set_ledSegmentsToggleSeconds
       set_position set_settingsChangedFlag set_blinkUpdate set_exitFlag
       fst snd bind appearance resetPreviousValues initUserSelect] in *.

(** ** Loading the persistent settings *)

Lemma face_index_cases (f : Z) :
  0 <= f < DEFAULT_FACTORY_CLOCK_FACES ->
  f = 0 \/ f = 1 \/ f = 2 \/ f = 3 \/ f = 4 \/ f = 5 \/ f = 6 \/ f = 7
  \/ f = 8 \/ f = 9.
Proof. unfold DEFAULT_FACTORY_CLOCK_FACES. lia. Qed.

Lemma load_face_reads_zero (e : Eeprom) (c : Clock) :
  (forall k, 0 <= k < 4 -> EEPROM_read (faceAddress (clockFace c) k) e = 0) ->
  loadFaceSettingsOrFactoryDefaults e c
  = (row <- at_index DEFAULT_FACTORY_COLORS (clockFace c) ;;
     Some (setAppearance row c)).
Proof.
  intros Hz. unfold loadFaceSettingsOrFactoryDefaults. clock_simpl.
  rewrite (Hz 0), (Hz 1), (Hz 2), (Hz 3) by lia.
  cbn [Z.eqb andb].
  destruct (at_index DEFAULT_FACTORY_COLORS (clockFace c))
    as [[[[mk h] m] s]|]; reflexivity.
Qed.

(** C2.  For every face index in [0, 10): when the four bytes of the stored
    record of that face read zero, loading returns, and the appearance it
    leaves is the row of that index in the factory table, for the same face
    index; that appearance does not have all hands off. *)
Theorem load_all_zero_record_gives_factory_row (e : Eeprom) (c : Clock) :
  0 <= clockFace c < DEFAULT_FACTORY_CLOCK_FACES ->
  (forall k, 0 <= k < 4 -> EEPROM_read (faceAddress (clockFace c) k) e = 0) ->
  exists c',
    loadFaceSettingsOrFactoryDefaults e c = Some c'
    /\ at_index DEFAULT_FACTORY_COLORS (clockFace c) = Some (appearance c')
    /\ clockFace c' = clockFace c
    /\ appearance c' <> (0, 0, 0, 0)
    /\ ~ handsOff c'.
Proof.
  intros Hf Hz. rewrite (load_face_reads_zero e c Hz).
  destruct (face_index_cases _ Hf) as [H|[H|[H|[H|[H|[H|[H|[H|[H|H]]]]]]]]];
    rewrite H; cbn [at_index Z.ltb Z.compare Z.to_nat Pos.to_nat
                    Pos.iter_op Nat.add nth_error DEFAULT_FACTORY_COLORS bind];
    (eexists; split; [reflexivity|]);
    unfold setAppearance, handsOff; clock_simpl;
    (split; [reflexivity|]); (split; [assumption|]);
    (split; [vm_compute; discriminate|]);
    intros (_ & _ & Hs); vm_compute in Hs; discriminate.
Qed.

Lemma load_all_zero_record_gives_factory_row_witness :
  0 <= clockFace (set_clockFace 7 powerOnClock) < DEFAULT_FACTORY_CLOCK_FACES
  /\ exists c',
       loadFaceSettingsOrFactoryDefaults zeroEeprom
         (set_clockFace 7 powerOnClock) = Some c'
       /\ at_index DEFAULT_FACTORY_COLORS
            (clockFace (set_clockFace 7 powerOnClock))
          = Some (appearance c')
       /\ clockFace c' = clockFace (set_clockFace 7 powerOnClock)
       /\ appearance c' <> (0, 0, 0, 0)
       /\ ~ handsOff c'.
Proof.
  split.
  - cbn. unfold DEFAULT_FACTORY_CLOCK_FACES. lia.
  - apply (load_all_zero_record_gives_factory_row zeroEeprom
             (set_clockFace 7 powerOnClock)).
    + cbn. unfold DEFAULT_FACTORY_CLOCK_FACES. lia.
    + intros k _. reflexivity.
Defined.

(** C8.  With the stored record of the face all zero, loading face index 3
    leaves the fourth row of the factory table,
    {RED|QUARTERS, BLANK|DOT, BLANK|DOT, BLUE|TRACE}; the record
    {ORANGE|TWELTH, BLANK|DOT, GREEN|TRACE, BLUE|TRACE} is the fifth row and
    is what loading face index 4 leaves. *)
Theorem load_zero_record_faces_3_and_4 (e : Eeprom) (c : Clock) :
  (forall k, 0 <= k < 4 -> EEPROM_read (faceAddress (clockFace c) k) e = 0) ->
  (clockFace c = 3 ->
   option_map appearance (loadFaceSettingsOrFactoryDefaults e c)
   = Some (Z.lor COLOR_RED MARKER_HOUR_QUARTERS, Z.lor COLOR_BLANK COLOR_DOT,
           Z.lor COLOR_BLANK COLOR_DOT, Z.lor COLOR_BLUE COLOR_TRACE))
  /\ (clockFace c = 4 ->
      option_map appearance (loadFaceSettingsOrFactoryDefaults e c)
      = Some (Z.lor COLOR_ORANGE MARKER_HOUR_TWELTH,
              Z.lor COLOR_BLANK COLOR_DOT,
              Z.lor COLOR_GREEN COLOR_TRACE, Z.lor COLOR_BLUE COLOR_TRACE)).
Proof.
  intros Hz. rewrite (load_face_reads_zero e c Hz).
  split; intros ->; reflexivity.
Qed.

Lemma load_zero_record_faces_3_and_4_witness :
  (option_map appearance
     (loadFaceSettingsOrFactoryDefaults zeroEeprom
        (set_clockFace 3 powerOnClock))
   = Some (0x21, 0x20, 0x20, 0x44))
  /\ (option_map appearance
        (loadFaceSettingsOrFactoryDefaults zeroEeprom
           (set_clockFace 4 powerOnClock))
      = Some (0x43, 0x20, 0x42, 0x44)).
Proof.
  split.
  - apply (load_zero_record_faces_3_and_4 zeroEeprom
             (set_clockFace 3 powerOnClock)); [intros k _|]; reflexivity.
  - apply (load_zero_record_faces_3_and_4 zeroEeprom
             (set_clockFace 4 powerOnClock)); [intros k _|]; reflexivity.
Defined.

(** C8, as stated, fails: face index 3 with an all-zero stored record does
    not load as {ORANGE|TWELTH, BLANK|DOT, GREEN|TRACE, BLUE|TRACE}. *)
Lemma load_zero_record_face_3_is_not_orange_twelfth :
  option_map appearance
    (loadFaceSettingsOrFactoryDefaults zeroEeprom
       (set_clockFace 3 powerOnClock))
  <> Some (Z.lor COLOR_ORANGE MARKER_HOUR_TWELTH, Z.lor COLOR_BLANK COLOR_DOT,
           Z.lor COLOR_GREEN COLOR_TRACE, Z.lor COLOR_BLUE COLOR_TRACE).
Proof. vm_compute. discriminate. Qed.

(** C4.  The stored face index 10 is outside [0, 10) and is kept as it is:
    the validation compares with [>], so only the values above 10 are
    replaced by 0. *)
Theorem load_settings_keeps_face_index_10 (e : Eeprom) (c : Clock) :
  clockFace (loadSettingsOrFactoryDefaults
               (EEPROM_write EEPROM_CLOCK_FACE_NUMBER 10 e) c) = 10
  /\ forall stored,
       clockFace (loadSettingsOrFactoryDefaults
                    (EEPROM_write EEPROM_CLOCK_FACE_NUMBER stored e) c)
       = if 10 <? stored then 0 else stored.
Proof.
  assert (H : forall stored,
             clockFace (loadSettingsOrFactoryDefaults
                          (EEPROM_write EEPROM_CLOCK_FACE_NUMBER stored e) c)
             = if 10 <? stored then 0 else stored).
  { intros stored. unfold loadSettingsOrFactoryDefaults, EEPROM_read,
      EEPROM_write, EEPROM_CLOCK_FACE_NUMBER, DEFAULT_FACTORY_CLOCK_FACES.
    cbn [cell]. clock_simpl. cbn [Z.eqb].
    destruct (10 <? stored); clock_simpl;
      match goal with |- context [if ?b then _ else _] =>
        destruct b end; reflexivity. }
  split; [apply (H 10) | exact H].
Qed.

(** C10.  With 10 stored as the face index and the four bytes of the record
    at offsets 110 to 113 zero, the face index that reaches the face loader
    is 10, and the factory table, which has rows 0 to 9, is read at row 10. *)
Theorem setup_reads_factory_table_at_row_10 (e : Eeprom) (c : Clock) :
  let e' :=
    EEPROM_write 113 0 (EEPROM_write 112 0 (EEPROM_write 111 0
      (EEPROM_write 110 0 (EEPROM_write EEPROM_CLOCK_FACE_NUMBER 10 e)))) in
  clockFace (loadSettingsOrFactoryDefaults e' c) = 10
  /\ length DEFAULT_FACTORY_COLORS = 10%nat
  /\ at_index DEFAULT_FACTORY_COLORS 10 = None
  /\ loadFaceSettingsOrFactoryDefaults e' (loadSettingsOrFactoryDefaults e' c)
     = bind (at_index DEFAULT_FACTORY_COLORS 10)
            (fun row => Some (setAppearance row
                                (loadSettingsOrFactoryDefaults e' c)))
  /\ setup_load e' c = None.
Proof.
  intros e'.
  assert (Hf : clockFace (loadSettingsOrFactoryDefaults e' c) = 10).
  { unfold loadSettingsOrFactoryDefaults, EEPROM_read, e', EEPROM_write,
      EEPROM_CLOCK_FACE_NUMBER, DEFAULT_FACTORY_CLOCK_FACES.
    cbn [cell]. clock_simpl. cbn [Z.eqb Z.ltb Z.compare Pos.compare
                                  Pos.compare_cont]. clock_simpl.
    match goal with |- context [if ?b then _ else _] =>
      destruct b end; reflexivity. }
  assert (Hl : loadFaceSettingsOrFactoryDefaults e'
                 (loadSettingsOrFactoryDefaults e' c)
               = bind (at_index DEFAULT_FACTORY_COLORS 10)
                   (fun row => Some (setAppearance row
                      (loadSettingsOrFactoryDefaults e' c)))).
  { rewrite load_face_reads_zero; [rewrite Hf; reflexivity|].
    intros k Hk. rewrite Hf.
    assert (Hk' : k = 0 \/ k = 1 \/ k = 2 \/ k = 3) by lia.
    destruct Hk' as [-> | [-> | [-> | ->]]]; reflexivity. }
  split; [exact Hf|]. split; [reflexivity|]. split; [reflexivity|].
  split; [exact Hl|].
  unfold setup_load. rewrite Hl. reflexivity.
Qed.

(** ** Bytes and nibbles *)

Lemma byte_small (z : Z) : 0 <= z < 256 -> byte z = z.
Proof. intros H. unfold byte. apply Z.mod_small. exact H. Qed.

Lemma int8_small (z : Z) : 0 <= z < 128 -> int8 z = z.
Proof.
  intros H. unfold int8. rewrite Z.mod_small by lia.
  destruct (z <? 128) eqn:E; [reflexivity|].
  apply Z.ltb_ge in E. lia.
Qed.

Lemma low_nibble_range (x : Z) : 0 <= Z.land x 0x0f < 16.
Proof.
  change 0x0f with (Z.ones 4). rewrite Z.land_ones by lia.
  apply Z.mod_pos_bound. reflexivity.
Qed.

Lemma low_of_low (x : Z) : Z.land (Z.land x 0x0f) 0x0f = Z.land x 0x0f.
Proof. rewrite <- Z.land_assoc. reflexivity. Qed.

Lemma high_of_low (x : Z) : Z.land (Z.land x 0x0f) 0xf0 = 0.
Proof.
  rewrite <- Z.land_assoc. change (Z.land 0x0f 0xf0) with 0.
  apply Z.land_0_r.
Qed.

Lemma low_of_high (x : Z) : Z.land (Z.land x 0xf0) 0x0f = 0.
Proof.
  rewrite <- Z.land_assoc. change (Z.land 0xf0 0x0f) with 0.
  apply Z.land_0_r.
Qed.

Lemma high_of_high (x : Z) : Z.land (Z.land x 0xf0) 0xf0 = Z.land x 0xf0.
Proof. rewrite <- Z.land_assoc. reflexivity. Qed.

(** The low nibble of [(a & 0x0f) | (v & 0xf0)] is the low nibble of [a]. *)
Lemma low_of_packed (a v : Z) :
  Z.land (Z.lor (Z.land a 0x0f) (Z.land v 0xf0)) 0x0f = Z.land a 0x0f.
Proof.
  rewrite Z.land_lor_distr_l, low_of_low, low_of_high. apply Z.lor_0_r.
Qed.

(** The high nibble of [(a & 0x0f) | (v & 0xf0)] is the high nibble of [v]. *)
Lemma high_of_packed (a v : Z) :
  Z.land (Z.lor (Z.land a 0x0f) (Z.land v 0xf0)) 0xf0 = Z.land v 0xf0.
Proof.
  rewrite Z.land_lor_distr_l, high_of_low, high_of_high. reflexivity.
Qed.

(** The low nibble of [(a & 0xf0) | (v & 0x0f)] is the low nibble of [v]. *)
Lemma low_of_packed' (a v : Z) :
  Z.land (Z.lor (Z.land a 0xf0) (Z.land v 0x0f)) 0x0f = Z.land v 0x0f.
Proof.
  rewrite Z.land_lor_distr_l, low_of_high, low_of_low. reflexivity.
Qed.

(** ** The settings menu *)

Lemma settings_display_mode_edit (key : Z) (c : Clock) :
  key = KEY_PRESSED_1 \/ key = KEY_PRESSED_3 ->
  position c = SET_POSITION_TIME_DATE ->
  exists value,
    settingsKeys key c
    = set_blinkUpdate 2 (set_settingsChangedFlag 1
        (set_ledSegmentsSettings
           (Z.lor (Z.land (minutesColor c) 0x0f) (Z.land value 0xf0)) c)).
Proof.
  intros Hk Hp. unfold settingsKeys.
  destruct Hk as [-> | ->].
  - change (KEY_PRESSED_1 =? KEY_PRESSED_1) with true.
    change (KEY_PRESSED_1 =? KEY_PRESSED_3) with false.
    change (KEY_PRESSED_1 =? KEY_PRESSED_2) with false.
    cbv iota zeta. rewrite Hp.
    change (SET_POSITION_TIME_DATE =? SET_POSITION_CLOCK_FACE) with false.
    change (SET_POSITION_TIME_DATE =? SET_POSITION_TIME_DATE) with true.
    cbv iota.
    unfold setSettingByPosition.
    change (SET_POSITION_TIME_DATE =? SET_POSITION_CLOCK_FACE) with false.
    change (SET_POSITION_TIME_DATE =? SET_POSITION_TIME_DATE) with true.
    cbv iota. eexists; reflexivity.
  - change (KEY_PRESSED_3 =? KEY_PRESSED_1) with false.
    change (KEY_PRESSED_3 =? KEY_PRESSED_3) with true.
    change (KEY_PRESSED_3 =? KEY_PRESSED_2) with false.
    cbv iota zeta. rewrite Hp.
    change (SET_POSITION_TIME_DATE =? SET_POSITION_CLOCK_FACE) with false.
    change (SET_POSITION_TIME_DATE =? SET_POSITION_TIME_DATE) with true.
    cbv iota.
    unfold setSettingByPosition.
    change (SET_POSITION_TIME_DATE =? SET_POSITION_CLOCK_FACE) with false.
    change (SET_POSITION_TIME_DATE =? SET_POSITION_TIME_DATE) with true.
    cbv iota. eexists; reflexivity.
Qed.

(** C5.  An edit of the display-mode field does not keep the colon nibble:
    it replaces it by the colour nibble of the minutes hand.  With the
    factory face 2 active (minutes BLANK|DOT) and the settings byte
    TIME_AND_DATE|FLASH_EVERY_SECOND, Dec leaves the byte [DISPLAY_TIME]
    and Inc leaves [DISPLAY_NONE], both with colon nibble 0. *)
Theorem display_mode_edit_replaces_colon_nibble (c : Clock) :
  let edit key := settingsKeys key (set_position SET_POSITION_TIME_DATE c) in
  Z.land (ledSegmentsSettings (edit KEY_PRESSED_1)) 0x0f
  = Z.land (minutesColor c) 0x0f
  /\ Z.land (ledSegmentsSettings (edit KEY_PRESSED_3)) 0x0f
     = Z.land (minutesColor c) 0x0f
  /\ (let face2 :=
        setAppearance (Z.lor COLOR_BLUE MARKER_HOUR_EVERY,
                       Z.lor COLOR_BLANK COLOR_DOT,
                       Z.lor COLOR_BLANK COLOR_DOT,
                       Z.lor COLOR_RED COLOR_TRACE)
          (set_position SET_POSITION_TIME_DATE powerOnClock) in
      Z.land (ledSegmentsSettings face2) 0x0f
      = DISPLAY_COLONS_FLASH_EVERY_SECOND
      /\ ledSegmentsSettings (settingsKeys KEY_PRESSED_1 face2)
         = Z.lor DISPLAY_TIME DISPLAY_COLONS_OFF
      /\ ledSegmentsSettings (settingsKeys KEY_PRESSED_3 face2)
         = Z.lor DISPLAY_NONE DISPLAY_COLONS_OFF).
Proof.
  intros edit.
  assert (H : forall key, key = KEY_PRESSED_1 \/ key = KEY_PRESSED_3 ->
                Z.land (ledSegmentsSettings (edit key)) 0x0f
                = Z.land (minutesColor c) 0x0f).
  { intros key Hk. unfold edit.
    destruct (settings_display_mode_edit key
                (set_position SET_POSITION_TIME_DATE c) Hk eq_refl)
      as (value & ->).
    clock_simpl. apply low_of_packed. }
  split; [apply H; left; reflexivity|].
  split; [apply H; right; reflexivity|].
  vm_compute. repeat split.
Qed.

Lemma settings_face_edit (c : Clock) :
  position c = SET_POSITION_CLOCK_FACE ->
  clockFace (settingsKeys KEY_PRESSED_1 c)
  = (if DEFAULT_FACTORY_CLOCK_FACES <=? byte (clockFace c - 1) then 0
     else byte (clockFace c - 1))
  /\ clockFace (settingsKeys KEY_PRESSED_3 c)
     = (if DEFAULT_FACTORY_CLOCK_FACES <=? byte (clockFace c + 1)
        then DEFAULT_FACTORY_CLOCK_FACES - 1
        else byte (clockFace c + 1)).
Proof.
  intros Hp. unfold settingsKeys. split.
  - change (KEY_PRESSED_1 =? KEY_PRESSED_1) with true.
    change (KEY_PRESSED_1 =? KEY_PRESSED_3) with false.
    change (KEY_PRESSED_1 =? KEY_PRESSED_2) with false.
    cbv iota zeta. rewrite Hp.
    change (SET_POSITION_CLOCK_FACE =? SET_POSITION_CLOCK_FACE) with true.
    cbv iota. unfold setSettingByPosition, getSettingByPosition.
    change (SET_POSITION_CLOCK_FACE =? SET_POSITION_CLOCK_FACE) with true.
    cbv iota. reflexivity.
  - change (KEY_PRESSED_3 =? KEY_PRESSED_1) with false.
    change (KEY_PRESSED_3 =? KEY_PRESSED_3) with true.
    change (KEY_PRESSED_3 =? KEY_PRESSED_2) with false.
    cbv iota zeta. rewrite Hp.
    change (SET_POSITION_CLOCK_FACE =? SET_POSITION_CLOCK_FACE) with true.
    cbv iota. unfold setSettingByPosition, getSettingByPosition.
    change (SET_POSITION_CLOCK_FACE =? SET_POSITION_CLOCK_FACE) with true.
    cbv iota. reflexivity.
Qed.

(** C6.  In the settings menu the face index stays in [0, 10) by
    saturating: Inc adds one below 9 and leaves 9 at 9, Dec subtracts one
    above 0 and leaves 0 at 0.  The face selection of normal mode, at the
    head of [loop], is the one that wraps: next at 9 gives 0, previous at 0
    gives 9. *)
Theorem settings_face_index_saturates (c : Clock) :
  position c = SET_POSITION_CLOCK_FACE ->
  0 <= clockFace c < DEFAULT_FACTORY_CLOCK_FACES ->
  clockFace (settingsKeys KEY_PRESSED_3 c) = Z.min (clockFace c + 1) 9
  /\ clockFace (settingsKeys KEY_PRESSED_1 c) = Z.max (clockFace c - 1) 0
  /\ (clockFace c = 9 -> clockFace (settingsKeys KEY_PRESSED_3 c) = 9)
  /\ (clockFace c = 0 -> clockFace (settingsKeys KEY_PRESSED_1 c) = 0)
  /\ clockFace (loopFaceKeys KEY_PRESSED_3 c) = (clockFace c + 1) mod 10
  /\ clockFace (loopFaceKeys KEY_PRESSED_1 c) = (clockFace c - 1) mod 10.
Proof.
  intros Hp Hf.
  destruct (settings_face_edit c Hp) as (Hdec & Hinc).
  assert (Hi : clockFace (settingsKeys KEY_PRESSED_3 c)
               = Z.min (clockFace c + 1) 9).
  { rewrite Hinc.
    destruct (face_index_cases _ Hf) as [H|[H|[H|[H|[H|[H|[H|[H|[H|H]]]]]]]]];
      rewrite H; reflexivity. }
  assert (Hd : clockFace (settingsKeys KEY_PRESSED_1 c)
               = Z.max (clockFace c - 1) 0).
  { rewrite Hdec.
    destruct (face_index_cases _ Hf) as [H|[H|[H|[H|[H|[H|[H|[H|[H|H]]]]]]]]];
      rewrite H; reflexivity. }
  split; [exact Hi|]. split; [exact Hd|].
  split; [intros H; rewrite Hi, H; reflexivity|].
  split; [intros H; rewrite Hd, H; reflexivity|].
  unfold loopFaceKeys.
  change (KEY_PRESSED_3 =? KEY_PRESSED_1) with false.
  change (KEY_PRESSED_3 =? KEY_PRESSED_3) with true.
  change (KEY_PRESSED_1 =? KEY_PRESSED_1) with true.
  change (KEY_PRESSED_1 =? KEY_PRESSED_3) with false.
  cbv iota zeta. clock_simpl.
  split;
    destruct (face_index_cases _ Hf) as [H|[H|[H|[H|[H|[H|[H|[H|[H|H]]]]]]]]];
    rewrite H; reflexivity.
Qed.

Lemma settings_face_index_saturates_witness :
  position faceFieldAt9 = SET_POSITION_CLOCK_FACE
  /\ 0 <= clockFace faceFieldAt9 < DEFAULT_FACTORY_CLOCK_FACES
  /\ clockFace (settingsKeys KEY_PRESSED_3 faceFieldAt9) = 9
  /\ clockFace (loopFaceKeys KEY_PRESSED_3 faceFieldAt9) = 0.
Proof.
  assert (Hf : 0 <= clockFace faceFieldAt9 < DEFAULT_FACTORY_CLOCK_FACES)
    by (cbn; unfold DEFAULT_FACTORY_CLOCK_FACES; lia).
  pose proof (settings_face_index_saturates faceFieldAt9 eq_refl Hf) as H.
  split; [reflexivity|]. split; [exact Hf|].
  split.
  - apply H. reflexivity.
  - destruct H as (_ & _ & _ & _ & H & _). rewrite H. reflexivity.
Defined.

(** C6, as stated, fails: in the settings menu Inc at face index 9 does not
    give 0 and Dec at face index 0 does not give 9. *)
Lemma settings_face_index_does_not_wrap :
  clockFace (settingsKeys KEY_PRESSED_3 faceFieldAt9) <> 0
  /\ clockFace (settingsKeys KEY_PRESSED_1 faceFieldAt0) <> 9.
Proof. split; vm_compute; discriminate. Qed.

(** ** The time and date menu *)

Lemma days_max_values (c : Clock) :
  getDaysMaxBasedOnMonthAndLeapYear c = 28
  \/ getDaysMaxBasedOnMonthAndLeapYear c = 29
  \/ getDaysMaxBasedOnMonthAndLeapYear c = 30
  \/ getDaysMaxBasedOnMonthAndLeapYear c = 31.
Proof.
  unfold getDaysMaxBasedOnMonthAndLeapYear.
  destruct ((months c =? 4) || (months c =? 6) || (months c =? 9)
            || (months c =? 11)); [auto|].
  destruct (months c =? 2); [|auto].
  destruct (years c mod 4 =? 0); auto.
Qed.

Lemma day_inc (c : Clock) :
  position c = SET_POSITION_DAY ->
  0 <= dayOfMonth c < 127 ->
  option_map dayOfMonth (timeDateKeys KEY_PRESSED_3 c)
  = Some (if getDaysMaxBasedOnMonthAndLeapYear c <? dayOfMonth c + 1
          then 1 else dayOfMonth c + 1).
Proof.
  intros Hp Hd. unfold timeDateKeys.
  change (KEY_PRESSED_3 =? KEY_PRESSED_1) with false.
  change (KEY_PRESSED_3 =? KEY_PRESSED_3) with true.
  change (KEY_PRESSED_3 =? KEY_PRESSED_2) with false.
  cbv iota. cbn [bind]. rewrite Hp.
  change (SET_POSITION_DAY =? SET_POSITION_DAY) with true. cbv iota.
  unfold getValueByPosition.
  change (SET_POSITION_DAY =? SET_POSITION_HOURS) with false.
  change (SET_POSITION_DAY =? SET_POSITION_MINUTES) with false.
  change (SET_POSITION_DAY =? SET_POSITION_SECONDS) with false.
  change (SET_POSITION_DAY =? SET_POSITION_YEAR) with false.
  change (SET_POSITION_DAY =? SET_POSITION_MONTH) with false.
  change (SET_POSITION_DAY =? SET_POSITION_DAY) with true.
  cbv iota.
  rewrite (int8_small (dayOfMonth c)) by lia.
  rewrite (int8_small (dayOfMonth c + 1)) by lia.
  destruct (getDaysMaxBasedOnMonthAndLeapYear c <? dayOfMonth c + 1).
  - reflexivity.
  - cbn [bind]. rewrite byte_small by lia. reflexivity.
Qed.

Lemma day_dec (c : Clock) :
  position c = SET_POSITION_DAY ->
  0 <= dayOfMonth c < 128 ->
  option_map dayOfMonth (timeDateKeys KEY_PRESSED_1 c)
  = Some (if dayOfMonth c - 1 <? 1
          then getDaysMaxBasedOnMonthAndLeapYear c else dayOfMonth c - 1).
Proof.
  intros Hp Hd. unfold timeDateKeys.
  change (KEY_PRESSED_1 =? KEY_PRESSED_1) with true.
  change (KEY_PRESSED_1 =? KEY_PRESSED_3) with false.
  change (KEY_PRESSED_1 =? KEY_PRESSED_2) with false.
  cbv iota. rewrite Hp.
  change (at_index valueTimeDateMin (SET_POSITION_DAY - 1)) with (Some 1).
  change (SET_POSITION_DAY =? SET_POSITION_DAY) with true.
  cbv iota. cbn [bind].
  unfold getValueByPosition.
  change (SET_POSITION_DAY =? SET_POSITION_HOURS) with false.
  change (SET_POSITION_DAY =? SET_POSITION_MINUTES) with false.
  change (SET_POSITION_DAY =? SET_POSITION_SECONDS) with false.
  change (SET_POSITION_DAY =? SET_POSITION_YEAR) with false.
  change (SET_POSITION_DAY =? SET_POSITION_MONTH) with false.
  change (SET_POSITION_DAY =? SET_POSITION_DAY) with true.
  cbv iota.
  rewrite (int8_small (dayOfMonth c)) by lia.
  assert (Hi : int8 (dayOfMonth c - 1) = dayOfMonth c - 1).
  { destruct (Z.eq_dec (dayOfMonth c) 0) as [E|E].
    - rewrite E. reflexivity.
    - apply int8_small. lia. }
  rewrite Hi.
  destruct (dayOfMonth c - 1 <? 1) eqn:E.
  - cbn [bind].
    destruct (days_max_values c) as [H|[H|[H|H]]]; rewrite H; reflexivity.
  - apply Z.ltb_ge in E. cbn [bind]. rewrite byte_small by lia. reflexivity.
Qed.

(** C9.  The maximum of the day field is computed from the current month
    and year: 29 for month 2 with [years % 4 == 0], 28 for month 2
    otherwise, 30 for months 4, 6, 9 and 11, and 31 for every other month.
    On the day field, Inc at that maximum gives 1 and Dec at 1 gives that
    maximum; inside the range Inc adds one and Dec subtracts one. *)
Theorem day_field_maximum_and_wrap (c : Clock) :
  position c = SET_POSITION_DAY ->
  let dmax := getDaysMaxBasedOnMonthAndLeapYear c in
  (months c = 2 -> years c mod 4 = 0 -> dmax = 29)
  /\ (months c = 2 -> years c mod 4 <> 0 -> dmax = 28)
  /\ (months c = 4 \/ months c = 6 \/ months c = 9 \/ months c = 11 ->
      dmax = 30)
  /\ (months c <> 2 -> months c <> 4 -> months c <> 6 -> months c <> 9 ->
      months c <> 11 -> dmax = 31)
  /\ (dayOfMonth c = dmax ->
      option_map dayOfMonth (timeDateKeys KEY_PRESSED_3 c) = Some 1)
  /\ (dayOfMonth c = 1 ->
      option_map dayOfMonth (timeDateKeys KEY_PRESSED_1 c) = Some dmax)
  /\ (1 <= dayOfMonth c < dmax ->
      option_map dayOfMonth (timeDateKeys KEY_PRESSED_3 c)
      = Some (dayOfMonth c + 1))
  /\ (1 < dayOfMonth c <= dmax ->
      option_map dayOfMonth (timeDateKeys KEY_PRESSED_1 c)
      = Some (dayOfMonth c - 1)).
Proof.
  intros Hp dmax.
  assert (Hv := days_max_values c). fold dmax in Hv.
  repeat match goal with |- _ /\ _ => split end.
  - intros Hm Hy. unfold dmax, getDaysMaxBasedOnMonthAndLeapYear.
    rewrite Hm, Hy. reflexivity.
  - intros Hm Hy. unfold dmax, getDaysMaxBasedOnMonthAndLeapYear.
    rewrite Hm. apply Z.eqb_neq in Hy. rewrite Hy. reflexivity.
  - intros Hm. unfold dmax, getDaysMaxBasedOnMonthAndLeapYear.
    destruct Hm as [Hm|[Hm|[Hm|Hm]]]; rewrite Hm; reflexivity.
  - intros H2 H4 H6 H9 H11. unfold dmax, getDaysMaxBasedOnMonthAndLeapYear.
    apply Z.eqb_neq in H2, H4, H6, H9, H11.
    rewrite H2, H4, H6, H9, H11. reflexivity.
  - intros Hd. rewrite day_inc by (auto; lia).
    fold dmax. rewrite Hd.
    destruct (dmax <? dmax + 1) eqn:E; [reflexivity|].
    apply Z.ltb_ge in E. lia.
  - intros Hd. rewrite day_dec by (auto; lia).
    rewrite Hd. reflexivity.
  - intros Hd. rewrite day_inc by (auto; lia).
    fold dmax.
    destruct (dmax <? dayOfMonth c + 1) eqn:E; [|reflexivity].
    apply Z.ltb_lt in E. lia.
  - intros Hd. rewrite day_dec by (auto; lia).
    destruct (dayOfMonth c - 1 <? 1) eqn:E; [|reflexivity].
    apply Z.ltb_lt in E. lia.
Qed.

Lemma day_field_maximum_and_wrap_witness :
  position leapFebruary29 = SET_POSITION_DAY
  /\ getDaysMaxBasedOnMonthAndLeapYear leapFebruary29 = 29
  /\ option_map dayOfMonth (timeDateKeys KEY_PRESSED_3 leapFebruary29)
     = Some 1.
Proof.
  pose proof (day_field_maximum_and_wrap leapFebruary29 eq_refl) as H.
  split; [reflexivity|].
  split.
  - apply H; reflexivity.
  - apply H; reflexivity.
Defined.

(** ** The ring state behind a command stream *)

Lemma exec_app (a b : list RingCmd) (rs : Rings) :
  exec (a ++ b) rs = exec b (exec a rs).
Proof. unfold exec. apply fold_left_app. Qed.

Lemma exec_darkens (cmds : list RingCmd) :
  Forall darkens cmds ->
  forall (rs : Rings) (ring p : Z),
    rs ring p = COLOR_BLANK -> exec cmds rs ring p = COLOR_BLANK.
Proof.
  induction 1 as [|cmd cmds Hc _ IH]; intros rs ring p Hrs; [exact Hrs|].
  cbn [exec fold_left]. apply IH.
  destruct cmd as [mask number color|mask]; cbn [exec1 darkens] in *.
  - destruct (inMask mask ring && (p =? number)); [exact Hc | exact Hrs].
  - destruct (inMask mask ring); [reflexivity | exact Hrs].
Qed.

Lemma exec_all_off_then_darkens (pre post : list RingCmd) (mask : Z)
    (rs : Rings) (ring p : Z) :
  inMask mask ring = true ->
  Forall darkens post ->
  exec (pre ++ [LedWriteAllInRingOff mask] ++ post) rs ring p = COLOR_BLANK.
Proof.
  intros Hm Hpost. rewrite !exec_app. apply exec_darkens; [exact Hpost|].
  cbn [exec fold_left exec1]. rewrite Hm. reflexivity.
Qed.

(** ** The clear phase *)

Lemma neqb_true (a b : Z) : a <> b -> (a !=? b) = true.
Proof. intros H. unfold neqb. apply Z.eqb_neq in H. rewrite H. reflexivity. Qed.

Lemma darkens_ledWrite_blank (ring r : Z) :
  Forall darkens (ledWrite ring r COLOR_BLANK).
Proof. repeat constructor. Qed.

Ltac clear_block_darkens :=
  repeat match goal with
         | |- context [if ?b then _ else _] => destruct b
         end;
  try (eexists; split; [reflexivity|];
       first [ apply darkens_ledWrite_blank
             | constructor; [exact I | constructor]
             | constructor ]).

Lemma clearHours_darkens (c : Clock) :
  handsAreBytes c ->
  exists l, clearHours c = Some l /\ Forall darkens l.
Proof.
  intros (Hh & Hm & Hs & Hph & Hpm & Hps). unfold clearHours.
  destruct (for_down_total darkens
              (fun r => ledWrite RING_HOURS r COLOR_BLANK)
              (previousHoursHand c) (hoursHand c) Hph (proj1 Hh)
              (darkens_ledWrite_blank RING_HOURS)) as (l & -> & Hl & _).
  clear_block_darkens. eexists; split; [reflexivity | exact Hl].
Qed.

Lemma clearMinutes_darkens (c : Clock) :
  handsAreBytes c ->
  exists l, clearMinutes c = Some l /\ Forall darkens l.
Proof.
  intros (Hh & Hm & Hs & Hph & Hpm & Hps). unfold clearMinutes.
  destruct (for_down_total darkens
              (fun r => ledWrite RING_MINUTES r COLOR_BLANK)
              (previousMinutes c) (minutes c) Hpm (proj1 Hm)
              (darkens_ledWrite_blank RING_MINUTES)) as (l & -> & Hl & _).
  clear_block_darkens. eexists; split; [reflexivity | exact Hl].
Qed.

Lemma clearSeconds_darkens (c : Clock) :
  handsAreBytes c ->
  exists l, clearSeconds c = Some l /\ Forall darkens l.
Proof.
  intros (Hh & Hm & Hs & Hph & Hpm & Hps). unfold clearSeconds.
  destruct (for_down_total darkens
              (fun r => ledWrite RING_SECONDS r COLOR_BLANK)
              (previousSeconds c) (seconds c) Hps (proj1 Hs)
              (darkens_ledWrite_blank RING_SECONDS)) as (l & -> & Hl & _).
  clear_block_darkens. eexists; split; [reflexivity | exact Hl].
Qed.

(** ** The renderer over successive ticks *)

(** C1.  The lit positions after a tick are not a function of the current
    hours-hand position, minutes, seconds and appearance.  With no markers,
    a green minutes trace and a red seconds hand of Hands style, the four
    ticks 10:10:58 to 10:11:01 leave position 0 of the minutes ring off (the
    seconds hand erased it on leaving 0 and the trace is not redrawn there),
    while a forced full redraw at 10:11:01 lights it.  With factory face 9
    the four ticks 09:59:59 to 10:00:02 light position 0 of the minutes
    ring, while a forced full redraw at 10:00:02 leaves the minutes ring
    dark. *)
Theorem incremental_render_depends_on_history :
  let c1 := setAppearance face9SecondsHands powerOnClock in
  let c2 := setAppearance factoryFace9 powerOnClock in
  shownAfter ticksAcross1011 c1 = Some (50, 11, 1, face9SecondsHands)
  /\ shownAfter tickAt101101 c1 = Some (50, 11, 1, face9SecondsHands)
  /\ litAfter ticksAcross1011 c1
     = Some ((RING_HOURS, 1)
             :: map (pair RING_MINUTES) [1; 2; 3; 4; 5; 6; 7; 8; 9; 10; 11]
             ++ [(RING_SECONDS, 1)])
  /\ litAfter tickAt101101 c1
     = Some ((RING_HOURS, 1)
             :: map (pair RING_MINUTES)
                  [0; 1; 2; 3; 4; 5; 6; 7; 8; 9; 10; 11]
             ++ [(RING_SECONDS, 1)])
  /\ shownAfter ticksAcross1000 c2 = Some (50, 0, 2, factoryFace9)
  /\ shownAfter tickAt100002 c2 = Some (50, 0, 2, factoryFace9)
  /\ litAfter ticksAcross1000 c2
     = Some ((RING_MINUTES, 0) :: map (pair RING_SECONDS) [0; 1; 2])
  /\ litAfter tickAt100002 c2 = Some (map (pair RING_SECONDS) [0; 1; 2])
  /\ forall implied : Z * Z * Z * (Z * Z * Z * Z) -> list (Z * Z),
       ~ (option_map implied (shownAfter ticksAcross1011 c1)
          = litAfter ticksAcross1011 c1
          /\ option_map implied (shownAfter tickAt101101 c1)
             = litAfter tickAt101101 c1).
Proof.
  intros c1 c2.
  assert (S1 : shownAfter ticksAcross1011 c1
               = Some (50, 11, 1, face9SecondsHands))
    by (vm_compute; reflexivity).
  assert (S2 : shownAfter tickAt101101 c1
               = Some (50, 11, 1, face9SecondsHands))
    by (vm_compute; reflexivity).
  assert (L1 : litAfter ticksAcross1011 c1
               = Some ((RING_HOURS, 1)
                       :: map (pair RING_MINUTES)
                            [1; 2; 3; 4; 5; 6; 7; 8; 9; 10; 11]
                       ++ [(RING_SECONDS, 1)]))
    by (vm_compute; reflexivity).
  assert (L2 : litAfter tickAt101101 c1
               = Some ((RING_HOURS, 1)
                       :: map (pair RING_MINUTES)
                            [0; 1; 2; 3; 4; 5; 6; 7; 8; 9; 10; 11]
                       ++ [(RING_SECONDS, 1)]))
    by (vm_compute; reflexivity).
  split; [exact S1|]. split; [exact S2|].
  split; [exact L1|]. split; [exact L2|].
  split; [vm_compute; reflexivity|]. split; [vm_compute; reflexivity|].
  split; [vm_compute; reflexivity|]. split; [vm_compute; reflexivity|].
  intros implied [HA HB].
  rewrite S1, L1 in HA. rewrite S2, L2 in HB.
  cbn [option_map] in HA, HB.
  rewrite HA in HB. discriminate HB.
Qed.

(** ** The renderer inside the menus *)

Lemma drawClockFace_frame (c : Clock) (r : list RingCmd * Clock) :
  drawClockFace c = Some r -> sameMenuState c (snd r).
Proof.
  unfold drawClockFace. cbv zeta.
  destruct (clearHands _); [|discriminate].
  destruct (drawHands _); [|discriminate].
  destruct (drawMarkers _); [|discriminate].
  cbn [bind]. intros H. injection H as <-.
  unfold sameMenuState. clock_simpl. repeat split.
Qed.

Lemma drawDisplayConfiguration_frame (c : Clock) (r : list RingCmd * Clock) :
  drawDisplayConfiguration c = Some r -> sameMenuState c (snd r).
Proof.
  unfold drawDisplayConfiguration. cbv zeta. intros H.
  apply drawClockFace_frame in H. unfold sameMenuState in *.
  clock_simpl. exact H.
Qed.

Ltac total_block :=
  repeat (match goal with
          | |- exists l, (if ?b then _ else _) = Some l => destruct b
          | |- exists l, bind (if ?b then _ else _) _ = Some l => destruct b
          end; cbn [bind]);
  eexists; reflexivity.

Lemma for_up_total (from upTo : Z) (body : Z -> list RingCmd) :
  0 <= from -> upTo < 255 -> exists l, for_up from upTo body = Some l.
Proof.
  intros Hf Hu.
  destruct (for_loop_up (fun _ => True) body upTo Hu byteFuel from)
    as (l & Hl & _).
  - exact Hf.
  - unfold byteFuel. lia.
  - intros r _. induction (body r); constructor; auto.
  - exists l. exact Hl.
Qed.

Lemma drawMinutes_total (c : Clock) :
  handsAreBytes c -> minutes c < 255 -> exists l, drawMinutes c = Some l.
Proof.
  intros (Hh & Hm & Hs & Hph & Hpm & Hps) Hlt. unfold is_byte in *.
  unfold drawMinutes.
  destruct (for_up_total
              (if minutes c <=? 1 then minutes c else previousMinutes c)
              (minutes c)
              (fun r => ledWrite RING_MINUTES r (Z.land (minutesColor c) 0x0f)))
    as (l & ->); [destruct (minutes c <=? 1); lia | lia |].
  total_block.
Qed.

Lemma drawHours_total (c : Clock) :
  handsAreBytes c -> hoursHand c < 255 -> exists l, drawHours c = Some l.
Proof.
  intros (Hh & Hm & Hs & Hph & Hpm & Hps) Hlt. unfold is_byte in *.
  unfold drawHours.
  destruct (for_up_total
              (if hoursHand c <=? 1 then hoursHand c else previousHoursHand c)
              (hoursHand c)
              (fun r => ledWrite RING_HOURS r (Z.land (hoursColor c) 0x0f)))
    as (l & ->); [destruct (hoursHand c <=? 1); lia | lia |].
  total_block.
Qed.

Lemma drawSeconds_total (c : Clock) :
  handsAreBytes c -> seconds c < 255 -> exists l, drawSeconds c = Some l.
Proof.
  intros (Hh & Hm & Hs & Hph & Hpm & Hps) Hlt. unfold is_byte in *.
  unfold drawSeconds.
  destruct (for_up_total
              (if seconds c <=? 1 then seconds c else previousSeconds c)
              (seconds c)
              (fun r => ledWrite RING_SECONDS r (Z.land (secondsColor c) 0x0f)))
    as (l & ->); [destruct (seconds c <=? 1); lia | lia |].
  total_block.
Qed.

Lemma drawMarkers_total (c : Clock) : exists l, drawMarkers c = Some l.
Proof.
  unfold drawMarkers, drawHourMarkers.
  repeat match goal with
         | |- exists l, (if ?b then _ else _) = Some l => destruct b
         end;
    eexists; reflexivity.
Qed.

(** The renderer returns whenever the values it compares are bytes below
    255. *)
Lemma drawClockFace_total (c : Clock) :
  0 <= hours c -> 0 <= minutes c < 255 -> 0 <= seconds c < 255 ->
  is_byte (previousHoursHand c) -> is_byte (previousMinutes c) ->
  is_byte (previousSeconds c) ->
  exists r, drawClockFace c = Some r.
Proof.
  intros Hh Hm Hs Hph Hpm Hps. unfold drawClockFace. cbv zeta.
  set (c1 := set_hoursHand (byte (hours c mod 12 * 5 + minutes c / 12)) c).
  assert (Hhand : 0 <= hoursHand c1 < 100).
  { unfold c1. clock_simpl.
    assert (0 <= hours c mod 12 < 12) by (apply Z.mod_pos_bound; lia).
    assert (0 <= minutes c / 12 < 22).
    { split; [apply Z.div_pos; lia|].
      apply Z.div_lt_upper_bound; lia. }
    rewrite byte_small; lia. }
  assert (Hb : handsAreBytes c1).
  { unfold handsAreBytes, is_byte in *. unfold c1 in *. clock_simpl. lia. }
  destruct (clearHours_darkens c1 Hb) as (hl & Hhl & _).
  destruct (clearMinutes_darkens c1 Hb) as (ml & Hml & _).
  destruct (clearSeconds_darkens c1 Hb) as (sl & Hsl & _).
  destruct (drawMinutes_total c1 Hb) as (dm & Hdm);
    [unfold c1; clock_simpl; lia|].
  destruct (drawHours_total c1 Hb) as (dh & Hdh); [lia|].
  destruct (drawSeconds_total c1 Hb) as (ds & Hds);
    [unfold c1; clock_simpl; lia|].
  destruct (drawMarkers_total c1) as (mk & Hmk).
  unfold clearHands, drawHands.
  rewrite Hhl, Hml, Hsl, Hdm, Hdh, Hds, Hmk. cbn [bind].
  eexists; reflexivity.
Qed.

Lemma drawDisplayConfiguration_total (c : Clock) :
  exists r, drawDisplayConfiguration c = Some r.
Proof.
  unfold drawDisplayConfiguration. cbv zeta.
  apply drawClockFace_total; unfold is_byte; clock_simpl; lia.
Qed.

(** ** Trace hands *)

Lemma eqb_one_true (x : Z) : x = 1 -> (x =? 1) = true.
Proof. intros ->. reflexivity. Qed.

Lemma clear_trace_to_zero (h : Hand) (c : Clock) :
  Z.land (handColor h c) 0x0f <> COLOR_BLANK ->
  bitRead (handColor h c) COLOR_BIT_TRACE = 1 ->
  handValue h c <> handPrevious h c ->
  handValue h c = 0 ->
  clearBlock h c = Some (ledWriteAllInRingOff (handRing h)).
Proof.
  intros Hcol Htr Hne Hz.
  apply neqb_true in Hcol. apply neqb_true in Hne. apply eqb_one_true in Htr.
  apply Z.eqb_eq in Hz.
  destruct h; cbn [handColor handValue handPrevious handRing clearBlock] in *;
    [unfold clearHours | unfold clearMinutes | unfold clearSeconds];
    rewrite Hcol, Hne, Htr, Hz; reflexivity.
Qed.

(** *** Commands that do not light a position *)

Lemma exec_keepsOff (ring p : Z) (cmds : list RingCmd) :
  Forall (keepsOff ring p) cmds ->
  forall rs : Rings,
    rs ring p = COLOR_BLANK -> exec cmds rs ring p = COLOR_BLANK.
Proof.
  induction 1 as [|cmd cmds Hc _ IH]; intros rs Hrs; [exact Hrs|].
  cbn [exec fold_left]. apply IH.
  destruct cmd as [mask number color|mask]; cbn [exec1 keepsOff] in *.
  - destruct (inMask mask ring) eqn:Em; cbn [andb]; [|exact Hrs].
    destruct (p =? number) eqn:E; [|exact Hrs].
    apply Z.eqb_eq in E. apply Hc; [reflexivity | symmetry; exact E].
  - destruct (inMask mask ring); [reflexivity | exact Hrs].
Qed.

Lemma keepsOff_writesUpTo (ring p v : Z) (cmds : list RingCmd) :
  v < p -> Forall (writesUpTo v) cmds -> Forall (keepsOff ring p) cmds.
Proof.
  intros Hp H. eapply Forall_impl; [|exact H].
  intros [mask number color|mask]; cbn [writesUpTo keepsOff];
    [intros Hn _ E; lia | contradiction].
Qed.

Lemma keepsOff_other_ring (ring p mask r color : Z) :
  inMask mask ring = false ->
  Forall (keepsOff ring p) (ledWrite mask r color).
Proof.
  intros Hm. constructor; [|constructor].
  cbn [keepsOff]. intros H. rewrite Hm in H. discriminate H.
Qed.

(** The commands of a loop all satisfy what those of its body satisfy. *)
Lemma for_loop_Forall (P : RingCmd -> Prop) (cond : Z -> bool)
    (next : Z -> Z) (body : Z -> list RingCmd) :
  (forall r, Forall P (body r)) ->
  forall (fuel : nat) (r : Z) (l : list RingCmd),
    for_loop fuel r cond next body = Some l -> Forall P l.
Proof.
  intros Hbody. induction fuel as [|fuel IH]; intros r l H; [discriminate|].
  cbn [for_loop] in H. destruct (cond r).
  - destruct (for_loop fuel (next r) cond next body) as [rest|] eqn:E;
      [|discriminate].
    cbn [bind] in H. injection H as <-.
    apply Forall_app; split; [apply Hbody | exact (IH _ _ E)].
  - injection H as <-. constructor.
Qed.

(** *** The clear phase of a trace *)

(** The erase loop of a trace writes colour 0 at every position from
    [from] down to, and not including, [downTo]. *)
Lemma for_loop_down_erases (mask ring downTo : Z) :
  0 <= downTo -> inMask mask ring = true ->
  forall (fuel : nat) (from : Z),
    0 <= from < Z.of_nat fuel -> from < 256 ->
    exists l,
      for_loop fuel from (fun r => downTo <? r) (fun r => byte (r - 1))
        (fun r => ledWrite mask r COLOR_BLANK) = Some l
      /\ Forall darkens l
      /\ forall (rs : Rings) (p : Z),
           downTo < p <= from -> exec l rs ring p = COLOR_BLANK.
Proof.
  intros Hlo Hm fuel.
  induction fuel as [|fuel IH]; intros from Hfrom Hbyte; [lia|].
  cbn [for_loop].
  destruct (downTo <? from) eqn:Hc.
  - apply Z.ltb_lt in Hc.
    assert (Hb : byte (from - 1) = from - 1)
      by (unfold byte; apply Z.mod_small; lia).
    rewrite Hb.
    destruct (IH (from - 1)) as (l & -> & Hl & Hout); [lia | lia |].
    cbn [bind]. eexists; split; [reflexivity|].
    split; [apply Forall_app; split; [apply darkens_ledWrite_blank | exact Hl]|].
    intros rs p Hp. cbn [ledWrite app exec fold_left].
    fold (exec l (exec1 rs (LedWrite mask from COLOR_BLANK))).
    destruct (Z.eq_dec p from) as [-> | Hne].
    + apply exec_darkens; [exact Hl|].
      cbn [exec1]. rewrite Hm, Z.eqb_refl. reflexivity.
    + apply Hout. lia.
  - apply Z.ltb_ge in Hc. exists []. split; [reflexivity|].
    split; [constructor|]. intros rs p Hp. lia.
Qed.

(** The clear block of a trace leaves off every position above the new
    value that was written for the trace or was off. *)
Lemma clear_trace_vacates (h : Hand) (c : Clock) :
  Z.land (handColor h c) 0x0f <> COLOR_BLANK ->
  bitRead (handColor h c) COLOR_BIT_TRACE = 1 ->
  handsAreBytes c ->
  exists cl,
    clearBlock h c = Some cl
    /\ forall (rs : Rings) (p : Z),
         handValue h c < p ->
         (handPrevious h c < p -> rs (handRing h) p = COLOR_BLANK) ->
         exec cl rs (handRing h) p = COLOR_BLANK.
Proof.
  intros Hcol Htr (Hh & Hm & Hs & Hph & Hpm & Hps).
  apply neqb_true in Hcol. apply eqb_one_true in Htr.
  unfold is_byte in *.
  destruct h; cbn [handColor handValue handPrevious handRing clearBlock] in *;
    [unfold clearHours | unfold clearMinutes | unfold clearSeconds];
    rewrite Hcol, Htr;
    match goal with
    | |- context [if ?v !=? ?pv then _ else _] =>
        destruct (v !=? pv) eqn:Ene;
        [ destruct (v =? 0) eqn:Ez;
          [ eexists; split; [reflexivity|]; intros rs p _ _; reflexivity
          | match goal with
            | |- context [for_down ?from ?downTo
                            (fun r => ledWrite ?mask r COLOR_BLANK)] =>
                destruct (for_loop_down_erases mask mask downTo
                            ltac:(lia) eq_refl byteFuel from
                            ltac:(unfold byteFuel; lia) ltac:(lia))
                  as (l & Hl & Hd & Hout);
                unfold for_down; rewrite Hl;
                eexists; split; [reflexivity|];
                intros rs p Hp Hrs;
                destruct (Z_le_gt_dec p from) as [Hle | Hgt];
                [ apply Hout; lia
                | apply exec_darkens; [exact Hd | apply Hrs; lia] ]
            end ]
        | unfold neqb in Ene; apply negb_false_iff in Ene;
          apply Z.eqb_eq in Ene;
          eexists; split; [reflexivity|];
          intros rs p Hp Hrs; apply Hrs; lia ]
    end.
Qed.

Lemma clear_phase_vacates (h : Hand) (c : Clock) :
  Z.land (handColor h c) 0x0f <> COLOR_BLANK ->
  bitRead (handColor h c) COLOR_BIT_TRACE = 1 ->
  handsAreBytes c ->
  exists cl,
    clearHands c = Some cl
    /\ forall (rs : Rings) (p : Z),
         handValue h c < p ->
         (handPrevious h c < p -> rs (handRing h) p = COLOR_BLANK) ->
         exec cl rs (handRing h) p = COLOR_BLANK.
Proof.
  intros Hcol Htr Hb.
  destruct (clear_trace_vacates h c Hcol Htr Hb) as (own & Hown & Hvac).
  destruct (clearHours_darkens c Hb) as (hl & Hhl & Hhd).
  destruct (clearMinutes_darkens c Hb) as (ml & Hml & Hmd).
  destruct (clearSeconds_darkens c Hb) as (sl & Hsl & Hsd).
  unfold clearHands. rewrite Hhl, Hml, Hsl. cbn [bind].
  eexists; split; [reflexivity|]. intros rs p Hp Hrs.
  rewrite !exec_app.
  destruct h; cbn [clearBlock handRing] in *.
  - rewrite Hhl in Hown. injection Hown as ->.
    apply exec_darkens; [exact Hsd|]. apply exec_darkens; [exact Hmd|].
    apply Hvac; assumption.
  - rewrite Hml in Hown. injection Hown as ->.
    apply exec_darkens; [exact Hsd|].
    apply Hvac; [exact Hp|]. intros Hlt.
    apply exec_darkens; [exact Hhd | exact (Hrs Hlt)].
  - rewrite Hsl in Hown. injection Hown as ->.
    apply Hvac; [exact Hp|]. intros Hlt.
    apply exec_darkens; [exact Hmd|].
    apply exec_darkens; [exact Hhd | exact (Hrs Hlt)].
Qed.

(** *** The draw phase around a trace *)

Lemma writesUpTo_ledWrite (v ring r color : Z) :
  r <= v -> Forall (writesUpTo v) (ledWrite ring r color).
Proof. intros H. repeat constructor. exact H. Qed.

Ltac redraw_cases :=
  repeat match goal with
         | |- Forall _ (_ ++ _) => apply Forall_app; split
         | |- Forall _ [] => constructor
         | |- Forall _ (ledWrite _ _ _) =>
             apply writesUpTo_ledWrite; lia
         | |- Forall _ (if ?b then _ else _) => destruct b eqn:?
         | H : (_ && _) = true |- _ => apply andb_prop in H; destruct H
         | H : (_ <=? _) = true |- _ => apply Z.leb_le in H
         end.

(** The draw block of a trace writes no position above the value. *)
Lemma draw_trace_up_to (h : Hand) (c : Clock) :
  Z.land (handColor h c) 0x0f <> COLOR_BLANK ->
  bitRead (handColor h c) COLOR_BIT_TRACE = 1 ->
  handsAreBytes c ->
  handValue h c < 255 ->
  exists dr, drawBlock h c = Some dr /\ Forall (writesUpTo (handValue h c)) dr.
Proof.
  intros Hcol Htr (Hh & Hm & Hs & Hph & Hpm & Hps) Hlt.
  apply neqb_true in Hcol. apply eqb_one_true in Htr.
  unfold is_byte in *.
  destruct h; cbn [handColor handValue handPrevious handRing drawBlock] in *;
    [unfold drawHours | unfold drawMinutes | unfold drawSeconds];
    rewrite Hcol, Htr;
    match goal with
    | |- context [for_up ?from ?upTo ?body] =>
        destruct (for_loop_up (writesUpTo upTo) body upTo Hlt
                    byteFuel from) as (l & Hl & Hfill);
        [ destruct (upTo <=? 1); lia
        | unfold byteFuel; destruct (upTo <=? 1); lia
        | intros r Hr; apply writesUpTo_ledWrite; lia
        | unfold for_up; rewrite Hl;
          match goal with
          | |- context [bind (if ?b then _ else _) _] => destruct b
          end;
          cbn [bind]; (eexists; split; [reflexivity|]);
          redraw_cases; assumption ]
    end.
Qed.

Ltac foreign_block Hm :=
  repeat match goal with
         | |- Forall _ (_ ++ _) => apply Forall_app; split
         | |- Forall _ [] => constructor
         | |- Forall _ (ledWrite _ _ _) => apply keepsOff_other_ring; exact Hm
         | |- Forall _ (if ?b then _ else _) => destruct b
         end.

Lemma drawHours_keepsOff (ring p : Z) (c : Clock) (dr : list RingCmd) :
  drawHours c = Some dr ->
  inMask RING_HOURS ring = false ->
  (drawnAsHands HoursHand c = true ->
   inMask (handsMask HoursHand) ring = true -> p <> hoursHand c) ->
  Forall (keepsOff ring p) dr.
Proof.
  unfold drawHours, drawnAsHands. cbn [handColor handsMask]. intros H Hm Hh.
  destruct (Z.land (hoursColor c) 0x0f !=? COLOR_BLANK) eqn:Ec;
    [|injection H as <-; constructor].
  destruct (bitRead (hoursColor c) COLOR_BIT_TRACE =? 1) eqn:Et.
  { match type of H with
    | bind ?m _ = _ => destruct m as [fill|] eqn:Ef; [|discriminate]
    end.
    cbn [bind] in H. injection H as <-.
    apply Forall_app; split; [|foreign_block Hm].
    destruct (_ && _) in Ef; [|injection Ef as <-; constructor].
    unfold for_up in Ef. eapply for_loop_Forall; [|exact Ef].
    intros r. apply keepsOff_other_ring. exact Hm. }
  destruct (bitRead (hoursColor c) COLOR_BIT_DOT =? 1) eqn:Ed.
  { injection H as <-. foreign_block Hm. }
  destruct (bitRead (hoursColor c) COLOR_BIT_HANDS =? 1) eqn:Eh;
    [|injection H as <-; constructor].
  injection H as <-. destruct (_ || _); [|constructor].
  constructor; [|constructor]. cbn [keepsOff]. intros Hmask Hn.
  exfalso. exact (Hh eq_refl Hmask (eq_sym Hn)).
Qed.

Lemma drawMinutes_keepsOff (ring p : Z) (c : Clock) (dr : list RingCmd) :
  drawMinutes c = Some dr ->
  inMask RING_MINUTES ring = false ->
  (drawnAsHands MinutesHand c = true ->
   inMask (handsMask MinutesHand) ring = true -> p <> minutes c) ->
  Forall (keepsOff ring p) dr.
Proof.
  unfold drawMinutes, drawnAsHands. cbn [handColor handsMask]. intros H Hm Hh.
  destruct (Z.land (minutesColor c) 0x0f !=? COLOR_BLANK) eqn:Ec;
    [|injection H as <-; constructor].
  destruct (bitRead (minutesColor c) COLOR_BIT_TRACE =? 1) eqn:Et.
  { match type of H with
    | bind ?m _ = _ => destruct m as [fill|] eqn:Ef; [|discriminate]
    end.
    cbn [bind] in H. injection H as <-.
    apply Forall_app; split; [|foreign_block Hm].
    destruct (_ && _) in Ef; [|injection Ef as <-; constructor].
    unfold for_up in Ef. eapply for_loop_Forall; [|exact Ef].
    intros r. apply keepsOff_other_ring. exact Hm. }
  destruct (bitRead (minutesColor c) COLOR_BIT_DOT =? 1) eqn:Ed.
  { injection H as <-. foreign_block Hm. }
  destruct (bitRead (minutesColor c) COLOR_BIT_HANDS =? 1) eqn:Eh;
    [|injection H as <-; constructor].
  injection H as <-. destruct (_ || _); [|constructor].
  constructor; [|constructor]. cbn [keepsOff]. intros Hmask Hn.
  exfalso. exact (Hh eq_refl Hmask (eq_sym Hn)).
Qed.

Lemma drawSeconds_keepsOff (ring p : Z) (c : Clock) (dr : list RingCmd) :
  drawSeconds c = Some dr ->
  inMask RING_SECONDS ring = false ->
  (drawnAsHands SecondsHand c = true ->
   inMask (handsMask SecondsHand) ring = true -> p <> seconds c) ->
  Forall (keepsOff ring p) dr.
Proof.
  unfold drawSeconds, drawnAsHands. cbn [handColor handsMask]. intros H Hm Hh.
  destruct (Z.land (secondsColor c) 0x0f !=? COLOR_BLANK) eqn:Ec;
    [|injection H as <-; constructor].
  destruct (bitRead (secondsColor c) COLOR_BIT_TRACE =? 1) eqn:Et.
  { match type of H with
    | bind ?m _ = _ => destruct m as [fill|] eqn:Ef; [|discriminate]
    end.
    cbn [bind] in H. injection H as <-.
    apply Forall_app; split; [|foreign_block Hm].
    destruct (_ && _) in Ef; [|injection Ef as <-; constructor].
    unfold for_up in Ef. eapply for_loop_Forall; [|exact Ef].
    intros r. apply keepsOff_other_ring. exact Hm. }
  destruct (bitRead (secondsColor c) COLOR_BIT_DOT =? 1) eqn:Ed.
  { injection H as <-. foreign_block Hm. }
  destruct (bitRead (secondsColor c) COLOR_BIT_HANDS =? 1) eqn:Eh;
    [|injection H as <-; constructor].
  injection H as <-. destruct (_ || _); [|constructor].
  constructor; [|constructor]. cbn [keepsOff]. intros Hmask Hn.
  exfalso. exact (Hh eq_refl Hmask (eq_sym Hn)).
Qed.

(** The draw block of another hand lights a position of the ring of [h]
    only where that hand stands, drawn in the style Hands. *)
Lemma foreign_draw_keepsOff (h h' : Hand) (c : Clock) (p : Z)
    (dr : list RingCmd) :
  h' <> h ->
  drawBlock h' c = Some dr ->
  ~ underOtherHand h c p ->
  Forall (keepsOff (handRing h) p) dr.
Proof.
  intros Hne Hd Hno.
  assert (Hp : drawnAsHands h' c = true ->
               inMask (handsMask h') (handRing h) = true ->
               p <> handValue h' c).
  { intros Hs Hm Hp. apply Hno. exists h'. auto. }
  destruct h'; cbn [drawBlock handValue] in *;
    [ apply (drawHours_keepsOff _ _ c) | apply (drawMinutes_keepsOff _ _ c)
    | apply (drawSeconds_keepsOff _ _ c) ];
    try assumption;
    destruct h; try reflexivity; contradiction Hne; reflexivity.
Qed.

Lemma draw_phase_keeps_off (h : Hand) (c : Clock) :
  Z.land (handColor h c) 0x0f <> COLOR_BLANK ->
  bitRead (handColor h c) COLOR_BIT_TRACE = 1 ->
  handsAreBytes c ->
  hoursHand c < 255 -> minutes c < 255 -> seconds c < 255 ->
  exists dr,
    drawHands c = Some dr
    /\ forall p, handValue h c < p -> ~ underOtherHand h c p ->
         Forall (keepsOff (handRing h) p) dr.
Proof.
  intros Hcol Htr Hb Hh Hm Hs.
  assert (Hv : handValue h c < 255) by (destruct h; assumption).
  destruct (draw_trace_up_to h c Hcol Htr Hb Hv) as (own & Hown & Hup).
  destruct (drawMinutes_total c Hb Hm) as (ml & Hml).
  destruct (drawHours_total c Hb Hh) as (hl & Hhl).
  destruct (drawSeconds_total c Hb Hs) as (sl & Hsl).
  unfold drawHands. rewrite Hml, Hhl, Hsl. cbn [bind].
  eexists; split; [reflexivity|]. intros p Hp Hno.
  assert (Hblk : forall h' dr',
            drawBlock h' c = Some dr' ->
            Forall (keepsOff (handRing h) p) dr').
  { intros h' dr' E.
    assert (Hdec : {h' = h} + {h' <> h}) by decide equality.
    destruct Hdec as [-> | Hne].
    - rewrite Hown in E. injection E as <-.
      exact (keepsOff_writesUpTo _ _ _ _ Hp Hup).
    - exact (foreign_draw_keepsOff h h' c p dr' Hne E Hno). }
  apply Forall_app; split; [exact (Hblk MinutesHand ml Hml)|].
  apply Forall_app; split;
    [exact (Hblk HoursHand hl Hhl) | exact (Hblk SecondsHand sl Hsl)].
Qed.

(** C7.  For a hand drawn as a trace in a colour other than 0: when its
    value changes to 0, every position of its ring is off after the clear
    phase.  And after the clear and draw phases no position of its ring
    above the new value is left lit for it: such a position is off if it was
    within the trace, that is, not above the previous value, or was off
    before, unless another hand, drawn in the style Hands across the ring,
    stands there.  This covers the move forward, where the clear block has
    nothing to erase and the draw block writes no position above the new
    value, and the move back, where the clear block erases the span between
    the two values. *)
Theorem trace_hand_clear_and_forward (h : Hand) (c : Clock) (rs : Rings) :
  Z.land (handColor h c) 0x0f <> COLOR_BLANK ->
  bitRead (handColor h c) COLOR_BIT_TRACE = 1 ->
  handsAreBytes c ->
  (handValue h c <> handPrevious h c -> handValue h c = 0 ->
   exists cmds,
     clearHands c = Some cmds
     /\ forall p, exec cmds rs (handRing h) p = COLOR_BLANK)
  /\ (hoursHand c < 255 -> minutes c < 255 -> seconds c < 255 ->
      exists cl dr,
        clearHands c = Some cl
        /\ drawHands c = Some dr
        /\ forall p,
             handValue h c < p ->
             (handPrevious h c < p -> rs (handRing h) p = COLOR_BLANK) ->
             ~ underOtherHand h c p ->
             exec (cl ++ dr) rs (handRing h) p = COLOR_BLANK).
Proof.
  intros Hcol Htr Hb. split.
  - intros Hne Hz.
    pose proof (clear_trace_to_zero h c Hcol Htr Hne Hz) as Hown.
    destruct (clearHours_darkens c Hb) as (hl & Hhl & Hhd).
    destruct (clearMinutes_darkens c Hb) as (ml & Hml & Hmd).
    destruct (clearSeconds_darkens c Hb) as (sl & Hsl & Hsd).
    unfold clearHands. rewrite Hhl, Hml, Hsl. cbn [bind].
    eexists; split; [reflexivity|]. intros p.
    destruct h; cbn [clearBlock handRing] in *.
    + rewrite Hhl in Hown. injection Hown as ->.
      apply (exec_all_off_then_darkens [] (ml ++ sl));
        [reflexivity | apply Forall_app; auto].
    + rewrite Hml in Hown. injection Hown as ->.
      apply (exec_all_off_then_darkens hl sl); [reflexivity | assumption].
    + rewrite Hsl in Hown. injection Hown as ->.
      rewrite app_assoc.
      rewrite <- (app_nil_r (ledWriteAllInRingOff RING_SECONDS)).
      apply (exec_all_off_then_darkens (hl ++ ml) []);
        [reflexivity | constructor].
  - intros Hh Hm Hs.
    destruct (clear_phase_vacates h c Hcol Htr Hb) as (cl & Hcl & Hvac).
    destruct (draw_phase_keeps_off h c Hcol Htr Hb Hh Hm Hs)
      as (dr & Hdr & Hkeep).
    exists cl, dr. split; [exact Hcl|]. split; [exact Hdr|].
    intros p Hp Hrs Hno. rewrite exec_app.
    apply exec_keepsOff; [exact (Hkeep p Hp Hno)|].
    exact (Hvac rs p Hp Hrs).
Qed.

Lemma trace_hand_clear_and_forward_witness :
  Z.land (handColor SecondsHand secondsTraceWrapped) 0x0f <> COLOR_BLANK
  /\ bitRead (handColor SecondsHand secondsTraceWrapped) COLOR_BIT_TRACE = 1
  /\ handsAreBytes secondsTraceWrapped
  /\ (exists cmds,
        clearHands secondsTraceWrapped = Some cmds
        /\ forall p, exec cmds allWhite RING_SECONDS p = COLOR_BLANK)
  /\ handsAreBytes secondsTraceAdvanced
  /\ (exists cl dr,
        clearHands secondsTraceAdvanced = Some cl
        /\ drawHands secondsTraceAdvanced = Some dr
        /\ forall p, 24 < p ->
             exec (cl ++ dr) (secondsLitTo 23) RING_SECONDS p = COLOR_BLANK)
  /\ handsAreBytes secondsTraceSetBack
  /\ (exists cl dr,
        clearHands secondsTraceSetBack = Some cl
        /\ drawHands secondsTraceSetBack = Some dr
        /\ forall p, 24 < p ->
             exec (cl ++ dr) (secondsLitTo 30) RING_SECONDS p = COLOR_BLANK).
Proof.
  assert (Hb1 : handsAreBytes secondsTraceWrapped)
    by (unfold handsAreBytes, is_byte; cbn; lia).
  assert (Hb2 : handsAreBytes secondsTraceAdvanced)
    by (unfold handsAreBytes, is_byte; cbn; lia).
  assert (Hb3 : handsAreBytes secondsTraceSetBack)
    by (unfold handsAreBytes, is_byte; cbn; lia).
  assert (Hoff : forall n p, n < p -> secondsLitTo n RING_SECONDS p
                                      = COLOR_BLANK).
  { intros n p Hlt. unfold secondsLitTo.
    destruct (p <=? n) eqn:E; [apply Z.leb_le in E; lia|].
    rewrite andb_false_r. reflexivity. }
  split; [vm_compute; discriminate|].
  split; [reflexivity|].
  split; [exact Hb1|].
  split.
  - apply (trace_hand_clear_and_forward SecondsHand secondsTraceWrapped
             allWhite);
      [vm_compute; discriminate | reflexivity | exact Hb1
      | vm_compute; discriminate | reflexivity].
  - split; [exact Hb2|]. split; [|split; [exact Hb3|]].
    + destruct (proj2 (trace_hand_clear_and_forward SecondsHand
                         secondsTraceAdvanced (secondsLitTo 23)
                         ltac:(vm_compute; discriminate) eq_refl Hb2)
                  ltac:(cbn; lia) ltac:(cbn; lia) ltac:(cbn; lia))
        as (cl & dr & Hcl & Hdr & H).
      exists cl, dr. split; [exact Hcl|]. split; [exact Hdr|].
      intros p Hp. apply H; [exact Hp | intros Hlt; apply Hoff; exact Hlt|].
      intros (h' & _ & Hd & _). destruct h'; vm_compute in Hd; discriminate.
    + destruct (proj2 (trace_hand_clear_and_forward SecondsHand
                         secondsTraceSetBack (secondsLitTo 30)
                         ltac:(vm_compute; discriminate) eq_refl Hb3)
                  ltac:(cbn; lia) ltac:(cbn; lia) ltac:(cbn; lia))
        as (cl & dr & Hcl & Hdr & H).
      exists cl, dr. split; [exact Hcl|]. split; [exact Hdr|].
      intros p Hp. apply H; [exact Hp | intros Hlt; apply Hoff; exact Hlt|].
      intros (h' & _ & Hd & _). destruct h'; vm_compute in Hd; discriminate.
Defined.

(** ** The styling menu *)

Lemma low_nibble_of_small (y : Z) : 0 <= y < 16 -> Z.land y 0x0f = y.
Proof.
  intros H. change 0x0f with (Z.ones 4). rewrite Z.land_ones by lia.
  apply Z.mod_small. exact H.
Qed.

Lemma style_cycle_changes (x : Z) :
  Z.lor (Z.land x 0x0f)
        (Z.land (if Z.land x 0xf0 =? COLOR_HANDS then COLOR_TRACE
                 else if Z.land x 0xf0 =? COLOR_TRACE then COLOR_DOT
                 else COLOR_HANDS) 0xf0)
  <> x.
Proof.
  intros H. apply (f_equal (fun y => Z.land y 0xf0)) in H.
  rewrite high_of_packed in H.
  destruct (Z.land x 0xf0 =? COLOR_HANDS) eqn:E1.
  - apply Z.eqb_eq in E1. rewrite E1 in H. discriminate H.
  - destruct (Z.land x 0xf0 =? COLOR_TRACE) eqn:E2.
    + apply Z.eqb_eq in E2. rewrite E2 in H. discriminate H.
    + apply Z.eqb_neq in E1. apply E1. rewrite <- H. reflexivity.
Qed.

Lemma marker_cycle_changes (x : Z) :
  Z.lor (Z.land x 0x0f)
        (Z.land (if Z.land x 0xf0 =? MARKER_HOUR_TWELTH
                 then MARKER_HOUR_QUARTERS
                 else if Z.land x 0xf0 =? MARKER_HOUR_QUARTERS
                      then MARKER_HOUR_EVERY
                 else MARKER_HOUR_TWELTH) 0xf0)
  <> x.
Proof.
  intros H. apply (f_equal (fun y => Z.land y 0xf0)) in H.
  rewrite high_of_packed in H.
  destruct (Z.land x 0xf0 =? MARKER_HOUR_TWELTH) eqn:E1.
  - apply Z.eqb_eq in E1. rewrite E1 in H. discriminate H.
  - destruct (Z.land x 0xf0 =? MARKER_HOUR_QUARTERS) eqn:E2.
    + apply Z.eqb_eq in E2. rewrite E2 in H. discriminate H.
    + apply Z.eqb_neq in E1. apply E1. rewrite <- H. reflexivity.
Qed.

Lemma color_cycle_changes (x : Z) :
  Z.lor (Z.land x 0xf0)
        (Z.land (if COLORS_END <? byte (Z.land x 0x0f + 1) then COLORS_START
                 else byte (Z.land x 0x0f + 1)) 0x0f)
  <> x.
Proof.
  intros H. apply (f_equal (fun y => Z.land y 0x0f)) in H.
  rewrite low_of_packed' in H.
  pose proof (low_nibble_range x) as Hr.
  rewrite byte_small in H by lia.
  unfold COLORS_END, COLORS_START in H.
  destruct (7 <? Z.land x 0x0f + 1) eqn:E.
  - apply Z.ltb_lt in E. change (Z.land 0 0x0f) with 0 in H. lia.
  - apply Z.ltb_ge in E.
    rewrite low_nibble_of_small in H by lia. lia.
Qed.

Ltac position_tests :=
  unfold getOptionsByPosition, setOptionsByPosition, getColorByPosition,
    setColorByPosition, SET_POSITION_HOURS, SET_POSITION_MINUTES,
    SET_POSITION_SECONDS, SET_POSITION_MARKERS, SET_POSITION_YEAR,
    SET_POSITION_NONE;
  cbn [Z.eqb Pos.eqb Z.ltb Z.compare Pos.compare Pos.compare_cont byte
       Z.add Pos.add Pos.succ].

Lemma stylingKeys_style (c : Clock) :
  stylingPosition c ->
  appearance (snd (stylingKeys KEY_PRESSED_1 c)) <> appearance c
  /\ clockFace (snd (stylingKeys KEY_PRESSED_1 c)) = clockFace c
  /\ position (snd (stylingKeys KEY_PRESSED_1 c)) = position c
  /\ settingsChangedFlag (snd (stylingKeys KEY_PRESSED_1 c)) = 1
  /\ exitFlag (snd (stylingKeys KEY_PRESSED_1 c)) = exitFlag c.
Proof.
  intros Hp. unfold stylingKeys.
  change (KEY_PRESSED_1 =? KEY_PRESSED_1) with true.
  change (KEY_PRESSED_1 =? KEY_PRESSED_3) with false.
  change (KEY_PRESSED_1 =? KEY_PRESSED_2) with false.
  cbv iota zeta. cbn [fst snd].
  destruct Hp as [Hp|[Hp|[Hp|Hp]]]; rewrite Hp; position_tests;
    clock_simpl;
    (split; [intros H; injection H; intros;
             first [ eapply style_cycle_changes; eassumption
                   | eapply marker_cycle_changes; eassumption ]|]);
    repeat split; exact Hp.
Qed.

Lemma stylingKeys_color (c : Clock) :
  stylingPosition c ->
  appearance (snd (stylingKeys KEY_PRESSED_3 c)) <> appearance c
  /\ clockFace (snd (stylingKeys KEY_PRESSED_3 c)) = clockFace c
  /\ position (snd (stylingKeys KEY_PRESSED_3 c)) = position c
  /\ settingsChangedFlag (snd (stylingKeys KEY_PRESSED_3 c)) = 1
  /\ exitFlag (snd (stylingKeys KEY_PRESSED_3 c)) = exitFlag c.
Proof.
  intros Hp. unfold stylingKeys.
  change (KEY_PRESSED_3 =? KEY_PRESSED_1) with false.
  change (KEY_PRESSED_3 =? KEY_PRESSED_3) with true.
  change (KEY_PRESSED_3 =? KEY_PRESSED_2) with false.
  cbv iota zeta. cbn [fst snd].
  destruct Hp as [Hp|[Hp|[Hp|Hp]]]; rewrite Hp;
    unfold getColorByPosition, setColorByPosition, SET_POSITION_HOURS,
      SET_POSITION_MINUTES, SET_POSITION_SECONDS, SET_POSITION_MARKERS;
    cbn [Z.eqb Pos.eqb];
    clock_simpl;
    (split; [intros H; injection H; intros;
             eapply color_cycle_changes; eassumption|]);
    repeat split; exact Hp.
Qed.

Lemma stylingKeys_confirm (c : Clock) :
  stylingPosition c ->
  appearance (snd (stylingKeys KEY_PRESSED_2 c)) = appearance c
  /\ clockFace (snd (stylingKeys KEY_PRESSED_2 c)) = clockFace c
  /\ settingsChangedFlag (snd (stylingKeys KEY_PRESSED_2 c))
     = settingsChangedFlag c
  /\ blinkUpdate (snd (stylingKeys KEY_PRESSED_2 c)) = 3
  /\ ((exitFlag (snd (stylingKeys KEY_PRESSED_2 c)) = true
       /\ confirmsLeft (position c) = 1%nat)
      \/ (exitFlag (snd (stylingKeys KEY_PRESSED_2 c)) = exitFlag c
          /\ stylingPosition (snd (stylingKeys KEY_PRESSED_2 c))
          /\ confirmsLeft (position c)
             = S (confirmsLeft
                    (position (snd (stylingKeys KEY_PRESSED_2 c)))))).
Proof.
  intros Hp. unfold stylingKeys.
  change (KEY_PRESSED_2 =? KEY_PRESSED_1) with false.
  change (KEY_PRESSED_2 =? KEY_PRESSED_3) with false.
  change (KEY_PRESSED_2 =? KEY_PRESSED_2) with true.
  cbv iota zeta. cbn [fst snd]. clock_simpl.
  unfold stylingPosition.
  destruct Hp as [Hp|[Hp|[Hp|Hp]]]; rewrite Hp;
    repeat split; try (right; repeat split; clock_simpl; auto; fail);
    left; repeat split.
Qed.

Lemma stylingKeys_other (k : Z) (c : Clock) :
  k <> KEY_PRESSED_1 -> k <> KEY_PRESSED_3 -> k <> KEY_PRESSED_2 ->
  stylingKeys k c = ([], c).
Proof.
  intros H1 H3 H2. unfold stylingKeys.
  apply Z.eqb_neq in H1, H3, H2. rewrite H1, H3, H2. reflexivity.
Qed.

Lemma appearance_eqb_refl (a : Z * Z * Z * Z) : appearance_eqb a a = true.
Proof.
  destruct a as [[[a1 a2] a3] a4]. unfold appearance_eqb.
  rewrite !Z.eqb_refl. reflexivity.
Qed.

Lemma appearance_eqb_neq (a b : Z * Z * Z * Z) :
  a <> b -> appearance_eqb a b = false.
Proof.
  destruct a as [[[a1 a2] a3] a4], b as [[[b1 b2] b3] b4].
  intros H. unfold appearance_eqb.
  destruct (a1 =? b1) eqn:E1; [|reflexivity].
  destruct (a2 =? b2) eqn:E2; [|reflexivity].
  destruct (a3 =? b3) eqn:E3; [|reflexivity].
  destruct (a4 =? b4) eqn:E4; [|reflexivity].
  apply Z.eqb_eq in E1, E2, E3, E4. subst. contradiction H. reflexivity.
Qed.

Lemma stylingIter_total (k : Z) (c : Clock) :
  exists r, stylingIter k c = Some r.
Proof.
  unfold stylingIter. cbv zeta.
  destruct (blinkUpdate (snd (stylingKeys k c)) =? 2).
  - destruct (drawDisplayConfiguration_total (snd (stylingKeys k c)))
      as (d & ->).
    eexists; reflexivity.
  - eexists; reflexivity.
Qed.

Lemma stylingIter_frame (k : Z) (c : Clock) (r : list RingCmd * Clock) :
  stylingIter k c = Some r -> sameMenuState (snd (stylingKeys k c)) (snd r).
Proof.
  unfold stylingIter. cbv zeta.
  destruct (blinkUpdate (snd (stylingKeys k c)) =? 2).
  - destruct (drawDisplayConfiguration (snd (stylingKeys k c))) as [d|] eqn:E;
      [|discriminate].
    apply drawDisplayConfiguration_frame in E.
    cbn [bind]. intros H. injection H as <-.
    unfold sameMenuState in *. clock_simpl. exact E.
  - cbn [bind]. intros H. injection H as <-.
    unfold sameMenuState. clock_simpl. repeat split.
Qed.

Lemma stylingIter_summary (k : Z) (c : Clock) (r : list RingCmd * Clock) :
  stylingPosition c ->
  stylingIter k c = Some r ->
  clockFace (snd r) = clockFace c
  /\ ((appearance (snd r) <> appearance c
       /\ settingsChangedFlag (snd r) = 1
       /\ position (snd r) = position c
       /\ exitFlag (snd r) = exitFlag c
       /\ k <> KEY_PRESSED_2)
      \/ (appearance (snd r) = appearance c
          /\ settingsChangedFlag (snd r) = settingsChangedFlag c
          /\ ((position (snd r) = position c
               /\ exitFlag (snd r) = exitFlag c
               /\ k <> KEY_PRESSED_2)
              \/ (k = KEY_PRESSED_2
                  /\ exitFlag (snd r) = true
                  /\ confirmsLeft (position c) = 1%nat)
              \/ (k = KEY_PRESSED_2
                  /\ exitFlag (snd r) = exitFlag c
                  /\ stylingPosition (snd r)
                  /\ confirmsLeft (position c)
                     = S (confirmsLeft (position (snd r))))))).
Proof.
  intros Hp Hi. apply stylingIter_frame in Hi.
  destruct Hi as (Ha & Hf & Hpos & Hflag & Hex).
  destruct (Z.eq_dec k KEY_PRESSED_1) as [-> | N1].
  { destruct (stylingKeys_style c Hp) as (Ka & Kf & Kp & Kflag & Kex).
    split; [congruence|]. left.
    repeat split; try congruence. discriminate. }
  destruct (Z.eq_dec k KEY_PRESSED_3) as [-> | N3].
  { destruct (stylingKeys_color c Hp) as (Ka & Kf & Kp & Kflag & Kex).
    split; [congruence|]. left.
    repeat split; try congruence. discriminate. }
  destruct (Z.eq_dec k KEY_PRESSED_2) as [-> | N2].
  { destruct (stylingKeys_confirm c Hp) as (Ka & Kf & Kflag & _ & Kc).
    split; [congruence|]. right.
    split; [congruence|]. split; [congruence|]. right.
    destruct Kc as [(Kex & Kn) | (Kex & Kp & Kn)].
    - left. repeat split; congruence.
    - right. split; [reflexivity|]. split; [congruence|].
      unfold stylingPosition in *. rewrite Hpos. auto. }
  rewrite (stylingKeys_other k c N1 N3 N2) in Ha, Hf, Hpos, Hflag, Hex.
  cbn [snd] in *.
  split; [exact Hf|]. right. repeat split; auto.
Qed.

Lemma stylingLoop_exited (keys : list Z) (c : Clock) :
  exitFlag c = true ->
  stylingLoop keys c = Some ([], c) /\ stylingLoopEdited keys c = false.
Proof. intros H. destruct keys; cbn; rewrite H; auto. Qed.

Lemma stylingLoop_flag (keys : list Z) :
  forall (c : Clock) (r : list RingCmd * Clock),
    stylingPosition c \/ exitFlag c = true ->
    stylingLoop keys c = Some r ->
    clockFace (snd r) = clockFace c
    /\ settingsChangedFlag (snd r)
       = if stylingLoopEdited keys c then 1 else settingsChangedFlag c.
Proof.
  induction keys as [|k rest IH]; intros c r Hc Hl.
  - cbn in *. destruct (exitFlag c); [|discriminate].
    injection Hl as <-. auto.
  - destruct (exitFlag c) eqn:Ex.
    + destruct (stylingLoop_exited (k :: rest) c Ex) as (E1 & E2).
      rewrite E1 in Hl. injection Hl as <-. rewrite E2. auto.
    + destruct Hc as [Hp | Hc]; [|discriminate].
      cbn [stylingLoop stylingLoopEdited] in *. rewrite Ex in *.
      destruct (stylingIter k c) as [r1|] eqn:Ei; [|discriminate].
      cbn [bind] in Hl.
      destruct (stylingLoop rest (snd r1)) as [r2|] eqn:El; [|discriminate].
      cbn [bind] in Hl. injection Hl as <-. cbn [snd].
      destruct (stylingIter_summary k c r1 Hp Ei) as (Hf & Hs).
      destruct Hs as [(Ha & Hflag & Hpos & Hex & _) | (Ha & Hflag & Hs)].
      * rewrite (appearance_eqb_neq _ _ (fun H => Ha (eq_sym H))).
        cbn [negb orb].
        destruct (IH (snd r1) r2) as (If & Iflag); [|exact El|].
        { left. unfold stylingPosition in *. rewrite Hpos. exact Hp. }
        split; [congruence|]. rewrite Iflag, Hflag.
        destruct (stylingLoopEdited rest (snd r1)); reflexivity.
      * rewrite Ha, appearance_eqb_refl. cbn [negb orb].
        destruct (IH (snd r1) r2) as (If & Iflag); [|exact El|].
        { destruct Hs as [(Hpos & Hex & _) | [(_ & Hex & _) | (_ & _ & Hp' & _)]].
          - left. unfold stylingPosition in *. rewrite Hpos. exact Hp.
          - right. exact Hex.
          - left. exact Hp'. }
        split; [congruence|]. rewrite Iflag, Hflag. reflexivity.
Qed.

(** The menu is left once the chords read contain as many confirms as fields
    remain. *)
Lemma stylingLoop_returns (keys : list Z) :
  forall c : Clock,
    exitFlag c = true
    \/ (stylingPosition c
        /\ (confirmsLeft (position c)
            <= count_occ Z.eq_dec keys KEY_PRESSED_2)%nat) ->
    exists r, stylingLoop keys c = Some r.
Proof.
  induction keys as [|k rest IH]; intros c Hc.
  - destruct Hc as [Ex | (Hp & Hn)].
    + cbn. rewrite Ex. eexists; reflexivity.
    + exfalso. cbn in Hn.
      destruct Hp as [Hp|[Hp|[Hp|Hp]]]; rewrite Hp in Hn; cbn in Hn; lia.
  - destruct (exitFlag c) eqn:Ex.
    + cbn. rewrite Ex. eexists; reflexivity.
    + destruct Hc as [Hc | (Hp & Hn)]; [discriminate|].
      cbn [stylingLoop]. rewrite Ex.
      destruct (stylingIter_total k c) as (r1 & Ei). rewrite Ei. cbn [bind].
      destruct (stylingIter_summary k c r1 Hp Ei) as (_ & Hs).
      assert (Hrest : exists r, stylingLoop rest (snd r1) = Some r).
      { apply IH.
        destruct Hs as [(_ & _ & Hpos & Hex & Hk)
                       | (_ & _ & [(Hpos & Hex & Hk)
                                  | [(_ & Hex & _) | (Hk & Hex & Hp' & Hn')]])].
        - right. unfold stylingPosition in *. rewrite Hpos.
          split; [exact Hp|].
          rewrite count_occ_cons_neq in Hn by congruence. exact Hn.
        - right. unfold stylingPosition in *. rewrite Hpos.
          split; [exact Hp|].
          rewrite count_occ_cons_neq in Hn by congruence. exact Hn.
        - left. exact Hex.
        - right. split; [exact Hp'|].
          rewrite count_occ_cons_eq in Hn by congruence. lia. }
      destruct Hrest as (r2 & ->). cbn [bind]. eexists; reflexivity.
Qed.

Lemma stylingEntry_state (c : Clock) (r0 : list RingCmd * Clock) :
  stylingEntry c = Some r0 ->
  appearance (snd r0) = appearance c
  /\ clockFace (snd r0) = clockFace c
  /\ position (snd r0) = SET_POSITION_HOURS
  /\ settingsChangedFlag (snd r0) = 0
  /\ exitFlag (snd r0) = false.
Proof.
  unfold stylingEntry. cbv zeta.
  destruct (drawDisplayConfiguration _) as [d|] eqn:E; [|discriminate].
  apply drawDisplayConfiguration_frame in E.
  cbn [bind]. intros H. injection H as <-.
  unfold sameMenuState in E. clock_simpl. exact E.
Qed.

(** The session returns once four confirms have been read. *)
Lemma styling_session_returns (keys : list Z) (c : Clock) (e : Eeprom) :
  (4 <= count_occ Z.eq_dec keys KEY_PRESSED_2)%nat ->
  exists r, userSetFaceColorAndStyle keys c e = Some r.
Proof.
  intros Hn. unfold userSetFaceColorAndStyle.
  assert (H0 : exists r0, stylingEntry c = Some r0).
  { unfold stylingEntry. cbv zeta.
    destruct (drawDisplayConfiguration_total
                (set_position SET_POSITION_HOURS
                   (set_settingsChangedFlag 0 (initUserSelect c))))
      as (d & ->).
    eexists; reflexivity. }
  destruct H0 as (r0 & E0). rewrite E0. cbn [bind].
  destruct (stylingEntry_state c r0 E0) as (_ & _ & Hp & _ & _).
  destruct (stylingLoop_returns keys (snd r0)) as (r & ->).
  { right. split; [left; exact Hp|]. rewrite Hp. exact Hn. }
  cbn [bind]. destruct (stylingCommit (snd r) e) as [[out c'] e'].
  eexists; reflexivity.
Qed.

(** C3.  When a session of the styling menu returns: if no iteration changed
    a field of the appearance the EEPROM is left as it was, no write being
    issued; otherwise exactly four writes are issued, the marker, hours,
    minutes and seconds bytes of the active face at offsets
    [10 + 10 * clockFace] to [10 + 10 * clockFace + 3], and every other cell
    is left as it was. *)
Theorem styling_session_commit (keys : list Z) (c : Clock) (e : Eeprom)
    (out : list RingCmd) (c' : Clock) (e' : Eeprom) :
  userSetFaceColorAndStyle keys c e = Some (out, c', e') ->
  clockFace c' = clockFace c
  /\ if stylingSessionEdited keys c
     then written e'
          = written e
            ++ [(10 + 10 * clockFace c + 0, hoursMarkerColor c');
                (10 + 10 * clockFace c + 1, hoursColor c');
                (10 + 10 * clockFace c + 2, minutesColor c');
                (10 + 10 * clockFace c + 3, secondsColor c')]
          /\ (forall a,
                a < 10 + 10 * clockFace c \/ 10 + 10 * clockFace c + 3 < a ->
                cell e' a = cell e a)
     else e' = e.
Proof.
  unfold userSetFaceColorAndStyle, stylingSessionEdited.
  destruct (stylingEntry c) as [r0|] eqn:E0; [|discriminate].
  cbn [bind].
  destruct (stylingLoop keys (snd r0)) as [r|] eqn:El; [|discriminate].
  cbn [bind].
  destruct (stylingEntry_state c r0 E0) as (_ & Hf0 & Hp0 & Hflag0 & _).
  destruct (stylingLoop_flag keys (snd r0) r (or_introl (or_introl Hp0)) El)
    as (Hf & Hflag).
  rewrite Hflag0 in Hflag. rewrite Hf0 in Hf.
  unfold stylingCommit. rewrite Hflag.
  destruct (stylingLoopEdited keys (snd r0)).
  - change (0 <? 1) with true. cbv iota. cbn [fst snd].
    intros H. injection H as _ <- <-. clock_simpl.
    split; [exact Hf|]. rewrite Hf.
    unfold EEPROM_write, faceAddress, EEPROM_CLOCK_FACE_SETTINGS,
      DEFAULT_CLOCK_FACE_LENGTH. cbn [written cell].
    split.
    + rewrite <- !app_assoc. cbn [app].
      replace (10 + clockFace c * 10) with (10 + 10 * clockFace c) by lia.
      reflexivity.
    + intros a Ha.
      repeat match goal with
             | |- context [a =? ?x] =>
                 let E := fresh "E" in
                 destruct (a =? x) eqn:E; [apply Z.eqb_eq in E; lia|]
             end.
      reflexivity.
  - change (0 <? 0) with false. cbv iota. cbn [fst snd].
    intros H. injection H as _ <- <-. clock_simpl.
    split; [exact Hf | reflexivity].
Qed.

Lemma styling_session_commit_witness :
  (exists out c' e',
     userSetFaceColorAndStyle stylingEditKeys powerOnClock zeroEeprom
     = Some (out, c', e')
     /\ written e'
        = [(10, hoursMarkerColor c'); (11, hoursColor c');
           (12, minutesColor c'); (13, secondsColor c')])
  /\ (exists out c' e',
        userSetFaceColorAndStyle stylingConfirmKeys powerOnClock zeroEeprom
        = Some (out, c', e')
        /\ e' = zeroEeprom).
Proof.
  split.
  - destruct (userSetFaceColorAndStyle stylingEditKeys powerOnClock
                zeroEeprom) as [[[out c'] e']|] eqn:E.
    + exists out, c', e'. split; [reflexivity|].
      destruct (styling_session_commit _ _ _ _ _ _ E) as (_ & H).
      change (stylingSessionEdited stylingEditKeys powerOnClock) with true
        in H.
      destruct H as (H & _). exact H.
    + vm_compute in E. discriminate E.
  - destruct (userSetFaceColorAndStyle stylingConfirmKeys powerOnClock
                zeroEeprom) as [[[out c'] e']|] eqn:E.
    + exists out, c', e'. split; [reflexivity|].
      destruct (styling_session_commit _ _ _ _ _ _ E) as (_ & H).
      change (stylingSessionEdited stylingConfirmKeys powerOnClock)
        with false in H.
      exact H.
    + vm_compute in E. discriminate E.
Defined.

(** * Further properties *)

(** ** Checking a range of integers *)

Lemma range_forallb (f : Z -> bool) (n : nat) :
  forallb f (map Z.of_nat (seq 0 n)) = true ->
  forall v, 0 <= v < Z.of_nat n -> f v = true.
Proof.
  intros H v Hv. rewrite forallb_forall in H. apply H.
  apply in_map_iff. exists (Z.to_nat v). split; [lia|].
  apply in_seq. lia.
Qed.

(** ** Binary coded decimal *)

Lemma bcd_decode_encode (val : Z) :
  0 <= val < 100 ->
  bcdToDec (decToBcd val) = val
  /\ Z.land (decToBcd val) 0x0f < 10
  /\ Z.shiftr (decToBcd val) 4 < 10.
Proof.
  intros H.
  pose proof (range_forallb
    (fun v => (bcdToDec (decToBcd v) =? v)
              && (Z.land (decToBcd v) 0x0f <? 10)
              && (Z.shiftr (decToBcd v) 4 <? 10)) 100 eq_refl val H) as E.
  cbv beta in E.
  apply andb_prop in E. destruct E as [E E3].
  apply andb_prop in E. destruct E as [E1 E2].
  apply Z.eqb_eq in E1. apply Z.ltb_lt in E2, E3. auto.
Qed.

(** X1.  Below 100, encoding to BCD and decoding gives the number back, and
    the BCD byte has both nibbles below 10. *)
Theorem bcd_round_trip (val : Z) :
  0 <= val < 100 ->
  bcdToDec (decToBcd val) = val
  /\ Z.land (decToBcd val) 0x0f < 10
  /\ Z.shiftr (decToBcd val) 4 < 10.
Proof. exact (bcd_decode_encode val). Qed.

Lemma bcd_round_trip_witness :
  0 <= 59 < 100
  /\ bcdToDec (decToBcd 59) = 59
  /\ Z.land (decToBcd 59) 0x0f < 10
  /\ Z.shiftr (decToBcd 59) 4 < 10.
Proof.
  split; [lia|]. apply (bcd_round_trip 59). lia.
Defined.

Lemma setDate_getDate (sec mnt hrs dow dom mon yrs : Z) (c : Clock) :
  0 <= sec < 80 -> 0 <= mnt < 100 -> 0 <= hrs < 40 -> 0 <= dow < 100 ->
  0 <= dom < 100 -> 0 <= mon < 100 -> 0 <= yrs < 100 ->
  let c' := getDateDs1307 (setDateDs1307 sec mnt hrs dow dom mon yrs) c in
  seconds c' = sec /\ minutes c' = mnt /\ hours c' = hrs
  /\ dayOfWeek c' = dow /\ dayOfMonth c' = dom /\ months c' = mon
  /\ years c' = yrs.
Proof.
  intros Hs Hm Hh Hw Hd Ho Hy c'. unfold c', getDateDs1307, setDateDs1307.
  cbn [regSeconds regMinutes regHours regDayOfWeek regDayOfMonth regMonth
       regYear].
  clock_simpl.
  assert (Es : bcdToDec (Z.land (decToBcd sec) 0x7f) = sec).
  { pose proof (range_forallb
      (fun v => bcdToDec (Z.land (decToBcd v) 0x7f) =? v) 80 eq_refl sec Hs)
      as E. apply Z.eqb_eq in E. exact E. }
  assert (Eh : bcdToDec (Z.land (decToBcd hrs) 0x3f) = hrs).
  { pose proof (range_forallb
      (fun v => bcdToDec (Z.land (decToBcd v) 0x3f) =? v) 40 eq_refl hrs Hh)
      as E. apply Z.eqb_eq in E. exact E. }
  repeat split; try assumption; apply bcd_decode_encode; assumption.
Qed.

(** X2.  What [setDateDs1307] writes, [getDateDs1307] reads back: for
    seconds below 80, hours below 40 (the two fields read through a mask)
    and the other fields below 100. *)
Theorem ds1307_set_then_get (sec mnt hrs dow dom mon yrs : Z) (c : Clock) :
  0 <= sec < 80 -> 0 <= mnt < 100 -> 0 <= hrs < 40 -> 0 <= dow < 100 ->
  0 <= dom < 100 -> 0 <= mon < 100 -> 0 <= yrs < 100 ->
  let c' := getDateDs1307 (setDateDs1307 sec mnt hrs dow dom mon yrs) c in
  seconds c' = sec /\ minutes c' = mnt /\ hours c' = hrs
  /\ dayOfWeek c' = dow /\ dayOfMonth c' = dom /\ months c' = mon
  /\ years c' = yrs.
Proof. exact (setDate_getDate sec mnt hrs dow dom mon yrs c). Qed.

Lemma ds1307_set_then_get_witness :
  seconds (getDateDs1307 (setDateDs1307 59 59 23 7 31 12 99) powerOnClock)
  = 59
  /\ hours (getDateDs1307 (setDateDs1307 59 59 23 7 31 12 99) powerOnClock)
     = 23.
Proof.
  destruct (ds1307_set_then_get 59 59 23 7 31 12 99 powerOnClock
              ltac:(lia) ltac:(lia) ltac:(lia) ltac:(lia) ltac:(lia)
              ltac:(lia) ltac:(lia)) as (Hs & _ & Hh & _).
  split; [exact Hs | exact Hh].
Defined.

(** ** Characters *)

Lemma byte_of_hex_digits (v : Z) :
  is_byte v -> v = 16 * Z.shiftr v 4 + Z.land v 0x0f.
Proof.
  intros H.
  pose proof (range_forallb
    (fun v => v =? 16 * Z.shiftr v 4 + Z.land v 0x0f) 256 eq_refl v H) as E.
  apply Z.eqb_eq in E. exact E.
Qed.

Lemma hex_digits_of_byte (v : Z) :
  is_byte v -> 0 <= Z.shiftr v 4 < 16 /\ 0 <= Z.land v 0x0f < 16.
Proof.
  intros H.
  pose proof (range_forallb
    (fun v => (0 <=? Z.shiftr v 4) && (Z.shiftr v 4 <? 16)
              && (0 <=? Z.land v 0x0f) && (Z.land v 0x0f <? 16))
    256 eq_refl v H) as E.
  cbv beta in E.
  apply andb_prop in E. destruct E as [E E4].
  apply andb_prop in E. destruct E as [E E3].
  apply andb_prop in E. destruct E as [E1 E2].
  apply Z.leb_le in E1, E3. apply Z.ltb_lt in E2, E4. lia.
Qed.

(** The glyphs of the digits that have one are distinct. *)
Lemma shown_glyphs_differ (n m : Z) :
  hexDigitShown n -> hexDigitShown m ->
  translateCharTo7SegDigit (translateValueToHex n) false
  = translateCharTo7SegDigit (translateValueToHex m) false ->
  n = m.
Proof.
  intros Hn Hm E.
  assert (Rn : 0 <= n < Z.of_nat 16) by (unfold hexDigitShown in Hn; lia).
  assert (Rm : 0 <= m < Z.of_nat 16) by (unfold hexDigitShown in Hm; lia).
  pose proof (range_forallb
    (fun x =>
       forallb
         (fun y =>
            negb (translateCharTo7SegDigit (translateValueToHex x) false
                  =? translateCharTo7SegDigit (translateValueToHex y) false)
            || (x =? y)
            || (x =? 10) || (x =? 12) || (14 <=? x)
            || (y =? 10) || (y =? 12) || (14 <=? y))
         (map Z.of_nat (seq 0 16))) 16 eq_refl n Rn) as Hall.
  cbv beta in Hall. rewrite forallb_forall in Hall.
  assert (Hin : In m (map Z.of_nat (seq 0 16))).
  { apply in_map_iff. exists (Z.to_nat m). split; [lia|]. apply in_seq. lia. }
  specialize (Hall m Hin). rewrite E, Z.eqb_refl in Hall. cbn [negb orb] in Hall.
  unfold hexDigitShown in Hn, Hm.
  repeat (apply orb_prop in Hall; destruct Hall as [Hall | Hall]);
    first [ apply Z.eqb_eq in Hall | apply Z.leb_le in Hall ]; lia.
Qed.

(** The other digits, a, c, e and f, are sent as the glyph of [?]. *)
Lemma unshown_glyph (n : Z) :
  0 <= n < 16 -> ~ hexDigitShown n ->
  translateCharTo7SegDigit (translateValueToHex n) false
  = translateCharTo7SegDigit (chr "?") false.
Proof.
  intros Hr Hn.
  assert (E : n = 10 \/ n = 12 \/ n = 14 \/ n = 15)
    by (unfold hexDigitShown in Hn; lia).
  destruct E as [-> | [-> | [-> | ->]]]; reflexivity.
Qed.

(** X3.  What [displayHexAndPause] sends tells a byte only when both its
    hexadecimal digits are among 0 to 9, b and d: two such bytes sent by the
    same transaction are equal.  The digits a, c, e and f have no glyph and
    are sent as the glyph of [?], so two bytes that agree on each digit or
    have one of these four in its place are sent by the same
    transaction. *)
Theorem hex_display_tells_digits_with_glyph (v1 v2 : Z) (d1 d2 : Segments) :
  is_byte v1 -> is_byte v2 ->
  (hexDigitShown (Z.shiftr v1 4) -> hexDigitShown (Z.land v1 0x0f) ->
   hexDigitShown (Z.shiftr v2 4) -> hexDigitShown (Z.land v2 0x0f) ->
   displayHexAndPause v1 d1 = displayHexAndPause v2 d2 -> v1 = v2)
  /\ (Z.shiftr v1 4 = Z.shiftr v2 4
      \/ ~ hexDigitShown (Z.shiftr v1 4) /\ ~ hexDigitShown (Z.shiftr v2 4) ->
      Z.land v1 0x0f = Z.land v2 0x0f
      \/ ~ hexDigitShown (Z.land v1 0x0f)
         /\ ~ hexDigitShown (Z.land v2 0x0f) ->
      displayHexAndPause v1 d1 = displayHexAndPause v2 d1)
  /\ (~ hexDigitShown (Z.land v1 0x0f) ->
      translateCharTo7SegDigit (charAt (hexChars v1) 3) false
      = translateCharTo7SegDigit (chr "?") false).
Proof.
  intros B1 B2.
  destruct (hex_digits_of_byte v1 B1) as (Hh1 & Hl1).
  destruct (hex_digits_of_byte v2 B2) as (Hh2 & Hl2).
  unfold displayHexAndPause, ledSegmentsDisplayChars, hexChars.
  cbn [charAt nth]. split; [|split].
  - intros Sh1 Sl1 Sh2 Sl2 E.
    injection E as Elo Ehi _.
    rewrite (byte_of_hex_digits v1 B1), (byte_of_hex_digits v2 B2).
    rewrite (shown_glyphs_differ _ _ Sh1 Sh2 Ehi).
    rewrite (shown_glyphs_differ _ _ Sl1 Sl2 Elo).
    reflexivity.
  - intros Hhi Hlo.
    assert (Ehi : translateCharTo7SegDigit
                    (translateValueToHex (Z.shiftr v1 4)) false
                  = translateCharTo7SegDigit
                      (translateValueToHex (Z.shiftr v2 4)) false).
    { destruct Hhi as [-> | (N1 & N2)]; [reflexivity|].
      rewrite (unshown_glyph _ Hh1 N1), (unshown_glyph _ Hh2 N2).
      reflexivity. }
    assert (Elo : translateCharTo7SegDigit
                    (translateValueToHex (Z.land v1 0x0f)) false
                  = translateCharTo7SegDigit
                      (translateValueToHex (Z.land v2 0x0f)) false).
    { destruct Hlo as [-> | (N1 & N2)]; [reflexivity|].
      rewrite (unshown_glyph _ Hl1 N1), (unshown_glyph _ Hl2 N2).
      reflexivity. }
    rewrite Ehi, Elo. reflexivity.
  - intros N. exact (unshown_glyph _ Hl1 N).
Qed.

Lemma hex_display_tells_digits_with_glyph_witness :
  is_byte 0xa7 /\ is_byte 0xc7
  /\ displayHexAndPause 0xa7 (mkSegments 0 0 0 0)
     = displayHexAndPause 0xc7 (mkSegments 0 0 0 0).
Proof.
  assert (B1 : is_byte 0xa7) by (unfold is_byte; lia).
  assert (B2 : is_byte 0xc7) by (unfold is_byte; lia).
  split; [exact B1|]. split; [exact B2|].
  apply (hex_display_tells_digits_with_glyph 0xa7 0xc7 (mkSegments 0 0 0 0)
           (mkSegments 0 0 0 0) B1 B2).
  - right. split; intros H; unfold hexDigitShown in H; cbn in H; lia.
  - left. reflexivity.
Defined.

(** ** What the display shows *)

Lemma digit_glyphs_differ (a b : Z) :
  0 <= a < 10 -> 0 <= b < 10 ->
  translateCharTo7SegDigit (byte (a + chr "0")) false
  = translateCharTo7SegDigit (byte (b + chr "0")) false ->
  a = b.
Proof.
  intros Ha Hb.
  pose proof (range_forallb
    (fun x => forallb
       (fun y => negb (translateCharTo7SegDigit (byte (x + chr "0")) false
                       =? translateCharTo7SegDigit (byte (y + chr "0")) false)
                 || (x =? y))
       (map Z.of_nat (seq 0 10))) 10 eq_refl a Ha) as E.
  cbv beta in E.
  pose proof (range_forallb _ 10 E b Hb) as E'. cbv beta in E'.
  intros H. rewrite H, Z.eqb_refl in E'. cbn [negb orb] in E'.
  apply Z.eqb_eq in E'. exact E'.
Qed.

Lemma two_digits_determine (v w : Z) :
  0 <= v < 100 -> 0 <= w < 100 ->
  translateCharTo7SegDigit (byte (v / 10 + chr "0")) false
  = translateCharTo7SegDigit (byte (w / 10 + chr "0")) false ->
  translateCharTo7SegDigit (byte (v mod 10 + chr "0")) false
  = translateCharTo7SegDigit (byte (w mod 10 + chr "0")) false ->
  v = w.
Proof.
  intros Hv Hw Hd Hm.
  assert (Ed : v / 10 = w / 10).
  { apply digit_glyphs_differ; [| |exact Hd].
    - split; [apply Z.div_pos; lia | apply Z.div_lt_upper_bound; lia].
    - split; [apply Z.div_pos; lia | apply Z.div_lt_upper_bound; lia]. }
  assert (Em : v mod 10 = w mod 10).
  { apply digit_glyphs_differ; [| |exact Hm]; apply Z.mod_pos_bound; lia. }
  rewrite (Z.div_mod v 10), (Z.div_mod w 10) by lia. lia.
Qed.

(** X4.  With no field blanked, the bytes sent to the display determine the
    fields shown, when these are below 100: two states whose time is
    displayed by the same transaction have the same hours, minutes and
    seconds, and likewise for the date and years, months and day. *)
Theorem display_determines_fields (c1 c2 : Clock) (d1 d2 : Segments) :
  (0 <= hours c1 < 100 /\ 0 <= minutes c1 < 100 /\ 0 <= seconds c1 < 100) ->
  (0 <= hours c2 < 100 /\ 0 <= minutes c2 < 100 /\ 0 <= seconds c2 < 100) ->
  (0 <= years c1 < 100 /\ 0 <= months c1 < 100 /\ 0 <= dayOfMonth c1 < 100) ->
  (0 <= years c2 < 100 /\ 0 <= months c2 < 100 /\ 0 <= dayOfMonth c2 < 100) ->
  (ledSegmentsDisplayTime 0 c1 d1 = ledSegmentsDisplayTime 0 c2 d2 ->
   hours c1 = hours c2 /\ minutes c1 = minutes c2 /\ seconds c1 = seconds c2)
  /\ (ledSegmentsDisplayDate 0 c1 d1 = ledSegmentsDisplayDate 0 c2 d2 ->
      years c1 = years c2 /\ months c1 = months c2
      /\ dayOfMonth c1 = dayOfMonth c2).
Proof.
  intros (Hh1 & Hm1 & Hs1) (Hh2 & Hm2 & Hs2) (Hy1 & Ho1 & Hd1)
    (Hy2 & Ho2 & Hd2).
  split.
  - unfold ledSegmentsDisplayTime, ledSegmentsDisplayChars, timeChars, charAt.
    cbn [nth].
    change (0 !=? SET_POSITION_HOURS) with true.
    change (0 !=? SET_POSITION_MINUTES) with true.
    change (0 !=? SET_POSITION_SECONDS) with true.
    cbv iota. intros H.
    injection H as Gs0 Gs1 Gm0 Gm1 Gh0 Gh1 _.
    repeat split; apply two_digits_determine; assumption.
  - unfold ledSegmentsDisplayDate, ledSegmentsDisplayChars, dateChars, charAt.
    cbn [nth].
    change (0 !=? SET_POSITION_YEAR) with true.
    change (0 !=? SET_POSITION_MONTH) with true.
    change (0 !=? SET_POSITION_DAY) with true.
    cbv iota. intros H.
    injection H as Gd0 Gd1 Gm0 Gm1 Gy0 Gy1 _.
    repeat split; apply two_digits_determine; assumption.
Qed.

Lemma display_determines_fields_witness :
  (0 <= hours leapFebruary29 < 100 /\ 0 <= minutes leapFebruary29 < 100
   /\ 0 <= seconds leapFebruary29 < 100)
  /\ ledSegmentsDisplayTime 0 leapFebruary29 (mkSegments 0 0 0 0)
     = ledSegmentsDisplayTime 0 powerOnClock (mkSegments 0 0 0 0)
  /\ hours leapFebruary29 = hours powerOnClock
  /\ minutes leapFebruary29 = minutes powerOnClock
  /\ seconds leapFebruary29 = seconds powerOnClock.
Proof.
  split; [cbn; lia|]. split; [reflexivity|].
  destruct (display_determines_fields leapFebruary29 powerOnClock
              (mkSegments 0 0 0 0) (mkSegments 0 0 0 0)) as (H & _);
    [cbn; lia | cbn; lia | cbn; lia | cbn; lia |].
  apply H. reflexivity.
Defined.

(** X5.  The brightness and blink commands are sent only for arguments in
    range: brightness above 15 and blink rate above 3 send nothing; in
    range, one byte is sent, [0xE0 + b] for brightness and [0x81 + 2 * b]
    for blink. *)
Theorem display_commands_in_range (b : Z) :
  0 <= b ->
  (15 < b -> setLedSegmentsBrightness b = None)
  /\ (b <= 15 -> setLedSegmentsBrightness b = Some [0xE0 + b])
  /\ (3 < b -> setLedSegmentsBlink b = None)
  /\ (b <= 3 -> setLedSegmentsBlink b = Some [0x81 + 2 * b]).
Proof.
  intros Hb. unfold setLedSegmentsBrightness, setLedSegmentsBlink.
  repeat split; intros H.
  - apply Z.ltb_lt in H. rewrite H. reflexivity.
  - assert (E : (15 <? b) = false) by (apply Z.ltb_ge; lia). rewrite E.
    pose proof (range_forallb (fun v => Z.lor 0xE0 v =? 0xE0 + v) 16 eq_refl
                  b ltac:(lia)) as E'.
    apply Z.eqb_eq in E'. rewrite E'. reflexivity.
  - apply Z.ltb_lt in H. rewrite H. reflexivity.
  - assert (E : (3 <? b) = false) by (apply Z.ltb_ge; lia). rewrite E.
    pose proof (range_forallb
                  (fun v => Z.lor (Z.lor 0x80 (Z.shiftl v 1)) 1
                            =? 0x81 + 2 * v) 4 eq_refl b ltac:(lia)) as E'.
    apply Z.eqb_eq in E'. rewrite E'. reflexivity.
Qed.

Lemma display_commands_in_range_witness :
  0 <= 9 /\ setLedSegmentsBrightness 9 = Some [0xE0 + 9].
Proof.
  split; [lia|].
  apply (display_commands_in_range 9); lia.
Defined.

(** ** The wipe *)

Lemma exec_same_colour (color : Z) (cmds : list RingCmd) :
  Forall (fun cmd => exists n,
            cmd = LedWrite RING_HOURS_MINUTES_SECONDS n color) cmds ->
  forall (rs : Rings) (ring p : Z),
    inMask RING_HOURS_MINUTES_SECONDS ring = true ->
    exec cmds rs ring p = if writesTo p cmds then color else rs ring p.
Proof.
  induction 1 as [|cmd cmds (n & ->) _ IH]; intros rs ring p Hm;
    [reflexivity|].
  cbn [exec fold_left]. fold (exec cmds (exec1 rs (LedWrite 7 n color))).
  rewrite IH by exact Hm.
  unfold writesTo. cbn [existsb writtenPosition exec1].
  fold (writesTo p cmds). rewrite Hm. cbn [andb].
  destruct (writesTo p cmds); [rewrite orb_true_r; reflexivity|].
  rewrite orb_false_r. reflexivity.
Qed.

(** X6.  [ringAnimation] writes each of the 60 positions exactly once, on
    all three rings: after it every LED of the three rings has the colour
    of the wipe, whatever was shown before. *)
Theorem ringAnimation_covers_rings (color : Z) (rs : Rings) (ring p : Z) :
  ring = RING_HOURS \/ ring = RING_MINUTES \/ ring = RING_SECONDS ->
  0 <= p < 60 ->
  exec (ringAnimation color) rs ring p = color
  /\ length (ringAnimation color) = 60%nat
  /\ NoDup (writtenPositions (ringAnimation color)).
Proof.
  intros Hr Hp.
  assert (Hm : inMask RING_HOURS_MINUTES_SECONDS ring = true)
    by (destruct Hr as [-> | [-> | ->]]; reflexivity).
  assert (HF : Forall (fun cmd => exists n,
                         cmd = LedWrite RING_HOURS_MINUTES_SECONDS n color)
                      (ringAnimation color)).
  { unfold ringAnimation. cbn [seq map flat_map app ledWrite].
    repeat (constructor; [eexists; reflexivity|]). constructor. }
  split; [|split; [reflexivity|]].
  - rewrite (exec_same_colour color _ HF rs ring p Hm).
    assert (E : writesTo p (ringAnimation color) = true).
    { change (writesTo p (ringAnimation color))
        with (writesTo p (ringAnimation 0)).
      exact (range_forallb (fun q => writesTo q (ringAnimation 0)) 60
               eq_refl p Hp). }
    rewrite E. reflexivity.
  - change (writtenPositions (ringAnimation color))
      with (nodup Z.eq_dec (writtenPositions (ringAnimation 0))).
    apply NoDup_nodup.
Qed.

Lemma ringAnimation_covers_rings_witness :
  exec (ringAnimation COLOR_BLANK) allWhite RING_MINUTES 59 = COLOR_BLANK.
Proof.
  apply (ringAnimation_covers_rings COLOR_BLANK allWhite RING_MINUTES 59);
    [right; left; reflexivity | lia].
Defined.

(** ** Markers *)

Lemma markerRings_within_base (c : Clock) (p : Z) :
  Z.land (markerRings c p) (markerBase p) = markerRings c p.
Proof.
  unfold markerRings, markerBase.
  repeat match goal with
         | |- context [if ?b then _ else _] => destruct b
         end; reflexivity.
Qed.

Lemma marker_loop_unrolled (steps : Z) (body : Z -> list RingCmd) :
  steps = 5 \/ steps = 15 \/ steps = 60 ->
  for_loop byteFuel 0 (fun loopMarker => loopMarker <? 60)
    (fun loopMarker => byte (loopMarker + steps)) body
  = Some (flat_map body (markerPositions steps)).
Proof.
  intros [-> | [-> | ->]].
  - change (markerPositions 5)
      with [0; 5; 10; 15; 20; 25; 30; 35; 40; 45; 50; 55].
    cbn [flat_map]. reflexivity.
  - change (markerPositions 15) with [0; 15; 30; 45].
    cbn [flat_map]. reflexivity.
  - change (markerPositions 60) with [0].
    cbn [flat_map]. reflexivity.
Qed.

Lemma marker_writes (c : Clock) (ps : list Z) :
  Z.land (hoursMarkerColor c) 0x0f <> COLOR_BLANK ->
  NoDup ps ->
  Forall (fun p => 0 <= p < 60 /\ p mod 5 = 0) ps ->
  let cmds :=
    flat_map (fun loopMarker =>
                let markers := markerRings c loopMarker in
                if markers !=? RING_NONE
                then ledWrite markers loopMarker
                       (Z.land (hoursMarkerColor c) 0x0f)
                else []) ps in
  Forall (markerWrite c) cmds
  /\ NoDup (writtenPositions cmds)
  /\ (forall p, In p (writtenPositions cmds) -> In p ps).
Proof.
  intros Hcol Hnd Hps. cbv zeta.
  induction ps as [|q ps IH]; cbn [flat_map].
  - repeat split; [constructor | constructor | intros p []].
  - inversion Hnd as [|? ? Hq Hnd']; subst.
    inversion Hps as [|? ? (Hr & Hm) Hps']; subst.
    destruct (IH Hnd' Hps') as (IF & IN & II).
    destruct (markerRings c q !=? RING_NONE) eqn:E.
    + cbn [ledWrite app writtenPositions flat_map writtenPosition].
      fold (writtenPositions
              (flat_map (fun loopMarker =>
                 let markers := markerRings c loopMarker in
                 if markers !=? RING_NONE
                 then ledWrite markers loopMarker
                        (Z.land (hoursMarkerColor c) 0x0f)
                 else []) ps)).
      split; [|split].
      * constructor; [|exact IF].
        exists q. repeat split; try assumption; try lia.
        -- unfold neqb in E. apply negb_true_iff in E.
           apply Z.eqb_neq in E. exact E.
        -- apply markerRings_within_base.
      * constructor; [|exact IN]. intros Hin. apply Hq. apply II. exact Hin.
      * intros p [<- | Hin]; [left; reflexivity | right; apply II; exact Hin].
    + cbn [app]. split; [exact IF|]. split; [exact IN|].
      intros p Hin. right. apply II. exact Hin.
Qed.

Lemma drawMarkers_marker_writes (c : Clock) :
  exists cmds,
    drawMarkers c = Some cmds
    /\ Forall (markerWrite c) cmds
    /\ NoDup (writtenPositions cmds)
    /\ (length cmds <= 12)%nat.
Proof.
  assert (H : forall steps,
             steps = 5 \/ steps = 15 \/ steps = 60 ->
             Z.land (hoursMarkerColor c) 0x0f <> COLOR_BLANK ->
             exists cmds,
               drawHourMarkers steps (Z.land (hoursMarkerColor c) 0x0f) c
               = Some cmds
               /\ Forall (markerWrite c) cmds
               /\ NoDup (writtenPositions cmds)
               /\ (length cmds <= 12)%nat).
  { intros steps Hs Hcol. unfold drawHourMarkers.
    rewrite (marker_loop_unrolled steps _ Hs).
    eexists; split; [reflexivity|].
    assert (Hps : NoDup (markerPositions steps)
                  /\ Forall (fun p => 0 <= p < 60 /\ p mod 5 = 0)
                       (markerPositions steps)
                  /\ (length (markerPositions steps) <= 12)%nat).
    { destruct Hs as [-> | [-> | ->]].
      - change (markerPositions 5)
          with (nodup Z.eq_dec [0; 5; 10; 15; 20; 25; 30; 35; 40; 45; 50; 55]).
        split; [apply NoDup_nodup|]. cbn.
        split; [repeat constructor; lia | lia].
      - change (markerPositions 15) with (nodup Z.eq_dec [0; 15; 30; 45]).
        split; [apply NoDup_nodup|]. cbn.
        split; [repeat constructor; lia | lia].
      - change (markerPositions 60) with (nodup Z.eq_dec [0]).
        split; [apply NoDup_nodup|]. cbn.
        split; [repeat constructor; lia | lia]. }
    destruct Hps as (Hnd & Hall & Hlen).
    destruct (marker_writes c (markerPositions steps) Hcol Hnd Hall)
      as (HF & HN & HI).
    split; [exact HF|]. split; [exact HN|].
    apply Nat.le_trans with (length (markerPositions steps)); [|exact Hlen].
    clear. induction (markerPositions steps) as [|q ps IH]; [apply Nat.le_refl|].
    cbn [flat_map]. rewrite length_app. cbv zeta.
    destruct (markerRings c q !=? RING_NONE); cbn [ledWrite length Nat.add];
      lia. }
  unfold drawMarkers.
  destruct (Z.land (hoursMarkerColor c) 0x0f !=? COLOR_BLANK) eqn:Ecol.
  - assert (Hcol : Z.land (hoursMarkerColor c) 0x0f <> COLOR_BLANK).
    { unfold neqb in Ecol. apply negb_true_iff in Ecol.
      apply Z.eqb_neq in Ecol. exact Ecol. }
    destruct (bitRead (hoursMarkerColor c) MARKER_BIT_HOUR_EVERY =? 1);
      [apply H; auto|].
    destruct (bitRead (hoursMarkerColor c) MARKER_BIT_HOUR_QUARTERS =? 1);
      [apply H; auto|].
    destruct (bitRead (hoursMarkerColor c) MARKER_BIT_HOUR_TWELTH =? 1);
      [apply H; auto|].
    exists []. repeat split; try constructor. cbn. lia.
  - exists []. repeat split; try constructor. cbn. lia.
Qed.

(** X7.  [drawMarkers] always returns; every command it sends writes the
    marker colour, which is not blank, at a multiple of 5 below 60, on a
    non-empty set of rings within those of the position (all three rings at
    0, minutes and seconds at 15, 30 and 45, seconds elsewhere); no position
    is written twice and at most twelve commands are sent. *)
Theorem drawMarkers_writes (c : Clock) :
  exists cmds,
    drawMarkers c = Some cmds
    /\ Forall (markerWrite c) cmds
    /\ NoDup (writtenPositions cmds)
    /\ (length cmds <= 12)%nat.
Proof. exact (drawMarkers_marker_writes c). Qed.

(** ** The phases of the renderer *)

Lemma exec_darkens_or_keeps (cmds : list RingCmd) :
  Forall darkens cmds ->
  forall (rs : Rings) (ring p : Z),
    exec cmds rs ring p = rs ring p \/ exec cmds rs ring p = COLOR_BLANK.
Proof.
  induction 1 as [|cmd cmds Hc Hcs IH]; intros rs ring p; [left; reflexivity|].
  cbn [exec fold_left]. fold (exec cmds (exec1 rs cmd)).
  destruct (IH (exec1 rs cmd) ring p) as [E | E]; [|right; exact E].
  rewrite E.
  destruct cmd as [mask number color|mask]; cbn [exec1 darkens] in *.
  - destruct (inMask mask ring && (p =? number)); [right; exact Hc | left].
    reflexivity.
  - destruct (inMask mask ring); [right | left]; reflexivity.
Qed.

Lemma exec_lights (cmds : list RingCmd) :
  Forall lights cmds ->
  forall (rs : Rings) (ring p : Z),
    lit rs ring p = true -> lit (exec cmds rs) ring p = true.
Proof.
  induction 1 as [|cmd cmds Hc Hcs IH]; intros rs ring p Hl; [exact Hl|].
  cbn [exec fold_left]. fold (exec cmds (exec1 rs cmd)).
  apply IH. unfold lit in *.
  destruct cmd as [mask number color|mask]; cbn [exec1 lights] in *.
  - destruct (inMask mask ring && (p =? number)); [|exact Hl].
    apply neqb_true. exact Hc.
  - contradiction.
Qed.

Lemma clearHands_darkens (c : Clock) :
  handsAreBytes c ->
  exists cmds, clearHands c = Some cmds /\ Forall darkens cmds.
Proof.
  intros Hb.
  destruct (clearHours_darkens c Hb) as (hl & Hhl & Hhd).
  destruct (clearMinutes_darkens c Hb) as (ml & Hml & Hmd).
  destruct (clearSeconds_darkens c Hb) as (sl & Hsl & Hsd).
  unfold clearHands. rewrite Hhl, Hml, Hsl. cbn [bind].
  eexists; split; [reflexivity|].
  repeat (apply Forall_app; split); assumption.
Qed.

(** X8.  When the values the renderer compares are bytes, the clear phase
    returns and only darkens: every command writes colour 0 or turns a ring
    off, so an LED lit after the clear phase was lit before it. *)
Theorem clear_phase_only_darkens (c : Clock) (rs : Rings) :
  handsAreBytes c ->
  exists cmds,
    clearHands c = Some cmds
    /\ Forall darkens cmds
    /\ forall ring p,
         lit (exec cmds rs) ring p = true -> lit rs ring p = true.
Proof.
  intros Hb. destruct (clearHands_darkens c Hb) as (cmds & E & HF).
  exists cmds. split; [exact E|]. split; [exact HF|].
  intros ring p. unfold lit.
  destruct (exec_darkens_or_keeps cmds HF rs ring p) as [-> | ->];
    [auto | discriminate].
Qed.

Lemma clear_phase_only_darkens_witness :
  handsAreBytes secondsTraceWrapped
  /\ exists cmds,
       clearHands secondsTraceWrapped = Some cmds
       /\ Forall darkens cmds
       /\ forall ring p,
            lit (exec cmds allOff) ring p = true -> lit allOff ring p = true.
Proof.
  assert (Hb : handsAreBytes secondsTraceWrapped)
    by (unfold handsAreBytes, is_byte; cbn; lia).
  split; [exact Hb|].
  apply (clear_phase_only_darkens secondsTraceWrapped allOff Hb).
Defined.

Ltac lights_cases Hcol :=
  repeat match goal with
         | |- Forall _ (_ ++ _) => apply Forall_app; split
         | |- Forall _ [] => constructor
         | |- Forall _ (ledWrite _ _ _) =>
             constructor; [exact Hcol | constructor]
         | |- Forall _ (if ?b then _ else _) => destruct b
         end;
  try assumption.

Ltac lights_block Hcol :=
  repeat (match goal with
          | |- exists l, (if ?b then _ else _) = Some l /\ _ => destruct b
          | |- exists l, bind (if ?b then _ else _) _ = Some l /\ _ =>
              destruct b
          end; cbn [bind]);
  eexists; (split; [reflexivity|]); lights_cases Hcol.

Lemma blank_cases (x : Z) :
  (Z.land x 0x0f !=? COLOR_BLANK) = false
  \/ ((Z.land x 0x0f !=? COLOR_BLANK) = true
      /\ Z.land x 0x0f <> COLOR_BLANK).
Proof.
  destruct (Z.land x 0x0f !=? COLOR_BLANK) eqn:E; [right | left; reflexivity].
  split; [reflexivity|].
  unfold neqb in E. apply negb_true_iff in E. apply Z.eqb_neq in E. exact E.
Qed.

Lemma fill_cases (value previous : Z) (other : bool) :
  value = previous \/ (0 <= previous /\ 0 <= value < 255) ->
  ((value !=? previous) && other) = false
  \/ (0 <= previous /\ 0 <= value < 255).
Proof.
  intros [-> | H]; [left | right; exact H].
  unfold neqb. rewrite Z.eqb_refl. reflexivity.
Qed.

Lemma fill_lights (value previous color ring : Z) :
  color <> COLOR_BLANK ->
  0 <= previous -> 0 <= value < 255 ->
  exists l,
    for_up (if value <=? 1 then value else previous) value
      (fun r => ledWrite ring r color) = Some l
    /\ Forall lights l.
Proof.
  intros Hcol Hp Hv. unfold for_up. apply for_loop_up.
  - lia.
  - destruct (value <=? 1); lia.
  - unfold byteFuel. destruct (value <=? 1); lia.
  - intros r _. constructor; [exact Hcol | constructor].
Qed.

Lemma drawMinutes_lights (c : Clock) :
  minutes c = previousMinutes c
  \/ (0 <= previousMinutes c /\ 0 <= minutes c < 255) ->
  exists l, drawMinutes c = Some l /\ Forall lights l.
Proof.
  intros H. unfold drawMinutes.
  destruct (blank_cases (minutesColor c)) as [-> | (-> & Hcol)];
    [exists []; split; [reflexivity | constructor]|].
  destruct (fill_cases _ _
              ((0 <? minutes c)
               || (Z.land (hoursMarkerColor c) 0x0f =? COLOR_BLANK)) H)
    as [-> | (Hp & Hv)].
  - lights_block Hcol.
  - destruct (fill_lights (minutes c) (previousMinutes c)
                (Z.land (minutesColor c) 0x0f) RING_MINUTES Hcol Hp Hv)
      as (l & -> & Hl).
    lights_block Hcol.
Qed.

Lemma drawHours_lights (c : Clock) :
  hoursHand c = previousHoursHand c
  \/ (0 <= previousHoursHand c /\ 0 <= hoursHand c < 255) ->
  exists l, drawHours c = Some l /\ Forall lights l.
Proof.
  intros H. unfold drawHours.
  destruct (blank_cases (hoursColor c)) as [-> | (-> & Hcol)];
    [exists []; split; [reflexivity | constructor]|].
  destruct (fill_cases _ _
              ((0 <? hoursHand c)
               || (Z.land (hoursMarkerColor c) 0x0f =? COLOR_BLANK)) H)
    as [-> | (Hp & Hv)].
  - lights_block Hcol.
  - destruct (fill_lights (hoursHand c) (previousHoursHand c)
                (Z.land (hoursColor c) 0x0f) RING_HOURS Hcol Hp Hv)
      as (l & -> & Hl).
    lights_block Hcol.
Qed.

Lemma drawSeconds_lights (c : Clock) :
  seconds c = previousSeconds c
  \/ (0 <= previousSeconds c /\ 0 <= seconds c < 255) ->
  exists l, drawSeconds c = Some l /\ Forall lights l.
Proof.
  intros H. unfold drawSeconds.
  destruct (blank_cases (secondsColor c)) as [-> | (-> & Hcol)];
    [exists []; split; [reflexivity | constructor]|].
  destruct (fill_cases _ _
              ((0 <? seconds c)
               || (Z.land (hoursMarkerColor c) 0x0f =? COLOR_BLANK)) H)
    as [-> | (Hp & Hv)].
  - lights_block Hcol.
  - destruct (fill_lights (seconds c) (previousSeconds c)
                (Z.land (secondsColor c) 0x0f) RING_SECONDS Hcol Hp Hv)
      as (l & -> & Hl).
    lights_block Hcol.
Qed.

Lemma drawHands_lights (c : Clock) :
  hoursHand c = previousHoursHand c
  \/ (0 <= previousHoursHand c /\ 0 <= hoursHand c < 255) ->
  minutes c = previousMinutes c
  \/ (0 <= previousMinutes c /\ 0 <= minutes c < 255) ->
  seconds c = previousSeconds c
  \/ (0 <= previousSeconds c /\ 0 <= seconds c < 255) ->
  exists cmds, drawHands c = Some cmds /\ Forall lights cmds.
Proof.
  intros Hh Hm Hs.
  destruct (drawMinutes_lights c Hm) as (ml & Eml & Hml).
  destruct (drawHours_lights c Hh) as (hl & Ehl & Hhl).
  destruct (drawSeconds_lights c Hs) as (sl & Esl & Hsl).
  unfold drawHands. rewrite Eml, Ehl, Esl. cbn [bind].
  eexists; split; [reflexivity|].
  repeat (apply Forall_app; split); assumption.
Qed.

(** X9.  When the values the renderer compares are bytes and the current
    ones are below 255, the draw phase returns and only lights: every
    command writes a colour other than 0, so an LED lit before the draw
    phase is lit after it. *)
Theorem draw_phase_only_lights (c : Clock) (rs : Rings) :
  handsAreBytes c ->
  hoursHand c < 255 -> minutes c < 255 -> seconds c < 255 ->
  exists cmds,
    drawHands c = Some cmds
    /\ Forall lights cmds
    /\ forall ring p,
         lit rs ring p = true -> lit (exec cmds rs) ring p = true.
Proof.
  intros (Hh & Hm & Hs & Hph & Hpm & Hps) Lh Lm Ls. unfold is_byte in *.
  destruct (drawHands_lights c) as (cmds & E & HF);
    [right; lia | right; lia | right; lia |].
  exists cmds. split; [exact E|]. split; [exact HF|].
  intros ring p. apply exec_lights. exact HF.
Qed.

Lemma draw_phase_only_lights_witness :
  handsAreBytes secondsTraceAdvanced
  /\ exists cmds,
       drawHands secondsTraceAdvanced = Some cmds
       /\ Forall lights cmds
       /\ forall ring p,
            lit allWhite ring p = true
            -> lit (exec cmds allWhite) ring p = true.
Proof.
  assert (Hb : handsAreBytes secondsTraceAdvanced)
    by (unfold handsAreBytes, is_byte; cbn; lia).
  split; [exact Hb|].
  apply (draw_phase_only_lights secondsTraceAdvanced allWhite Hb);
    cbn; lia.
Defined.

(** ** One invocation, and the next *)

Lemma neqb_refl (x : Z) : (x !=? x) = false.
Proof. unfold neqb. rewrite Z.eqb_refl. reflexivity. Qed.

Lemma clearHands_settled (c : Clock) :
  hoursHand c = previousHoursHand c -> minutes c = previousMinutes c ->
  seconds c = previousSeconds c ->
  clearHands c = Some [].
Proof.
  intros Hh Hm Hs. unfold clearHands, clearHours, clearMinutes, clearSeconds.
  rewrite Hh, Hm, Hs, !neqb_refl.
  destruct (Z.land (hoursColor c) 0x0f !=? COLOR_BLANK);
    destruct (Z.land (minutesColor c) 0x0f !=? COLOR_BLANK);
    destruct (Z.land (secondsColor c) 0x0f !=? COLOR_BLANK); reflexivity.
Qed.

Lemma markerWrite_lights (c : Clock) (cmds : list RingCmd) :
  Forall (markerWrite c) cmds -> Forall lights cmds.
Proof.
  induction 1 as [|cmd cmds (p & -> & Hcol & _) _ IH]; constructor;
    [exact Hcol | exact IH].
Qed.

Lemma drawClockFace_again (c : Clock) (out : list RingCmd) (c' : Clock) :
  drawClockFace c = Some (out, c') ->
  exists out2, drawClockFace c' = Some (out2, c') /\ Forall lights out2.
Proof.
  unfold drawClockFace at 1. cbv zeta.
  destruct (clearHands _) as [cl|]; [|discriminate].
  destruct (drawHands _) as [dr|]; [|discriminate].
  destruct (drawMarkers _) as [mk|]; [|discriminate].
  cbn [bind]. intros H. injection H as _ <-.
  unfold drawClockFace. cbv zeta.
  match goal with
  | |- context [clearHands ?x] => set (c2 := x)
  end.
  assert (Hh : hoursHand c2 = previousHoursHand c2)
    by (unfold c2; clock_simpl; reflexivity).
  assert (Hm : minutes c2 = previousMinutes c2)
    by (unfold c2; clock_simpl; reflexivity).
  assert (Hs : seconds c2 = previousSeconds c2)
    by (unfold c2; clock_simpl; reflexivity).
  rewrite (clearHands_settled c2 Hh Hm Hs).
  destruct (drawHands_lights c2 (or_introl Hh) (or_introl Hm) (or_introl Hs))
    as (dr2 & -> & Hdr2).
  destruct (drawMarkers_marker_writes c2) as (mk2 & -> & Hmk2 & _).
  cbn [bind app].
  eexists; split; [reflexivity|].
  apply Forall_app; split; [exact Hdr2|].
  apply (markerWrite_lights c2). exact Hmk2.
Qed.

(** X10.  When [drawClockFace] returns, the previous values equal the
    current ones and the hours hand is at [(hours % 12) * 5 + minutes / 12],
    below 60 for minutes below 60; invoked again on the state it leaves, it
    returns, leaves that state as it is and sends no command that darkens:
    nothing is cleared. *)
Theorem drawClockFace_settles (c : Clock) (out : list RingCmd) (c' : Clock) :
  drawClockFace c = Some (out, c') ->
  previousHoursHand c' = hoursHand c'
  /\ previousHours c' = hours c'
  /\ previousMinutes c' = minutes c'
  /\ previousSeconds c' = seconds c'
  /\ hoursHand c' = byte (hours c mod 12 * 5 + minutes c / 12)
  /\ (0 <= hours c -> 0 <= minutes c < 60 -> 0 <= hoursHand c' < 60)
  /\ exists out2, drawClockFace c' = Some (out2, c') /\ Forall lights out2.
Proof.
  intros H. pose proof (drawClockFace_again c out c' H) as Hagain.
  unfold drawClockFace in H. cbv zeta in H.
  destruct (clearHands _) as [cl|]; [|discriminate].
  destruct (drawHands _) as [dr|]; [|discriminate].
  destruct (drawMarkers _) as [mk|]; [|discriminate].
  cbn [bind] in H. injection H as _ <-. clock_simpl.
  repeat split; try reflexivity; try exact Hagain.
  - rewrite byte_small.
    + assert (0 <= hours c mod 12) by (apply Z.mod_pos_bound; lia).
      assert (0 <= minutes c / 12) by (apply Z.div_pos; lia). lia.
    + assert (0 <= hours c mod 12 < 12) by (apply Z.mod_pos_bound; lia).
      assert (0 <= minutes c / 12 < 5).
      { split; [apply Z.div_pos; lia | apply Z.div_lt_upper_bound; lia]. }
      lia.
  - rewrite byte_small.
    + assert (0 <= hours c mod 12 < 12) by (apply Z.mod_pos_bound; lia).
      assert (0 <= minutes c / 12 < 5).
      { split; [apply Z.div_pos; lia | apply Z.div_lt_upper_bound; lia]. }
      lia.
    + assert (0 <= hours c mod 12 < 12) by (apply Z.mod_pos_bound; lia).
      assert (0 <= minutes c / 12 < 5).
      { split; [apply Z.div_pos; lia | apply Z.div_lt_upper_bound; lia]. }
      lia.
Qed.

Lemma drawClockFace_settles_witness :
  exists out c',
    drawClockFace secondsTraceAdvanced = Some (out, c')
    /\ previousSeconds c' = seconds c'
    /\ exists out2, drawClockFace c' = Some (out2, c') /\ Forall lights out2.
Proof.
  destruct (drawClockFace secondsTraceAdvanced) as [[out c']|] eqn:E.
  - exists out, c'. split; [reflexivity|].
    destruct (drawClockFace_settles _ _ _ E) as (_ & _ & _ & Hs & _ & _ & Ha).
    split; [exact Hs | exact Ha].
  - vm_compute in E. discriminate E.
Defined.

(** X11.  [normalMode] redraws only when the seconds read differ from the
    previous seconds.  After [resetPreviousValues], which forces a redraw by
    setting the previous values to 0, a reading whose seconds are 0 sends
    nothing to the rings and leaves the previous values at 0, whatever the
    minutes and hours read. *)
Theorem normalMode_skips_second_zero_after_reset (rtc : Ds1307) (c : Clock)
    (rs : Rings) :
  bcdToDec (Z.land (regSeconds rtc) 0x7f) = 0 ->
  exists c',
    normalMode rtc (resetPreviousValues c, rs) = Some (c', rs)
    /\ c' = getDateDs1307 rtc (resetPreviousValues c)
    /\ previousHoursHand c' = 0 /\ previousHours c' = 0
    /\ previousMinutes c' = 0 /\ previousSeconds c' = 0.
Proof.
  intros Hs. unfold normalMode. cbn [fst snd].
  assert (E : (seconds (getDateDs1307 rtc (resetPreviousValues c))
               !=? previousSeconds (getDateDs1307 rtc (resetPreviousValues c)))
              = false).
  { unfold getDateDs1307. clock_simpl. rewrite Hs. reflexivity. }
  rewrite E. eexists; split; [reflexivity|].
  unfold getDateDs1307. clock_simpl. repeat split.
Qed.

Lemma normalMode_skips_second_zero_after_reset_witness :
  bcdToDec (Z.land (regSeconds (rtcAt 0x10 0x11 0x00)) 0x7f) = 0
  /\ exists c',
       normalMode (rtcAt 0x10 0x11 0x00)
         (resetPreviousValues powerOnClock, allOff)
       = Some (c', allOff)
       /\ previousMinutes c' = 0.
Proof.
  split; [reflexivity|].
  destruct (normalMode_skips_second_zero_after_reset (rtcAt 0x10 0x11 0x00)
              powerOnClock allOff eq_refl)
    as (c' & E & _ & _ & _ & Hm & _).
  exists c'. split; [exact E | exact Hm].
Defined.

(** ** Factory settings *)

Lemma loadFace_in_range (e : Eeprom) (c : Clock) :
  0 <= clockFace c < DEFAULT_FACTORY_CLOCK_FACES ->
  exists c', loadFaceSettingsOrFactoryDefaults e c = Some c'.
Proof.
  intros Hf. unfold loadFaceSettingsOrFactoryDefaults. cbv zeta.
  match goal with
  | |- context [if ?b then _ else _] => destruct b
  end; [|eexists; reflexivity].
  clock_simpl.
  destruct (face_index_cases _ Hf) as [H|[H|[H|[H|[H|[H|[H|[H|[H|H]]]]]]]]];
    rewrite H; eexists; reflexivity.
Qed.

Lemma factory_written (e : Eeprom) :
  exists e',
    writeFactorySettingsToEeprom e = Some e'
    /\ length (written e') = (length (written e) + 43)%nat
    /\ cell e' EEPROM_CLOCK_FACE_NUMBER = 0
    /\ cell e' EEPROM_DATE_TIME_AND_COLON
       = Z.lor DISPLAY_TIME_AND_DATE DISPLAY_COLONS_FLASH_EVERY_SECOND
    /\ cell e' EEPROM_ALTERNATE_COUNTER = 5
    /\ (forall i, 0 <= i < DEFAULT_FACTORY_CLOCK_FACES ->
          at_index DEFAULT_FACTORY_COLORS i
          = Some (cell e' (faceAddress i 0), cell e' (faceAddress i 1),
                  cell e' (faceAddress i 2), cell e' (faceAddress i 3)))
    /\ (forall a, 104 <= a -> cell e' a = cell e a).
Proof.
  eexists. split; [reflexivity|].
  split.
  { cbn [written EEPROM_write]. rewrite !length_app. cbn [length]. lia. }
  split; [reflexivity|]. split; [reflexivity|]. split; [reflexivity|].
  split.
  - intros i Hi.
    destruct (face_index_cases _ Hi) as [H|[H|[H|[H|[H|[H|[H|[H|[H|H]]]]]]]]];
      rewrite H; reflexivity.
  - intros a Ha. cbn [cell EEPROM_write].
    unfold faceAddress, EEPROM_CLOCK_FACE_SETTINGS, DEFAULT_CLOCK_FACE_LENGTH,
      EEPROM_CLOCK_FACE_NUMBER, EEPROM_DATE_TIME_AND_COLON,
      EEPROM_ALTERNATE_COUNTER.
    repeat match goal with
           | |- context [a =? ?x] =>
               let E := fresh "E" in
               destruct (a =? x) eqn:E; [apply Z.eqb_eq in E; cbn in E; lia|]
           end.
    reflexivity.
Qed.

(** X12.  [writeFactorySettingsToEeprom] issues 43 writes, all below offset
    104, and what it writes loads back as the factory state: face index 0,
    time and date with flashing colons, period 5, and for each face index
    below 10 the row of that index of the factory table. *)
Theorem factory_settings_load_back (e : Eeprom) (c : Clock) :
  exists e',
    writeFactorySettingsToEeprom e = Some e'
    /\ length (written e') = (length (written e) + 43)%nat
    /\ (forall a, 104 <= a -> cell e' a = cell e a)
    /\ clockFace (loadSettingsOrFactoryDefaults e' c) = 0
    /\ ledSegmentsSettings (loadSettingsOrFactoryDefaults e' c)
       = Z.lor DISPLAY_TIME_AND_DATE DISPLAY_COLONS_FLASH_EVERY_SECOND
    /\ ledSegmentsToggleSeconds (loadSettingsOrFactoryDefaults e' c) = 5
    /\ forall i, 0 <= i < DEFAULT_FACTORY_CLOCK_FACES ->
         option_map appearance
           (loadFaceSettingsOrFactoryDefaults e' (set_clockFace i c))
         = at_index DEFAULT_FACTORY_COLORS i.
Proof.
  destruct (factory_written e) as (e' & E & Hl & H0 & H1 & H2 & Hrows & Hrest).
  exists e'. split; [exact E|]. split; [exact Hl|]. split; [exact Hrest|].
  unfold loadSettingsOrFactoryDefaults, EEPROM_read. clock_simpl.
  rewrite H0, H1, H2. clock_simpl.
  split; [reflexivity|]. split; [reflexivity|]. split; [reflexivity|].
  intros i Hi. pose proof (Hrows i Hi) as Hrow.
  unfold loadFaceSettingsOrFactoryDefaults, EEPROM_read. clock_simpl.
  destruct (face_index_cases _ Hi) as [H|[H|[H|[H|[H|[H|[H|[H|[H|H]]]]]]]]];
    rewrite H in Hrow |- *;
    cbn [at_index Z.ltb Z.compare Z.to_nat Pos.to_nat Pos.iter_op Nat.add
         nth_error DEFAULT_FACTORY_COLORS] in Hrow;
    injection Hrow as <- <- <- <-; reflexivity.
Qed.

Lemma factory_settings_load_back_witness :
  exists e',
    writeFactorySettingsToEeprom zeroEeprom = Some e'
    /\ option_map appearance
         (loadFaceSettingsOrFactoryDefaults e' (set_clockFace 4 powerOnClock))
       = at_index DEFAULT_FACTORY_COLORS 4.
Proof.
  destruct (factory_settings_load_back zeroEeprom powerOnClock)
    as (e' & E & _ & _ & _ & _ & _ & H).
  exists e'. split; [exact E|].
  apply H. unfold DEFAULT_FACTORY_CLOCK_FACES. lia.
Defined.

(** ** The styling menu and the loader *)

Lemma face_addresses_differ (f j k : Z) :
  j <> k -> (faceAddress f j =? faceAddress f k) = false.
Proof. intros H. apply Z.eqb_neq. unfold faceAddress. lia. Qed.

(** X13.  What the styling menu commits, the loader reads back: after a
    commit with the changed flag set, loading the same face gives the
    committed appearance, unless its four bytes are all zero, in which case
    the loader gives the factory row of the face instead. *)
Theorem styling_commit_loads_back (c c2 : Clock) (e : Eeprom) :
  0 < settingsChangedFlag c ->
  clockFace c2 = clockFace c ->
  let e' := snd (stylingCommit c e) in
  (appearance c <> (0, 0, 0, 0) ->
   option_map appearance (loadFaceSettingsOrFactoryDefaults e' c2)
   = Some (appearance c))
  /\ (appearance c = (0, 0, 0, 0) ->
      option_map appearance (loadFaceSettingsOrFactoryDefaults e' c2)
      = at_index DEFAULT_FACTORY_COLORS (clockFace c)).
Proof.
  intros Hflag Hf e'.
  assert (Hr : EEPROM_read (faceAddress (clockFace c2) 0) e'
               = hoursMarkerColor c
               /\ EEPROM_read (faceAddress (clockFace c2) 1) e' = hoursColor c
               /\ EEPROM_read (faceAddress (clockFace c2) 2) e'
                  = minutesColor c
               /\ EEPROM_read (faceAddress (clockFace c2) 3) e'
                  = secondsColor c).
  { unfold e', stylingCommit.
    apply Z.ltb_lt in Hflag. rewrite Hflag. cbn [fst snd].
    unfold EEPROM_read, EEPROM_write. cbn [cell]. rewrite Hf.
    repeat split;
      rewrite ?Z.eqb_refl, ?face_addresses_differ by lia; reflexivity. }
  destruct Hr as (R0 & R1 & R2 & R3).
  split.
  - intros Hne. unfold loadFaceSettingsOrFactoryDefaults. clock_simpl.
    rewrite R0, R1, R2, R3.
    destruct ((hoursMarkerColor c =? 0) && (hoursColor c =? 0)
              && (minutesColor c =? 0) && (secondsColor c =? 0)) eqn:Ez.
    + exfalso. apply Hne.
      apply andb_prop in Ez. destruct Ez as [Ez E4].
      apply andb_prop in Ez. destruct Ez as [Ez E3].
      apply andb_prop in Ez. destruct Ez as [E1 E2].
      apply Z.eqb_eq in E1, E2, E3, E4.
      unfold appearance. rewrite E1, E2, E3, E4. reflexivity.
    + clock_simpl. reflexivity.
  - intros Hz. rewrite load_face_reads_zero.
    + rewrite Hf.
      destruct (at_index DEFAULT_FACTORY_COLORS (clockFace c))
        as [[[[mk h] m] s]|]; reflexivity.
    + unfold appearance in Hz. injection Hz as Z0 Z1 Z2 Z3.
      intros k Hk.
      assert (Hk' : k = 0 \/ k = 1 \/ k = 2 \/ k = 3) by lia.
      destruct Hk' as [-> | [-> | [-> | ->]]]; congruence.
Qed.

Lemma styling_commit_loads_back_witness :
  0 < settingsChangedFlag (set_settingsChangedFlag 1 powerOnClock)
  /\ option_map appearance
       (loadFaceSettingsOrFactoryDefaults
          (snd (stylingCommit (set_settingsChangedFlag 1 powerOnClock)
                  zeroEeprom))
          powerOnClock)
     = Some (appearance (set_settingsChangedFlag 1 powerOnClock)).
Proof.
  split; [cbn; lia|].
  apply (styling_commit_loads_back (set_settingsChangedFlag 1 powerOnClock)
           powerOnClock zeroEeprom).
  - cbn. lia.
  - reflexivity.
  - vm_compute. discriminate.
Defined.

(** ** The settings menu, field by field *)

Lemma alt_times_in_table (v : Z) :
  In (findNextAltTime v) valueAltTimes
  /\ In (findPreviousAltTime v) valueAltTimes.
Proof.
  unfold findNextAltTime, findPreviousAltTime, valueAltTimes.
  cbn [rev app last hd entryAfter].
  repeat match goal with
         | |- context [if ?b then _ else _] => destruct b
         end;
    split; cbn [In]; auto 10.
Qed.

Lemma alt_times_nonzero (v : Z) : In v valueAltTimes -> v <> 0.
Proof.
  unfold valueAltTimes. cbn [In].
  intros [<- | [<- | [<- | [<- | [<- | [<- | [<- | []]]]]]]]; discriminate.
Qed.

(** X14.  Stepping the alternation period always lands in the table
    {1, 2, 5, 10, 15, 30, 60}, whatever the value before; on the table the
    two steps are inverse of each other and wrap, 60 to 1 and 1 to 60. *)
Theorem alt_time_steps_cycle (v : Z) :
  In (findNextAltTime v) valueAltTimes
  /\ In (findPreviousAltTime v) valueAltTimes
  /\ (In v valueAltTimes ->
      findPreviousAltTime (findNextAltTime v) = v
      /\ findNextAltTime (findPreviousAltTime v) = v)
  /\ findNextAltTime 60 = 1 /\ findPreviousAltTime 1 = 60.
Proof.
  destruct (alt_times_in_table v) as (Hn & Hp).
  split; [exact Hn|]. split; [exact Hp|].
  split; [|split; reflexivity].
  unfold valueAltTimes. cbn [In].
  intros [<- | [<- | [<- | [<- | [<- | [<- | [<- | []]]]]]]];
    split; reflexivity.
Qed.

Lemma alt_time_steps_cycle_witness :
  In 15 valueAltTimes
  /\ findPreviousAltTime (findNextAltTime 15) = 15
  /\ findNextAltTime (findPreviousAltTime 15) = 15.
Proof.
  assert (H : In 15 valueAltTimes) by (cbn; auto 10).
  split; [exact H|].
  apply (alt_time_steps_cycle 15). exact H.
Defined.

Ltac settings_position_tests :=
  repeat match goal with
         | |- context [SET_POSITION_CLOCK_FACE =? ?x] =>
             change (SET_POSITION_CLOCK_FACE =? x) with true
             || change (SET_POSITION_CLOCK_FACE =? x) with false
         | |- context [SET_POSITION_ALT_TIMER =? ?x] =>
             change (SET_POSITION_ALT_TIMER =? x) with true
             || change (SET_POSITION_ALT_TIMER =? x) with false
         | |- context [SET_POSITION_TIME_DATE =? ?x] =>
             change (SET_POSITION_TIME_DATE =? x) with true
             || change (SET_POSITION_TIME_DATE =? x) with false
         | |- context [SET_POSITION_FLASH_COLON =? ?x] =>
             change (SET_POSITION_FLASH_COLON =? x) with true
             || change (SET_POSITION_FLASH_COLON =? x) with false
         end;
  cbv iota.

Ltac if_cases :=
  repeat match goal with
         | |- context [if ?b then _ else _] => destruct b
         end.

(** Buttons 1 and 3 of the settings menu store one value in the field under
    the cursor; what that value can be, field by field. *)
Lemma settingsKeys_edit (k : Z) (c : Clock) :
  k = KEY_PRESSED_1 \/ k = KEY_PRESSED_3 ->
  exists value,
    settingsKeys k c
    = set_blinkUpdate 2
        (set_settingsChangedFlag 1
           (setSettingByPosition (position c) value c))
    /\ (position c = SET_POSITION_CLOCK_FACE ->
        0 <= value < DEFAULT_FACTORY_CLOCK_FACES)
    /\ (position c = SET_POSITION_ALT_TIMER -> In value valueAltTimes)
    /\ (position c = SET_POSITION_TIME_DATE ->
        value = DISPLAY_NONE \/ value = DISPLAY_TIME
        \/ value = DISPLAY_DATE \/ value = DISPLAY_TIME_AND_DATE)
    /\ (position c = SET_POSITION_FLASH_COLON ->
        (Z.land (ledSegmentsSettings c) 0x0f
         = DISPLAY_COLONS_FLASH_EVERY_SECOND /\ value = DISPLAY_COLONS_ON)
        \/ (Z.land (ledSegmentsSettings c) 0x0f
            <> DISPLAY_COLONS_FLASH_EVERY_SECOND
            /\ value = DISPLAY_COLONS_FLASH_EVERY_SECOND)).
Proof.
  assert (Hb : forall x, 0 <= byte x < 256)
    by (intros x; unfold byte; apply Z.mod_pos_bound; reflexivity).
  intros [-> | ->]; unfold settingsKeys.
  - change (KEY_PRESSED_1 =? KEY_PRESSED_1) with true.
    change (KEY_PRESSED_1 =? KEY_PRESSED_3) with false.
    change (KEY_PRESSED_1 =? KEY_PRESSED_2) with false.
    cbv iota zeta. eexists; split; [reflexivity|].
    unfold getSettingByPosition.
    split; [|split; [|split]]; intros Hp; rewrite Hp; settings_position_tests.
    + destruct (DEFAULT_FACTORY_CLOCK_FACES <=? byte (clockFace c - 1)) eqn:E;
        [unfold DEFAULT_FACTORY_CLOCK_FACES; lia|].
      apply Z.leb_gt in E. specialize (Hb (clockFace c - 1)). lia.
    + apply alt_times_in_table.
    + if_cases; auto.
    + destruct (Z.land (ledSegmentsSettings c) 0x0f
                =? DISPLAY_COLONS_FLASH_EVERY_SECOND) eqn:E.
      * apply Z.eqb_eq in E. auto.
      * apply Z.eqb_neq in E. auto.
  - change (KEY_PRESSED_3 =? KEY_PRESSED_1) with false.
    change (KEY_PRESSED_3 =? KEY_PRESSED_3) with true.
    change (KEY_PRESSED_3 =? KEY_PRESSED_2) with false.
    cbv iota zeta. eexists; split; [reflexivity|].
    unfold getSettingByPosition.
    split; [|split; [|split]]; intros Hp; rewrite Hp; settings_position_tests.
    + destruct (DEFAULT_FACTORY_CLOCK_FACES <=? byte (clockFace c + 1)) eqn:E;
        [unfold DEFAULT_FACTORY_CLOCK_FACES; lia|].
      apply Z.leb_gt in E. specialize (Hb (clockFace c + 1)). lia.
    + apply alt_times_in_table.
    + if_cases; auto.
    + destruct (Z.land (ledSegmentsSettings c) 0x0f
                =? DISPLAY_COLONS_FLASH_EVERY_SECOND) eqn:E.
      * apply Z.eqb_eq in E. auto.
      * apply Z.eqb_neq in E. auto.
Qed.

Lemma settingsKeys_confirm (c : Clock) :
  settingsKeys KEY_PRESSED_2 c
  = (if SET_POSITION_FLASH_COLON <? byte (position c + 1)
     then set_exitFlag true
            (set_position SET_POSITION_NONE
               (set_position (byte (position c + 1)) (set_blinkUpdate 3 c)))
     else set_position (byte (position c + 1)) (set_blinkUpdate 3 c)).
Proof. reflexivity. Qed.

Lemma settingsKeys_other (k : Z) (c : Clock) :
  k <> KEY_PRESSED_1 -> k <> KEY_PRESSED_3 -> k <> KEY_PRESSED_2 ->
  settingsKeys k c = c.
Proof.
  intros H1 H3 H2. unfold settingsKeys.
  apply Z.eqb_neq in H1, H3, H2. rewrite H1, H3, H2. reflexivity.
Qed.

Lemma key_cases (k : Z) :
  (k = KEY_PRESSED_1 \/ k = KEY_PRESSED_3) \/ k = KEY_PRESSED_2
  \/ (k <> KEY_PRESSED_1 /\ k <> KEY_PRESSED_3 /\ k <> KEY_PRESSED_2).
Proof.
  destruct (Z.eq_dec k KEY_PRESSED_1); [auto|].
  destruct (Z.eq_dec k KEY_PRESSED_3); [auto|].
  destruct (Z.eq_dec k KEY_PRESSED_2); auto.
Qed.

(** What no key of the settings menu does: the appearance of the face and
    the time are left alone, the period stays or moves into the table, the
    face index stays or moves into [0, 10). *)
Lemma settingsKeys_frame (k : Z) (c : Clock) :
  appearance (settingsKeys k c) = appearance c
  /\ (ledSegmentsToggleSeconds (settingsKeys k c)
      = ledSegmentsToggleSeconds c
      \/ In (ledSegmentsToggleSeconds (settingsKeys k c)) valueAltTimes)
  /\ (clockFace (settingsKeys k c) = clockFace c
      \/ 0 <= clockFace (settingsKeys k c) < DEFAULT_FACTORY_CLOCK_FACES)
  /\ settingsChangedFlag (settingsKeys k c)
     = (if (k =? KEY_PRESSED_1) || (k =? KEY_PRESSED_3) then 1
        else settingsChangedFlag c).
Proof.
  destruct (key_cases k) as [Hk | [-> | (H1 & H3 & H2)]].
  - destruct (settingsKeys_edit k c Hk) as (value & -> & Hface & Halt & _ & _).
    assert (Ek : (k =? KEY_PRESSED_1) || (k =? KEY_PRESSED_3) = true)
      by (destruct Hk as [-> | ->]; reflexivity).
    rewrite Ek. unfold setSettingByPosition.
    destruct (position c =? SET_POSITION_CLOCK_FACE) eqn:E1.
    { apply Z.eqb_eq in E1. clock_simpl. repeat split; auto. }
    destruct (position c =? SET_POSITION_TIME_DATE) eqn:E2.
    { clock_simpl. repeat split; auto. }
    destruct (position c =? SET_POSITION_ALT_TIMER) eqn:E3.
    { apply Z.eqb_eq in E3. clock_simpl. repeat split; auto. }
    destruct (position c =? SET_POSITION_FLASH_COLON) eqn:E4;
      clock_simpl; repeat split; auto.
  - rewrite settingsKeys_confirm.
    destruct (SET_POSITION_FLASH_COLON <? byte (position c + 1));
      clock_simpl; repeat split; auto.
  - rewrite (settingsKeys_other k c H1 H3 H2).
    apply Z.eqb_neq in H1, H3. rewrite H1, H3. repeat split; auto.
Qed.

(** ** The settings menu, whole sessions *)

Lemma settingsKeys_not_edit (k : Z) (c : Clock) :
  k <> KEY_PRESSED_1 -> k <> KEY_PRESSED_3 ->
  clockFace (settingsKeys k c) = clockFace c
  /\ ledSegmentsSettings (settingsKeys k c) = ledSegmentsSettings c
  /\ ledSegmentsToggleSeconds (settingsKeys k c)
     = ledSegmentsToggleSeconds c.
Proof.
  intros H1 H3.
  destruct (Z.eq_dec k KEY_PRESSED_2) as [-> | H2].
  - rewrite settingsKeys_confirm.
    destruct (SET_POSITION_FLASH_COLON <? byte (position c + 1));
      clock_simpl; repeat split.
  - rewrite (settingsKeys_other k c H1 H3 H2). repeat split.
Qed.

(** What a whole run of the loop of [userSettings] leaves. *)
Lemma settingsLoop_frame (keys : list Z) :
  forall c c',
    settingsLoop keys c = Some c' ->
    appearance c' = appearance c
    /\ (ledSegmentsToggleSeconds c' = ledSegmentsToggleSeconds c
        \/ In (ledSegmentsToggleSeconds c') valueAltTimes)
    /\ (clockFace c' = clockFace c
        \/ 0 <= clockFace c' < DEFAULT_FACTORY_CLOCK_FACES)
    /\ settingsChangedFlag c'
       = (if settingsLoopPressed keys c then 1 else settingsChangedFlag c)
    /\ (settingsLoopPressed keys c = false ->
        clockFace c' = clockFace c
        /\ ledSegmentsSettings c' = ledSegmentsSettings c
        /\ ledSegmentsToggleSeconds c' = ledSegmentsToggleSeconds c).
Proof.
  induction keys as [|k rest IH]; intros c c' H.
  - cbn [settingsLoop settingsLoopPressed] in *.
    destruct (exitFlag c); [|discriminate].
    injection H as <-. repeat split; auto.
  - cbn [settingsLoop settingsLoopPressed] in *.
    destruct (exitFlag c).
    { injection H as <-. repeat split; auto. }
    apply IH in H. destruct H as (Ha & Hp & Hf & Hc & Hn).
    destruct (settingsKeys_frame k c) as (Ka & Kp & Kf & Kc).
    unfold settingsIter in *. clock_simpl.
    split; [rewrite Ha; exact Ka|].
    split; [destruct Hp as [Hp | Hp]; [rewrite Hp; exact Kp | auto]|].
    split; [destruct Hf as [Hf | Hf]; [rewrite Hf; exact Kf | auto]|].
    split.
    + rewrite Hc, Kc.
      destruct ((k =? KEY_PRESSED_1) || (k =? KEY_PRESSED_3));
        cbn [orb]; [|reflexivity].
      destruct (settingsLoopPressed rest _); reflexivity.
    + intros Hnone. apply orb_false_iff in Hnone.
      destruct Hnone as (Hk & Hrest).
      apply orb_false_iff in Hk. destruct Hk as (Hk1 & Hk3).
      apply Z.eqb_neq in Hk1, Hk3.
      destruct (settingsKeys_not_edit k c Hk1 Hk3) as (N1 & N2 & N3).
      destruct (Hn Hrest) as (M1 & M2 & M3). clock_simpl.
      repeat split; congruence.
Qed.

(** [drawNormalLedSegments] divides only by the alternation period. *)
Lemma drawNormalLedSegments_total (c : Clock) (d : Segments) :
  ledSegmentsToggleSeconds c <> 0 ->
  exists r, drawNormalLedSegments c d = Some r.
Proof.
  intros Hp. unfold drawNormalLedSegments.
  apply Z.eqb_neq in Hp. rewrite Hp.
  repeat match goal with
         | |- context [if ?b then _ else _] => destruct b
         end;
    cbn [bind]; cbv zeta;
    repeat match goal with
           | |- context [if ?b then _ else _] => destruct b
           end;
    eexists; reflexivity.
Qed.

Lemma loadSettings_period (e : Eeprom) (c : Clock) :
  ledSegmentsToggleSeconds (loadSettingsOrFactoryDefaults e c) <> 0.
Proof.
  unfold loadSettingsOrFactoryDefaults. cbv zeta.
  destruct (DEFAULT_FACTORY_CLOCK_FACES <? _); clock_simpl;
    (destruct (EEPROM_read EEPROM_ALTERNATE_COUNTER e =? 0) eqn:E;
     clock_simpl; [discriminate | apply Z.eqb_neq; exact E]).
Qed.

(** X15.  The alternation period is never zero where [drawNormalLedSegments]
    divides by it: [loadSettingsOrFactoryDefaults] replaces a stored 0 by 5,
    and a session of the settings menu, whatever the keys, keeps the period
    or moves it into the table, so that the display refresh that follows is
    defined and a committed period is not 0 either. *)
Theorem period_never_zero (e0 e e' : Eeprom) (c0 c' : Clock) (keys : list Z)
    (d : Segments) :
  userSettings keys (loadSettingsOrFactoryDefaults e0 c0) e = Some (c', e') ->
  ledSegmentsToggleSeconds c' <> 0
  /\ (exists r, drawNormalLedSegments c' d = Some r)
  /\ (e' = e \/ EEPROM_read EEPROM_ALTERNATE_COUNTER e' <> 0).
Proof.
  unfold userSettings. intros H.
  destruct (settingsLoop keys _) as [c1|] eqn:E; [|discriminate].
  cbn [bind] in H. unfold settingsCommit in H. cbv zeta in H.
  injection H as <- <-.
  apply settingsLoop_frame in E. destruct E as (_ & Hp & _ & _ & _).
  assert (Hnz : ledSegmentsToggleSeconds c1 <> 0).
  { destruct Hp as [Hp | Hp].
    - rewrite Hp. unfold settingsEntry. clock_simpl.
      apply loadSettings_period.
    - apply alt_times_nonzero. exact Hp. }
  split; [clock_simpl; exact Hnz|].
  split; [apply drawNormalLedSegments_total; clock_simpl; exact Hnz|].
  destruct (0 <? settingsChangedFlag c1); [right | left; reflexivity].
  unfold EEPROM_read, EEPROM_write. cbn [cell].
  change (EEPROM_ALTERNATE_COUNTER =? EEPROM_ALTERNATE_COUNTER) with true.
  exact Hnz.
Qed.

Lemma period_never_zero_witness :
  exists c' e',
    userSettings periodSession
      (loadSettingsOrFactoryDefaults zeroEeprom powerOnClock) zeroEeprom
    = Some (c', e')
    /\ ledSegmentsToggleSeconds c' <> 0.
Proof.
  destruct (userSettings periodSession
              (loadSettingsOrFactoryDefaults zeroEeprom powerOnClock)
              zeroEeprom) as [[c' e']|] eqn:E;
    [|vm_compute in E; discriminate].
  exists c', e'. split; [reflexivity|].
  exact (proj1 (period_never_zero zeroEeprom zeroEeprom e' powerOnClock c'
                  periodSession (mkSegments 0 0 0 0) E)).
Defined.

(** X16.  Each edit of the settings menu leaves the field under the cursor
    valid when read back, whatever it held: a face index below 10, one of
    the four display modes, a period of the table, colons on or flashing;
    the cursor stays and the changed flag is set. *)
Theorem settings_edit_reads_back_valid (k : Z) (c : Clock) :
  k = KEY_PRESSED_1 \/ k = KEY_PRESSED_3 ->
  let c' := settingsKeys k c in
  let value := getSettingByPosition (position c) c' in
  position c' = position c
  /\ settingsChangedFlag c' = 1
  /\ (position c = SET_POSITION_CLOCK_FACE ->
      0 <= value < DEFAULT_FACTORY_CLOCK_FACES)
  /\ (position c = SET_POSITION_TIME_DATE ->
      value = DISPLAY_NONE \/ value = DISPLAY_TIME
      \/ value = DISPLAY_DATE \/ value = DISPLAY_TIME_AND_DATE)
  /\ (position c = SET_POSITION_ALT_TIMER -> In value valueAltTimes)
  /\ (position c = SET_POSITION_FLASH_COLON ->
      value = DISPLAY_COLONS_ON \/ value = DISPLAY_COLONS_FLASH_EVERY_SECOND).
Proof.
  intros Hk. cbv zeta.
  destruct (settingsKeys_edit k c Hk) as (v & -> & Hface & Halt & Hmode & Hcol).
  assert (Hpos : position (setSettingByPosition (position c) v c)
                 = position c).
  { unfold setSettingByPosition.
    repeat match goal with
           | |- context [if ?b then _ else _] => destruct b
           end; reflexivity. }
  clock_simpl. split; [exact Hpos|]. split; [reflexivity|].
  unfold getSettingByPosition, setSettingByPosition.
  split; [|split; [|split]]; intros Hp; rewrite Hp; settings_position_tests;
    clock_simpl.
  - exact (Hface Hp).
  - destruct (Hmode Hp) as [-> | [-> | [-> | ->]]];
      rewrite Z.land_lor_distr_l, <- !Z.land_assoc;
      change (Z.land 0x0f 0xf0) with 0; rewrite Z.land_0_r; cbn; auto.
  - exact (Halt Hp).
  - destruct (Hcol Hp) as [(_ & ->) | (_ & ->)];
      rewrite Z.land_lor_distr_l, <- !Z.land_assoc;
      change (Z.land 0xf0 0x0f) with 0; rewrite Z.land_0_r; cbn; auto.
Qed.

Lemma settings_edit_reads_back_valid_witness :
  position atColonField = SET_POSITION_FLASH_COLON
  /\ getSettingByPosition SET_POSITION_FLASH_COLON
       (settingsKeys KEY_PRESSED_1 atColonField)
     = DISPLAY_COLONS_ON.
Proof.
  split; [reflexivity|].
  destruct (settings_edit_reads_back_valid KEY_PRESSED_1 atColonField
              (or_introl eq_refl)) as (_ & _ & _ & _ & _ & H).
  destruct (H eq_refl) as [E | E]; [exact E | vm_compute in E; discriminate].
Defined.

(** X17.  A session of the settings menu never touches the appearance of
    the face.  When button 1 or 3 was read it writes exactly three bytes,
    the face index, the display byte and the period at offsets 0, 1 and 2,
    from the state it leaves; otherwise it writes nothing and the three
    settings are as they were. *)
Theorem settings_session_commit (keys : list Z) (c c' : Clock)
    (e e' : Eeprom) :
  userSettings keys c e = Some (c', e') ->
  appearance c' = appearance c
  /\ (if settingsLoopPressed keys (settingsEntry c)
      then written e'
           = written e
             ++ [(EEPROM_CLOCK_FACE_NUMBER, clockFace c');
                 (EEPROM_DATE_TIME_AND_COLON, ledSegmentsSettings c');
                 (EEPROM_ALTERNATE_COUNTER, ledSegmentsToggleSeconds c')]
      else e' = e
           /\ clockFace c' = clockFace c
           /\ ledSegmentsSettings c' = ledSegmentsSettings c
           /\ ledSegmentsToggleSeconds c' = ledSegmentsToggleSeconds c).
Proof.
  unfold userSettings. intros H.
  destruct (settingsLoop keys _) as [c1|] eqn:E; [|discriminate].
  cbn [bind] in H. unfold settingsCommit in H. cbv zeta in H.
  injection H as <- <-.
  apply settingsLoop_frame in E. destruct E as (Ha & _ & _ & Hc & Hn).
  change (settingsChangedFlag (settingsEntry c)) with 0 in Hc.
  split; [exact Ha|].
  destruct (settingsLoopPressed keys (settingsEntry c)) eqn:P; rewrite Hc.
  - cbn [Z.ltb Z.compare]. unfold EEPROM_write. cbn [written].
    rewrite <- !app_assoc. reflexivity.
  - cbn [Z.ltb Z.compare].
    split; [reflexivity|]. exact (Hn eq_refl).
Qed.

Lemma settings_session_commit_witness :
  exists c' e',
    userSettings periodSession powerOnClock zeroEeprom = Some (c', e')
    /\ written e'
       = [(EEPROM_CLOCK_FACE_NUMBER, 1);
          (EEPROM_DATE_TIME_AND_COLON,
           Z.lor DISPLAY_TIME_AND_DATE DISPLAY_COLONS_FLASH_EVERY_SECOND);
          (EEPROM_ALTERNATE_COUNTER, 5)].
Proof.
  destruct (userSettings periodSession powerOnClock zeroEeprom)
    as [[c' e']|] eqn:E; [|vm_compute in E; discriminate].
  exists c', e'. split; [reflexivity|].
  pose proof (settings_session_commit periodSession powerOnClock c'
                zeroEeprom e' E) as (_ & H).
  vm_compute in E. injection E as <- <-. exact H.
Defined.

(** ** Selecting a face, selecting a menu, resetting *)

Lemma loopFaceKeys_previous (c : Clock) :
  clockFace (loopFaceKeys KEY_PRESSED_1 c)
  = (if DEFAULT_FACTORY_CLOCK_FACES <=? byte (clockFace c - 1)
     then DEFAULT_FACTORY_CLOCK_FACES - 1 else byte (clockFace c - 1)).
Proof.
  unfold loopFaceKeys.
  change (KEY_PRESSED_1 =? KEY_PRESSED_1) with true.
  change (KEY_PRESSED_1 =? KEY_PRESSED_3) with false.
  cbv iota zeta.
  change (clockFace (set_clockFace (byte (clockFace c - 1)) c))
    with (byte (clockFace c - 1)).
  destruct (DEFAULT_FACTORY_CLOCK_FACES <=? byte (clockFace c - 1));
    reflexivity.
Qed.

Lemma loopFaceKeys_next (c : Clock) :
  clockFace (loopFaceKeys KEY_PRESSED_3 c)
  = (if DEFAULT_FACTORY_CLOCK_FACES <=? byte (clockFace c + 1)
     then 0 else byte (clockFace c + 1)).
Proof.
  unfold loopFaceKeys.
  change (KEY_PRESSED_3 =? KEY_PRESSED_1) with false.
  change (KEY_PRESSED_3 =? KEY_PRESSED_3) with true.
  cbv iota zeta.
  change (clockFace (set_clockFace (byte (clockFace c + 1)) c))
    with (byte (clockFace c + 1)).
  destruct (DEFAULT_FACTORY_CLOCK_FACES <=? byte (clockFace c + 1));
    reflexivity.
Qed.

Lemma loadFace_keeps_settings (e : Eeprom) (c c' : Clock) :
  loadFaceSettingsOrFactoryDefaults e c = Some c' ->
  clockFace c' = clockFace c
  /\ ledSegmentsSettings c' = ledSegmentsSettings c
  /\ ledSegmentsToggleSeconds c' = ledSegmentsToggleSeconds c.
Proof.
  unfold loadFaceSettingsOrFactoryDefaults. cbv zeta. clock_simpl.
  destruct (_ && _).
  - destruct (at_index _ _) as [[[[mk h] m] s]|]; [|discriminate].
    cbn [bind]. intros H. injection H as <-. repeat split.
  - intros H. injection H as <-. repeat split.
Qed.

(** X18.  In normal mode buttons 1 and 3 move the face index around the ten
    faces, wrapping at both ends, and bring any byte into the range of the
    factory table, so that the load of [userSelectedStyle] that follows
    never reads outside the table. *)
Theorem loop_face_keys_wrap (k : Z) (c : Clock) (e : Eeprom) :
  k = KEY_PRESSED_1 \/ k = KEY_PRESSED_3 ->
  let c' := loopFaceKeys k c in
  0 <= clockFace c' < DEFAULT_FACTORY_CLOCK_FACES
  /\ (exists r, userSelectedStyle e c' = Some r
                /\ clockFace (snd r) = clockFace c')
  /\ (0 <= clockFace c < DEFAULT_FACTORY_CLOCK_FACES ->
      clockFace c'
      = (clockFace c + (if k =? KEY_PRESSED_1 then -1 else 1))
        mod DEFAULT_FACTORY_CLOCK_FACES).
Proof.
  intros Hk. cbv zeta.
  assert (Hb : forall x, 0 <= byte x < 256)
    by (intros x; unfold byte; apply Z.mod_pos_bound; reflexivity).
  assert (Hr : 0 <= clockFace (loopFaceKeys k c)
               < DEFAULT_FACTORY_CLOCK_FACES).
  { destruct Hk as [-> | ->].
    - rewrite loopFaceKeys_previous.
      destruct (DEFAULT_FACTORY_CLOCK_FACES <=? byte (clockFace c - 1)) eqn:E;
        [unfold DEFAULT_FACTORY_CLOCK_FACES; lia|].
      apply Z.leb_gt in E. specialize (Hb (clockFace c - 1)). lia.
    - rewrite loopFaceKeys_next.
      destruct (DEFAULT_FACTORY_CLOCK_FACES <=? byte (clockFace c + 1)) eqn:E;
        [unfold DEFAULT_FACTORY_CLOCK_FACES; lia|].
      apply Z.leb_gt in E. specialize (Hb (clockFace c + 1)). lia. }
  split; [exact Hr|]. split.
  - unfold userSelectedStyle.
    destruct (loadFace_in_range e _ Hr) as (c1 & E). rewrite E.
    cbn [bind]. eexists. split; [reflexivity|].
    exact (proj1 (loadFace_keeps_settings _ _ _ E)).
  - intros Hc. clear Hr.
    destruct Hk as [-> | ->].
    + rewrite loopFaceKeys_previous.
      change (KEY_PRESSED_1 =? KEY_PRESSED_1) with true. cbv iota.
      unfold DEFAULT_FACTORY_CLOCK_FACES in *.
      destruct (Z.eq_dec (clockFace c) 0) as [Z0 | Z0].
      * rewrite Z0. reflexivity.
      * rewrite (byte_small (clockFace c - 1)) by lia.
        destruct (10 <=? clockFace c - 1) eqn:E;
          [apply Z.leb_le in E; lia|].
        rewrite Z.mod_small by lia. reflexivity.
    + rewrite loopFaceKeys_next.
      change (KEY_PRESSED_3 =? KEY_PRESSED_1) with false. cbv iota.
      unfold DEFAULT_FACTORY_CLOCK_FACES in *.
      rewrite (byte_small (clockFace c + 1)) by lia.
      destruct (10 <=? clockFace c + 1) eqn:E.
      * apply Z.leb_le in E.
        replace (clockFace c) with 9 by lia. reflexivity.
      * apply Z.leb_gt in E.
        rewrite Z.mod_small by lia. reflexivity.
Qed.

Lemma loop_face_keys_wrap_witness :
  clockFace (loopFaceKeys KEY_PRESSED_1 powerOnClock) = 9.
Proof.
  pose proof (loop_face_keys_wrap KEY_PRESSED_1 powerOnClock zeroEeprom
                (or_introl eq_refl)) as (_ & _ & H).
  apply H. cbn. unfold DEFAULT_FACTORY_CLOCK_FACES. lia.
Defined.




Lemma animationUntilLoop_held (color keyCombination : Z)
    (readings : Readings) (n : nat) :
  forall loopCtr k,
    let r := animationUntilLoop n loopCtr k color keyCombination readings in
    snd r
    = negb (forallb (fun i => readings i =? keyCombination) (seq k n))
    /\ (snd r = true -> snd (fst r) <> keyCombination)
    /\ (snd r = false -> snd (fst r) = keyCombination).
Proof.
  induction n as [|n IH]; intros loopCtr k; cbv zeta.
  - cbn [animationUntilLoop seq forallb negb fst snd].
    split; [reflexivity|].
    split; [intros H; discriminate H | intros _; reflexivity].
  - cbn [animationUntilLoop seq forallb]. unfold neqb.
    destruct (readings k =? keyCombination) eqn:E; cbn [negb andb].
    + specialize (IH (loopCtr + 1) (S k)). cbv zeta in IH.
      destruct (animationUntilLoop n (loopCtr + 1) (S k) color
                  keyCombination readings) as [[rest pressed] returned].
      exact IH.
    + cbn [fst snd]. apply Z.eqb_neq in E.
      split; [reflexivity|].
      split; [intros _; exact E | intros H; discriminate H].
Qed.

Lemma animation_until_held (color keyCombination : Z)
    (readings : Readings) :
  (snd (ringAnimationUntilNotKeyCombination color keyCombination readings)
   =? keyCombination)
  = heldThrough keyCombination readings.
Proof.
  unfold ringAnimationUntilNotKeyCombination, heldThrough. cbv zeta.
  change (seq 0 31) with (0%nat :: seq 1 29 ++ [30%nat]).
  cbn [forallb]. rewrite forallb_app. cbn [forallb]. unfold neqb.
  destruct (readings 0%nat =? keyCombination) eqn:E0; cbn [negb andb].
  - pose proof (animationUntilLoop_held color keyCombination readings 29 1 1)
      as H. cbv zeta in H.
    destruct (animationUntilLoop 29 1 1 color keyCombination readings)
      as [[out pressed] returned].
    cbn [fst snd] in H. destruct H as (Hr & Ht & Hf).
    destruct returned; cbn [snd].
    + apply (f_equal negb) in Hr. rewrite negb_involutive in Hr.
      cbn [negb] in Hr. rewrite <- Hr. cbn [andb].
      apply Z.eqb_neq. exact (Ht eq_refl).
    + apply (f_equal negb) in Hr. rewrite negb_involutive in Hr.
      cbn [negb] in Hr. rewrite <- Hr. cbn [andb].
      rewrite andb_true_r. reflexivity.
  - cbn [snd]. exact E0.
Qed.

(** The load of a face whose stored bytes are the row of the table. *)
Lemma loadFace_row (e : Eeprom) (c : Clock) (f : Z) :
  clockFace c = f ->
  at_index DEFAULT_FACTORY_COLORS f
  = Some (cell e (faceAddress f 0), cell e (faceAddress f 1),
          cell e (faceAddress f 2), cell e (faceAddress f 3)) ->
  option_map appearance (loadFaceSettingsOrFactoryDefaults e c)
  = at_index DEFAULT_FACTORY_COLORS f.
Proof.
  intros <- Hrow. unfold loadFaceSettingsOrFactoryDefaults, EEPROM_read.
  cbv zeta. clock_simpl. rewrite Hrow.
  destruct (_ && _); reflexivity.
Qed.

Lemma waitLoop_returns (pins : Readings) (j : nat) :
  pins j = KEY_PRESSED_NONE ->
  forall (fuel k : nat),
    (k <= j)%nat -> (j - k < fuel)%nat ->
    exists k', waitLoop fuel pins k = Some k' /\ (k < k' <= S j)%nat.
Proof.
  intros Hj. induction fuel as [|fuel IH]; intros k Hk Hf; [lia|].
  cbn [waitLoop]. unfold neqb.
  destruct (pins k =? KEY_PRESSED_NONE) eqn:E; cbn [negb].
  - exists (S k). split; [reflexivity | lia].
  - assert (k <> j) by (intros ->; rewrite Hj in E; discriminate E).
    destruct (IH (S k)) as (k' & Hk' & Hr); [lia | lia |].
    exists k'. split; [exact Hk' | lia].
Qed.

(** The wait ends when the buttons are read released twice. *)
Lemma waitForReleaseAllButtons_returns (pins : Readings) (fuel i j : nat) :
  (i < j < fuel)%nat ->
  pins i = KEY_PRESSED_NONE -> pins j = KEY_PRESSED_NONE ->
  exists k, waitForReleaseAllButtons fuel pins = Some k.
Proof.
  intros Hij Hi Hj. unfold waitForReleaseAllButtons.
  destruct (waitLoop_returns pins i Hi fuel 0) as (k1 & -> & H1);
    [lia | lia |].
  cbn [bind].
  destruct (waitLoop_returns pins j Hj fuel k1) as (k2 & -> & H2);
    [lia | lia |].
  exists k2. reflexivity.
Qed.

(** The wait does not end while a button is down. *)
Lemma waitLoop_held (pins : Readings) :
  (forall k, pins k <> KEY_PRESSED_NONE) ->
  forall fuel k, waitLoop fuel pins k = None.
Proof.
  intros Hheld. induction fuel as [|fuel IH]; intros k; [reflexivity|].
  cbn [waitLoop]. rewrite (neqb_true _ _ (Hheld k)). apply IH.
Qed.

(** X20.  [userResetFactoryDefaults] resets only when the chord of buttons
    1 and 2 is read at every one of the 31 readings of the red wipe, and
    only after the buttons have been released.  Released at any reading of
    the wipe, it returns with the EEPROM and the settings as they were.
    Held through the wipe, it first waits for the release: while a button
    stays down it does not return, whatever the fuel, so the reset, which
    comes after the wait, is not reached; once the buttons are read released
    twice it returns with the EEPROM that [writeFactorySettingsToEeprom]
    leaves and the factory state, face 0 with the first row of the factory
    table. *)
Theorem factory_reset_needs_hold (fuel : nat) (readings pins : Readings)
    (c : Clock) (e : Eeprom) :
  (heldThrough KEY_PRESSED_1_2 readings = false ->
   exists out,
     userResetFactoryDefaults fuel readings pins c e
     = Some (out, resetPreviousValues c, e))
  /\ (heldThrough KEY_PRESSED_1_2 readings = true ->
      (waitForReleaseAllButtons fuel pins = None ->
       userResetFactoryDefaults fuel readings pins c e = None)
      /\ ((forall k, pins k <> KEY_PRESSED_NONE) ->
          userResetFactoryDefaults fuel readings pins c e = None)
      /\ ((exists i j, (i < j < fuel)%nat /\ pins i = KEY_PRESSED_NONE
                       /\ pins j = KEY_PRESSED_NONE) ->
          exists out c' e',
            userResetFactoryDefaults fuel readings pins c e
            = Some (out, c', e')
            /\ writeFactorySettingsToEeprom e = Some e'
            /\ clockFace c' = 0
            /\ ledSegmentsSettings c'
               = Z.lor DISPLAY_TIME_AND_DATE
                   DISPLAY_COLONS_FLASH_EVERY_SECOND
            /\ ledSegmentsToggleSeconds c' = 5
            /\ at_index DEFAULT_FACTORY_COLORS 0 = Some (appearance c'))).
Proof.
  unfold userResetFactoryDefaults. cbv zeta.
  rewrite animation_until_held. split.
  - intros ->. cbn [bind]. eexists. reflexivity.
  - intros ->.
    split; [intros Hw; rewrite Hw; reflexivity|].
    split.
    { intros Hheld. unfold waitForReleaseAllButtons.
      rewrite (waitLoop_held pins Hheld). reflexivity. }
    intros (i & j & Hij & Hi & Hj).
    destruct (waitForReleaseAllButtons_returns pins fuel i j Hij Hi Hj)
      as (k & ->).
    cbn [bind].
    destruct (factory_written e)
      as (e1 & E & _ & H0 & H1 & H2 & Hrows & _).
    rewrite E. cbn [bind].
    assert (Hs : clockFace (loadSettingsOrFactoryDefaults e1 c) = 0
                 /\ ledSegmentsSettings (loadSettingsOrFactoryDefaults e1 c)
                    = Z.lor DISPLAY_TIME_AND_DATE
                        DISPLAY_COLONS_FLASH_EVERY_SECOND
                 /\ ledSegmentsToggleSeconds
                      (loadSettingsOrFactoryDefaults e1 c) = 5).
    { unfold loadSettingsOrFactoryDefaults, EEPROM_read. clock_simpl.
      rewrite H0, H1, H2. clock_simpl. repeat split. }
    destruct Hs as (S0 & S1 & S2).
    assert (Hrow := Hrows 0 ltac:(unfold DEFAULT_FACTORY_CLOCK_FACES; lia)).
    pose proof (loadFace_row e1 _ 0 S0 Hrow) as HL.
    destruct (loadFaceSettingsOrFactoryDefaults e1
                (loadSettingsOrFactoryDefaults e1 c)) as [c2|] eqn:L.
    + cbn [bind]. do 3 eexists. split; [reflexivity|].
      destruct (loadFace_keeps_settings _ _ _ L) as (K0 & K1 & K2).
      split; [reflexivity|].
      split; [rewrite <- S0, <- K0; reflexivity|].
      split; [rewrite <- S1, <- K1; reflexivity|].
      split; [rewrite <- S2, <- K2; reflexivity|].
      symmetry. exact HL.
    + exfalso.
      destruct (loadFace_in_range e1 (loadSettingsOrFactoryDefaults e1 c))
        as (c2 & L2); [rewrite S0; unfold DEFAULT_FACTORY_CLOCK_FACES; lia|].
      congruence.
Qed.

Lemma factory_reset_needs_hold_witness :
  heldThrough KEY_PRESSED_1_2 chordHeld = true
  /\ exists out c' e',
       userResetFactoryDefaults 10 chordHeld releasedAfterThree powerOnClock
         zeroEeprom
       = Some (out, c', e')
       /\ clockFace c' = 0
       /\ ledSegmentsToggleSeconds c' = 5.
Proof.
  split; [reflexivity|].
  destruct (proj2 (factory_reset_needs_hold 10 chordHeld releasedAfterThree
                     powerOnClock zeroEeprom) eq_refl) as (_ & _ & H).
  destruct H as (out & c' & e' & E & _ & F & _ & T & _).
  - exists 3%nat, 4%nat. split; [lia|]. split; reflexivity.
  - exists out, c', e'. split; [exact E|]. split; [exact F | exact T].
Defined.

(** ** The time and date menu *)

Lemma int8_signed (z : Z) : -128 <= z < 128 -> int8 z = z.
Proof.
  intros H. unfold int8.
  destruct (Z_lt_dec z 0) as [N | N].
  - replace (z mod 256) with (z + 256)
      by (apply (Z.mod_unique_pos _ _ (-1)); lia).
    destruct (z + 256 <? 128) eqn:E; [apply Z.ltb_lt in E; lia | lia].
  - rewrite Z.mod_small by lia.
    destruct (z <? 128) eqn:E; [reflexivity | apply Z.ltb_ge in E; lia].
Qed.

(** Evaluates the table reads and the comparisons of constants. *)
Ltac closed_tests :=
  repeat match goal with
         | |- context [at_index ?t ?i] =>
             let v := eval vm_compute in (at_index t i) in
             progress change (at_index t i) with v
         | |- context [?a =? ?b] =>
             let v := eval vm_compute in (a =? b) in
             match v with
             | true => change (a =? b) with true
             | false => change (a =? b) with false
             end
         end;
  cbv iota.

Ltac int8_in_range :=
  repeat match goal with
         | |- context [int8 ?x] =>
             first [ rewrite (int8_small x) by lia
                   | rewrite (int8_signed x) by lia ]
         end.

Lemma timeDate_position_cases (c : Clock) :
  timeDatePosition c ->
  position c = SET_POSITION_HOURS \/ position c = SET_POSITION_MINUTES
  \/ position c = SET_POSITION_SECONDS \/ position c = SET_POSITION_YEAR
  \/ position c = SET_POSITION_MONTH \/ position c = SET_POSITION_DAY.
Proof.
  unfold timeDatePosition, SET_POSITION_HOURS, SET_POSITION_MINUTES,
    SET_POSITION_SECONDS, SET_POSITION_YEAR, SET_POSITION_MONTH,
    SET_POSITION_DAY.
  lia.
Qed.

(** Buttons 1 and 3 of the time and date menu store one value, within the
    bounds of the tables, in the field under the cursor. *)
Lemma timeDateKeys_edit (k : Z) (c : Clock) :
  k = KEY_PRESSED_1 \/ k = KEY_PRESSED_3 ->
  timeDatePosition c -> timeDateInRange c ->
  exists value lo hi,
    timeDateKeys k c
    = Some (set_blinkUpdate 2
              (set_settingsChangedFlag 1
                 (setValueByPosition (position c) value c)))
    /\ at_index valueTimeDateMin (position c - 1) = Some lo
    /\ at_index valueTimeDateMax (position c - 1) = Some hi
    /\ lo <= value <= hi.
Proof.
  intros Hk Hpos Hr. unfold timeDateInRange in Hr.
  pose proof (days_max_values c) as Hd.
  destruct Hk as [-> | ->]; unfold timeDateKeys.
  - change (KEY_PRESSED_1 =? KEY_PRESSED_1) with true.
    change (KEY_PRESSED_1 =? KEY_PRESSED_3) with false.
    change (KEY_PRESSED_1 =? KEY_PRESSED_2) with false.
    cbv iota.
    destruct (timeDate_position_cases c Hpos)
      as [Hp | [Hp | [Hp | [Hp | [Hp | Hp]]]]];
      rewrite Hp; unfold getValueByPosition; closed_tests; cbv zeta;
      cbn [bind]; int8_in_range;
      match goal with
      | |- context [if ?b then _ else _] => destruct b eqn:E
      end; cbn [bind];
      do 3 eexists;
      (split; [reflexivity|]); (split; [reflexivity|]);
      (split; [reflexivity|]);
      first [apply Z.ltb_lt in E | apply Z.ltb_ge in E];
      rewrite byte_small by lia; lia.
  - change (KEY_PRESSED_3 =? KEY_PRESSED_1) with false.
    change (KEY_PRESSED_3 =? KEY_PRESSED_3) with true.
    change (KEY_PRESSED_3 =? KEY_PRESSED_2) with false.
    cbv iota. cbn [bind].
    destruct (timeDate_position_cases c Hpos)
      as [Hp | [Hp | [Hp | [Hp | [Hp | Hp]]]]];
      rewrite Hp; unfold getValueByPosition; closed_tests; cbv zeta;
      cbn [bind]; int8_in_range;
      match goal with
      | |- context [if ?b then _ else _] => destruct b eqn:E
      end; cbn [bind];
      do 3 eexists;
      (split; [reflexivity|]); (split; [reflexivity|]);
      (split; [reflexivity|]);
      first [apply Z.ltb_lt in E | apply Z.ltb_ge in E];
      rewrite byte_small by lia; lia.
Qed.

Lemma timeDateKeys_confirm (c : Clock) :
  timeDateKeys KEY_PRESSED_2 c
  = Some (if SET_POSITION_DAY <? byte (position c + 1)
          then set_exitFlag true
                 (set_position SET_POSITION_NONE
                    (set_position (byte (position c + 1))
                       (set_blinkUpdate 3 c)))
          else set_position (byte (position c + 1)) (set_blinkUpdate 3 c)).
Proof.
  unfold timeDateKeys.
  change (KEY_PRESSED_2 =? KEY_PRESSED_1) with false.
  change (KEY_PRESSED_2 =? KEY_PRESSED_3) with false.
  change (KEY_PRESSED_2 =? KEY_PRESSED_2) with true.
  cbv iota. cbn [bind]. cbv zeta. clock_simpl.
  destruct (SET_POSITION_DAY <? byte (position c + 1)); reflexivity.
Qed.

Lemma timeDateKeys_other (k : Z) (c : Clock) :
  k <> KEY_PRESSED_1 -> k <> KEY_PRESSED_3 -> k <> KEY_PRESSED_2 ->
  timeDateKeys k c = Some c.
Proof.
  intros H1 H3 H2. unfold timeDateKeys.
  apply Z.eqb_neq in H1, H3, H2. rewrite H1, H3, H2. reflexivity.
Qed.

Lemma setValue_other_fields (p v pos : Z) (c : Clock) :
  pos <> p ->
  getValueByPosition pos (setValueByPosition p v c)
  = getValueByPosition pos c.
Proof.
  intros Hne. unfold getValueByPosition, setValueByPosition.
  repeat match goal with
         | |- context [if p =? ?x then _ else _] => destruct (p =? x) eqn:?
         end;
    clock_simpl;
    repeat match goal with
           | |- context [if pos =? ?x then _ else _] =>
               destruct (pos =? x) eqn:?
           end;
    try reflexivity;
    repeat match goal with
           | H : (_ =? _) = true |- _ => apply Z.eqb_eq in H
           end;
    congruence.
Qed.

Lemma setValue_keeps (p v : Z) (c : Clock) :
  dayOfWeek (setValueByPosition p v c) = dayOfWeek c
  /\ position (setValueByPosition p v c) = position c
  /\ exitFlag (setValueByPosition p v c) = exitFlag c
  /\ settingsChangedFlag (setValueByPosition p v c) = settingsChangedFlag c.
Proof.
  unfold setValueByPosition.
  repeat match goal with
         | |- context [if ?b then _ else _] => destruct b
         end; repeat split.
Qed.

Lemma setValue_in_range (value lo hi : Z) (c : Clock) :
  timeDatePosition c -> timeDateInRange c ->
  at_index valueTimeDateMin (position c - 1) = Some lo ->
  at_index valueTimeDateMax (position c - 1) = Some hi ->
  lo <= value <= hi ->
  timeDateInRange (setValueByPosition (position c) value c).
Proof.
  intros Hpos Hr Hlo Hhi Hv. unfold timeDateInRange in *.
  destruct (timeDate_position_cases c Hpos)
    as [Hp | [Hp | [Hp | [Hp | [Hp | Hp]]]]];
    rewrite Hp in *; vm_compute in Hlo, Hhi;
    injection Hlo as <-; injection Hhi as <-;
    unfold setValueByPosition; closed_tests; clock_simpl; lia.
Qed.

(** What one pass through the key blocks of [userSetTimeAndDate] does. *)
Lemma timeDateKeys_spec (k : Z) (c : Clock) :
  timeDatePosition c -> timeDateInRange c ->
  exists c',
    timeDateKeys k c = Some c'
    /\ timeDateInRange c'
    /\ dayOfWeek c' = dayOfWeek c
    /\ (forall pos, pos <> position c ->
          getValueByPosition pos c' = getValueByPosition pos c)
    /\ (k <> KEY_PRESSED_1 -> k <> KEY_PRESSED_3 ->
        timeAndDate c' = timeAndDate c)
    /\ settingsChangedFlag c'
       = (if (k =? KEY_PRESSED_1) || (k =? KEY_PRESSED_3) then 1
          else settingsChangedFlag c)
    /\ (exitFlag c' = false -> timeDatePosition c').
Proof.
  intros Hpos Hr.
  destruct (key_cases k) as [Hk | [-> | (H1 & H3 & H2)]].
  - destruct (timeDateKeys_edit k c Hk Hpos Hr)
      as (value & lo & hi & E & Hlo & Hhi & Hv).
    eexists. split; [exact E|].
    destruct (setValue_keeps (position c) value c) as (K1 & K2 & K3 & K4).
    pose proof (setValue_in_range value lo hi c Hpos Hr Hlo Hhi Hv) as Hin.
    split; [exact Hin|]. split; [exact K1|].
    split; [intros pos Hne;
            exact (setValue_other_fields (position c) value pos c Hne)|].
    split; [intros N1 N3; destruct Hk; contradiction|].
    split; [destruct Hk as [-> | ->]; reflexivity|].
    intros _. unfold timeDatePosition in *.
    change (position (set_blinkUpdate 2
                        (set_settingsChangedFlag 1
                           (setValueByPosition (position c) value c))))
      with (position (setValueByPosition (position c) value c)).
    rewrite K2. exact Hpos.
  - rewrite timeDateKeys_confirm. eexists. split; [reflexivity|].
    unfold timeDatePosition, SET_POSITION_HOURS, SET_POSITION_DAY in *.
    rewrite (byte_small (position c + 1)) by lia.
    destruct (6 <? position c + 1) eqn:E.
    + split; [exact Hr|]. split; [reflexivity|].
      split; [intros pos _; reflexivity|].
      split; [intros _ _; reflexivity|].
      split; [reflexivity|]. intros H; discriminate H.
    + apply Z.ltb_ge in E.
      split; [exact Hr|]. split; [reflexivity|].
      split; [intros pos _; reflexivity|].
      split; [intros _ _; reflexivity|].
      split; [reflexivity|]. intros _. clock_simpl. lia.
  - rewrite (timeDateKeys_other k c H1 H3 H2). eexists.
    split; [reflexivity|]. split; [exact Hr|]. split; [reflexivity|].
    split; [intros pos _; reflexivity|].
    split; [intros _ _; reflexivity|].
    apply Z.eqb_neq in H1, H3. rewrite H1, H3.
    split; [reflexivity|]. intros _. exact Hpos.
Qed.

(** X21.  In the time and date menu no key takes a field out of its range:
    with the cursor on one of the six fields and hours, minutes, seconds,
    year, month and day within 0..23, 0..59, 0..59, 0..99, 1..12 and 1..31,
    the key blocks return, the bounds tables are read inside, the six fields
    stay in range, and only the field under the cursor can change; the day
    of the week is never touched. *)
Theorem time_date_keys_keep_range (k : Z) (c : Clock) :
  timeDatePosition c -> timeDateInRange c ->
  exists c',
    timeDateKeys k c = Some c'
    /\ timeDateInRange c'
    /\ dayOfWeek c' = dayOfWeek c
    /\ forall pos, pos <> position c ->
         getValueByPosition pos c' = getValueByPosition pos c.
Proof.
  intros Hpos Hr.
  destruct (timeDateKeys_spec k c Hpos Hr) as (c' & E & Hin & Hw & Hf & _).
  exists c'. auto.
Qed.

Lemma time_date_keys_keep_range_witness :
  exists c',
    timeDateKeys KEY_PRESSED_3 leapFebruary29 = Some c'
    /\ timeDateInRange c'
    /\ months c' = 2.
Proof.
  assert (Hpos : timeDatePosition leapFebruary29)
    by (cbv - [Z.le Z.lt]; lia).
  assert (Hr : timeDateInRange leapFebruary29)
    by (cbv - [Z.le Z.lt]; lia).
  destruct (time_date_keys_keep_range KEY_PRESSED_3 leapFebruary29 Hpos Hr)
    as (c' & E & Hin & _ & Hf).
  exists c'. split; [exact E|]. split; [exact Hin|].
  exact (Hf SET_POSITION_MONTH ltac:(discriminate)).
Defined.

Lemma drawClockFace_keeps_time (c : Clock) (r : list RingCmd * Clock) :
  drawClockFace c = Some r -> timeAndDate (snd r) = timeAndDate c.
Proof.
  unfold drawClockFace. cbv zeta.
  destruct (clearHands _); [|discriminate].
  destruct (drawHands _); [|discriminate].
  destruct (drawMarkers _); [|discriminate].
  cbn [bind]. intros H. injection H as <-. reflexivity.
Qed.

(** What one iteration of the loop of [userSetTimeAndDate] leaves. *)
Lemma timeDateIter_spec (k : Z) (c : Clock) (r : list RingCmd * Clock) :
  timeDatePosition c -> timeDateInRange c ->
  timeDateIter k c = Some r ->
  timeDateInRange (snd r)
  /\ dayOfWeek (snd r) = dayOfWeek c
  /\ (k <> KEY_PRESSED_1 -> k <> KEY_PRESSED_3 ->
      timeAndDate (snd r) = timeAndDate c)
  /\ settingsChangedFlag (snd r)
     = (if (k =? KEY_PRESSED_1) || (k =? KEY_PRESSED_3) then 1
        else settingsChangedFlag c)
  /\ (exitFlag (snd r) = false -> timeDatePosition (snd r)).
Proof.
  intros Hpos Hr. unfold timeDateIter.
  destruct (timeDateKeys_spec k c Hpos Hr)
    as (c1 & E & Hin & Hw & _ & Hn & Hc & Hx).
  rewrite E. cbn [bind].
  assert (Hsame : forall r1 : list RingCmd * Clock,
            (if (seconds c1 !=? previousSeconds c1)
                || (minutes c1 !=? previousMinutes c1)
                || (hours c1 !=? previousHours c1)
             then drawClockFace c1 else Some ([], c1)) = Some r1 ->
            timeAndDate (snd r1) = timeAndDate c1
            /\ sameMenuState c1 (snd r1)).
  { intros r1.
    destruct ((seconds c1 !=? previousSeconds c1)
              || (minutes c1 !=? previousMinutes c1)
              || (hours c1 !=? previousHours c1)).
    - intros H. split; [exact (drawClockFace_keeps_time c1 r1 H)|].
      exact (drawClockFace_frame c1 r1 H).
    - intros H. injection H as <-. cbn [snd]. split; [reflexivity|].
      unfold sameMenuState. repeat split. }
  match goal with
  | |- context [bind ?m _] => destruct m as [r1|] eqn:Em
  end; [|discriminate].
  cbn [bind]. intros H. injection H as <-. cbn [snd].
  destruct (Hsame r1 eq_refl) as (Ht & _ & _ & Hp1 & Hc1 & Hx1).
  unfold timeAndDate in Ht. injection Ht as T1 T2 T3 T4 T5 T6 T7.
  unfold timeDateInRange, timeDatePosition, timeAndDate in *. clock_simpl.
  rewrite T1, T2, T3, T4, T5, T6, T7, Hp1, Hc1, Hx1.
  split; [exact Hin|]. split; [exact Hw|].
  split; [|split; [exact Hc | exact Hx]].
  intros N1 N3. specialize (Hn N1 N3).
  injection Hn as -> -> -> -> -> -> ->. reflexivity.
Qed.

Lemma timeDateLoop_spec (keys : list Z) :
  forall c r,
    (exitFlag c = false -> timeDatePosition c) -> timeDateInRange c ->
    timeDateLoop keys c = Some r ->
    timeDateInRange (snd r)
    /\ dayOfWeek (snd r) = dayOfWeek c
    /\ settingsChangedFlag (snd r)
       = (if timeDateLoopPressed keys c then 1 else settingsChangedFlag c)
    /\ (timeDateLoopPressed keys c = false ->
        timeAndDate (snd r) = timeAndDate c).
Proof.
  induction keys as [|k rest IH]; intros c r Hpos Hr H.
  - cbn [timeDateLoop timeDateLoopPressed] in *.
    destruct (exitFlag c); [|discriminate].
    injection H as <-. cbn [snd].
    split; [exact Hr|]. split; [reflexivity|]. split; [reflexivity|].
    intros _. reflexivity.
  - cbn [timeDateLoop timeDateLoopPressed] in *.
    destruct (exitFlag c).
    { injection H as <-. cbn [snd].
      split; [exact Hr|]. split; [reflexivity|]. split; [reflexivity|].
      intros _. reflexivity. }
    specialize (Hpos eq_refl).
    destruct (timeDateIter k c) as [r1|] eqn:E1; [|discriminate].
    cbn [bind] in H.
    destruct (timeDateLoop rest (snd r1)) as [r2|] eqn:E2; [|discriminate].
    cbn [bind] in H. injection H as <-. cbn [snd].
    destruct (timeDateIter_spec k c r1 Hpos Hr E1)
      as (Hin1 & Hw1 & Hn1 & Hc1 & Hx1).
    destruct (IH (snd r1) r2 Hx1 Hin1 E2) as (Hin2 & Hw2 & Hc2 & Hn2).
    split; [exact Hin2|]. split; [congruence|]. split.
    + rewrite Hc2, Hc1.
      destruct ((k =? KEY_PRESSED_1) || (k =? KEY_PRESSED_3));
        cbn [orb]; [|reflexivity].
      destruct (timeDateLoopPressed rest (snd r1)); reflexivity.
    + intros Hnone. apply orb_false_iff in Hnone.
      destruct Hnone as (Hk & Hrest).
      apply orb_false_iff in Hk. destruct Hk as (Hk1 & Hk3).
      apply Z.eqb_neq in Hk1, Hk3.
      rewrite (Hn2 Hrest). exact (Hn1 Hk1 Hk3).
Qed.

(** X22.  What the time and date menu shows on leaving is what the clock is
    set to, except the seconds: after an edit the time source is written
    with seconds 0 and the other fields of the state, all in range, so that
    reading it gives them back with the day of the week as it was; without
    an edit the time source and the fields are left as they were. *)
Theorem time_date_session_sets_clock (keys : list Z) (c c' : Clock)
    (rtc rtc' : Ds1307) (out : list RingCmd) :
  timeDateInRange c -> 0 <= dayOfWeek c < 100 ->
  userSetTimeAndDate keys c rtc = Some (out, c', rtc') ->
  timeDateInRange c'
  /\ if timeDateLoopPressed keys (timeDateEntry c)
     then timeAndDate (getDateDs1307 rtc' c')
          = (hours c', minutes c', 0, dayOfWeek c, dayOfMonth c', months c',
             years c')
     else rtc' = rtc /\ timeAndDate c' = timeAndDate c.
Proof.
  intros Hr Hw. unfold userSetTimeAndDate.
  destruct (timeDateLoop keys (timeDateEntry c)) as [r|] eqn:E;
    [|discriminate].
  cbn [bind]. cbv zeta. intros H. injection H as _ <- <-.
  assert (Hpos : exitFlag (timeDateEntry c) = false ->
                 timeDatePosition (timeDateEntry c)).
  { intros _. unfold timeDatePosition.
    change (position (timeDateEntry c)) with SET_POSITION_HOURS.
    unfold SET_POSITION_HOURS, SET_POSITION_DAY. lia. }
  destruct (timeDateLoop_spec keys (timeDateEntry c) r Hpos Hr E)
    as (Hin & Hd & Hc & Hn).
  change (settingsChangedFlag (timeDateEntry c)) with 0 in Hc.
  change (dayOfWeek (timeDateEntry c)) with (dayOfWeek c) in Hd.
  split; [exact Hin|].
  destruct (timeDateLoopPressed keys (timeDateEntry c)).
  - rewrite Hc. cbn [Z.ltb Z.compare snd].
    unfold timeDateInRange in Hin.
    pose proof (setDate_getDate 0 (minutes (snd r)) (hours (snd r))
                  (dayOfWeek (snd r)) (dayOfMonth (snd r)) (months (snd r))
                  (years (snd r)) (resetPreviousValues (snd r))
                  ltac:(lia) ltac:(lia) ltac:(lia) ltac:(lia) ltac:(lia)
                  ltac:(lia) ltac:(lia)) as G.
    cbv zeta in G. destruct G as (G1 & G2 & G3 & G4 & G5 & G6 & G7).
    unfold timeAndDate. rewrite G1, G2, G3, G4, G5, G6, G7, Hd.
    reflexivity.
  - rewrite Hc. cbn [Z.ltb Z.compare snd].
    split; [reflexivity|]. exact (Hn eq_refl).
Qed.

Lemma time_date_session_sets_clock_witness :
  exists out c' rtc',
    userSetTimeAndDate
      [KEY_PRESSED_3; KEY_PRESSED_2; KEY_PRESSED_2; KEY_PRESSED_2;
       KEY_PRESSED_2; KEY_PRESSED_2; KEY_PRESSED_2]
      leapFebruary29 (rtcAt 0x10 0x11 0x12)
    = Some (out, c', rtc')
    /\ timeDateInRange c'.
Proof.
  destruct (userSetTimeAndDate
              [KEY_PRESSED_3; KEY_PRESSED_2; KEY_PRESSED_2; KEY_PRESSED_2;
               KEY_PRESSED_2; KEY_PRESSED_2; KEY_PRESSED_2]
              leapFebruary29 (rtcAt 0x10 0x11 0x12))
    as [[[out c'] rtc']|] eqn:E; [|vm_compute in E; discriminate].
  exists out, c', rtc'. split; [reflexivity|].
  assert (Hr : timeDateInRange leapFebruary29)
    by (cbv - [Z.le Z.lt]; lia).
  assert (Hw : 0 <= dayOfWeek leapFebruary29 < 100)
    by (cbv - [Z.le Z.lt]; lia).
  exact (proj1 (time_date_session_sets_clock _ _ _ _ _ _ Hr Hw E)).
Defined.

(** ** Alternating between the time and the date *)

(** X23.  In the alternating mode, with a period above 0,
    [drawNormalLedSegments] returns and leaves the display on the time, on
    the date or as it was; at a second that is a multiple of the period it
    shows the time when the quotient is even and the date when it is odd.
    With the period 60 and seconds below 60 the quotient is always 0: the
    display never switches to the date. *)
Theorem alternation_follows_quotient (c : Clock) (d : Segments) :
  Z.land (ledSegmentsSettings c) DISPLAY_TIME_AND_DATE
  = DISPLAY_TIME_AND_DATE ->
  0 < ledSegmentsToggleSeconds c -> 0 <= seconds c < 60 ->
  exists d' out,
    drawNormalLedSegments c d = Some (d', out)
    /\ ledSegmentsCounter d' = seconds c mod ledSegmentsToggleSeconds c
    /\ (ledSegmentsDisplay d' = DISPLAY_TIME
        \/ ledSegmentsDisplay d' = DISPLAY_DATE
        \/ ledSegmentsDisplay d' = ledSegmentsDisplay d)
    /\ (seconds c mod ledSegmentsToggleSeconds c = 0 ->
        ledSegmentsDisplay d'
        = (if (seconds c / ledSegmentsToggleSeconds c) mod 2 =? 0
           then DISPLAY_TIME else DISPLAY_DATE))
    /\ (ledSegmentsToggleSeconds c = 60 ->
        ledSegmentsDisplay d' = DISPLAY_DATE ->
        ledSegmentsDisplay d = DISPLAY_DATE).
Proof.
  intros Hmode Hp Hs. unfold drawNormalLedSegments.
  apply Z.eqb_eq in Hmode. rewrite Hmode.
  assert (Hnz : (ledSegmentsToggleSeconds c =? 0) = false)
    by (apply Z.eqb_neq; lia).
  rewrite Hnz. cbv zeta. cbn [ledSegmentsCounter ledSegmentsDisplay
                               ledSegmentsStatus ledSegmentsColons].
  destruct (seconds c mod ledSegmentsToggleSeconds c =? 0) eqn:E0;
    cbn [orb].
  - destruct ((seconds c / ledSegmentsToggleSeconds c) mod 2 =? 0) eqn:E1;
      cbn [bind ledSegmentsCounter ledSegmentsDisplay ledSegmentsStatus
           ledSegmentsColons].
    + change (Z.land DISPLAY_TIME DISPLAY_TIME =? DISPLAY_TIME) with true.
      cbv iota. do 2 eexists. split; [reflexivity|].
      cbn [ledSegmentsCounter ledSegmentsDisplay].
      split; [reflexivity|]. split; [auto|]. split; [reflexivity|].
      intros _ H. discriminate H.
    + change (Z.land DISPLAY_DATE DISPLAY_TIME =? DISPLAY_TIME) with false.
      change (Z.land DISPLAY_DATE DISPLAY_DATE =? DISPLAY_DATE) with true.
      cbv iota. do 2 eexists. split; [reflexivity|].
      cbn [ledSegmentsCounter ledSegmentsDisplay].
      split; [reflexivity|]. split; [auto|]. split; [reflexivity|].
      intros H60 _. exfalso. rewrite H60 in E1.
      rewrite Z.div_small in E1 by lia. discriminate E1.
  - apply Z.eqb_neq in E0.
    destruct (Z.land (ledSegmentsDisplay d) DISPLAY_TIME_AND_DATE
              =? DISPLAY_NONE) eqn:E2.
    + destruct ((seconds c / ledSegmentsToggleSeconds c) mod 2 =? 0) eqn:E1;
        cbn [bind ledSegmentsCounter ledSegmentsDisplay ledSegmentsStatus
             ledSegmentsColons].
      * change (Z.land DISPLAY_TIME DISPLAY_TIME =? DISPLAY_TIME) with true.
        cbv iota. do 2 eexists. split; [reflexivity|].
        cbn [ledSegmentsCounter ledSegmentsDisplay].
        split; [reflexivity|]. split; [auto|].
        split; [intros H; contradiction|].
        intros _ H. discriminate H.
      * change (Z.land DISPLAY_DATE DISPLAY_TIME =? DISPLAY_TIME) with false.
        change (Z.land DISPLAY_DATE DISPLAY_DATE =? DISPLAY_DATE) with true.
        cbv iota. do 2 eexists. split; [reflexivity|].
        cbn [ledSegmentsCounter ledSegmentsDisplay].
        split; [reflexivity|]. split; [auto|].
        split; [intros H; contradiction|].
        intros H60 _. exfalso. rewrite H60 in E1.
        rewrite Z.div_small in E1 by lia. discriminate E1.
    + cbn [bind ledSegmentsCounter ledSegmentsDisplay ledSegmentsStatus
           ledSegmentsColons].
      destruct (Z.land (ledSegmentsDisplay d) DISPLAY_TIME =? DISPLAY_TIME);
        [|destruct (Z.land (ledSegmentsDisplay d) DISPLAY_DATE
                    =? DISPLAY_DATE)];
        do 2 eexists; (split; [reflexivity|]);
        cbn [ledSegmentsCounter ledSegmentsDisplay];
        (split; [reflexivity|]); (split; [auto|]);
        (split; [intros H; contradiction|]); intros _ H; exact H.
Qed.

Lemma alternation_follows_quotient_witness :
  exists d' out,
    drawNormalLedSegments everySixty (mkSegments 0 0 0 0) = Some (d', out)
    /\ ledSegmentsDisplay d' = DISPLAY_TIME.
Proof.
  destruct (alternation_follows_quotient everySixty (mkSegments 0 0 0 0)
              eq_refl eq_refl ltac:(cbv - [Z.le Z.lt]; lia))
    as (d' & out & E & _ & _ & _ & _).
  exists d', out. split; [exact E|].
  vm_compute in E. injection E as <- _. reflexivity.
Defined.

(** ** The buttons *)

(** X24.  A chord that [readPressedKeys] reports was read the same at both
    samples, and it tells which buttons are down: the three bits of
    [readKeys] are independent, [KEY_PRESSED_1_2] is buttons 1 and 2 down
    and button 3 up, and a single key is that button alone. *)
Theorem debounced_chord_is_stable (a1 a2 a3 b1 b2 b3 : bool) (k : Z) :
  readPressedKeys (readKeys a1 a2 a3) (readKeys b1 b2 b3) = k ->
  k <> KEY_PRESSED_NONE ->
  (a1, a2, a3) = (b1, b2, b3)
  /\ readKeys a1 a2 a3 = k
  /\ (k = KEY_PRESSED_1 <-> (a1, a2, a3) = (true, false, false))
  /\ (k = KEY_PRESSED_2 <-> (a1, a2, a3) = (false, true, false))
  /\ (k = KEY_PRESSED_3 <-> (a1, a2, a3) = (false, false, true))
  /\ (k = KEY_PRESSED_1_2 <-> (a1, a2, a3) = (true, true, false)).
Proof.
  intros <- Hk.
  destruct a1, a2, a3, b1, b2, b3; cbn in Hk |- *;
    try (exfalso; apply Hk; reflexivity);
    repeat split; intros H; try reflexivity; discriminate H.
Qed.

Lemma debounced_chord_is_stable_witness :
  readPressedKeys (readKeys true true false) (readKeys true true false)
  = KEY_PRESSED_1_2.
Proof.
  destruct (debounced_chord_is_stable true true false true true false
              KEY_PRESSED_1_2 eq_refl ltac:(discriminate))
    as (_ & H & _).
  exact H.
Defined.

(** ** The displays of the menus *)






Lemma period_chars_determine (p q : Z) :
  0 <= p < 100 -> 0 <= q < 100 ->
  (if p <? 10 then DISP_CHAR_BLANK else byte (p / 10 + chr "0"))
  = (if q <? 10 then DISP_CHAR_BLANK else byte (q / 10 + chr "0")) ->
  byte (p mod 10 + chr "0") = byte (q mod 10 + chr "0") ->
  p = q.
Proof.
  intros Hp Hq. change (chr "0") with 48. change DISP_CHAR_BLANK with 32.
  assert (Hp1 : 0 <= p mod 10 < 10) by (apply Z.mod_pos_bound; lia).
  assert (Hq1 : 0 <= q mod 10 < 10) by (apply Z.mod_pos_bound; lia).
  assert (Hp2 : 0 <= p / 10 < 10)
    by (split; [apply Z.div_pos; lia | apply Z.div_lt_upper_bound; lia]).
  assert (Hq2 : 0 <= q / 10 < 10)
    by (split; [apply Z.div_pos; lia | apply Z.div_lt_upper_bound; lia]).
  rewrite !byte_small by lia.
  pose proof (Z.div_mod p 10 ltac:(lia)).
  pose proof (Z.div_mod q 10 ltac:(lia)).
  destruct (p <? 10) eqn:Ep, (q <? 10) eqn:Eq; intros Ht Ho;
    first [apply Z.ltb_lt in Ep | apply Z.ltb_ge in Ep];
    first [apply Z.ltb_lt in Eq | apply Z.ltb_ge in Eq];
    lia.
Qed.

(** X26.  The display of the settings menu tells the settings apart: past
    the face field and with no field blanked, two states with a display
    mode of the menu and a period below 100 show the same six characters
    only when they have the same display mode, the same period, and colons
    that both flash or both do not.  On the face field the character shown
    for a face index below 10 is its digit. *)
Theorem settings_display_determines_settings (c1 c2 : Clock) :
  position c1 <> SET_POSITION_CLOCK_FACE ->
  position c2 <> SET_POSITION_CLOCK_FACE ->
  displayMode (ledSegmentsSettings c1) ->
  displayMode (ledSegmentsSettings c2) ->
  0 <= ledSegmentsToggleSeconds c1 < 100 ->
  0 <= ledSegmentsToggleSeconds c2 < 100 ->
  (settingsChars SET_POSITION_NONE c1 = settingsChars SET_POSITION_NONE c2 ->
   Z.land (ledSegmentsSettings c1) 0xf0 = Z.land (ledSegmentsSettings c2) 0xf0
   /\ ledSegmentsToggleSeconds c1 = ledSegmentsToggleSeconds c2
   /\ (Z.land (ledSegmentsSettings c1) 0x0f
       = DISPLAY_COLONS_FLASH_EVERY_SECOND
       <-> Z.land (ledSegmentsSettings c2) 0x0f
           = DISPLAY_COLONS_FLASH_EVERY_SECOND))
  /\ forall c, position c = SET_POSITION_CLOCK_FACE ->
       0 <= clockFace c < DEFAULT_FACTORY_CLOCK_FACES ->
       settingsChars SET_POSITION_NONE c
       = [chr "F"; chr "A"; chr "C"; chr "E"; chr " ";
          chr "0" + clockFace c].
Proof.
  intros P1 P2 D1 D2 T1 T2. split.
  - unfold settingsChars.
    apply Z.eqb_neq in P1, P2. rewrite P1, P2.
    change (SET_POSITION_NONE =? SET_POSITION_TIME_DATE) with false.
    change (SET_POSITION_NONE =? SET_POSITION_ALT_TIMER) with false.
    change (SET_POSITION_NONE =? SET_POSITION_FLASH_COLON) with false.
    cbv iota.
    assert (Hmode : forall x,
              displayMode x ->
              exists a b,
                (if Z.land x 0xf0 =? DISPLAY_TIME_AND_DATE
                 then (chr "t", chr "d")
                 else if Z.land x 0xf0 =? DISPLAY_TIME
                      then (chr "t", DISP_CHAR_BLANK)
                      else if Z.land x 0xf0 =? DISPLAY_DATE
                           then (DISP_CHAR_BLANK, chr "d")
                           else (chr "n", chr "o")) = (a, b)
                /\ ((a, b) = (chr "t", chr "d")
                    /\ Z.land x 0xf0 = DISPLAY_TIME_AND_DATE
                    \/ (a, b) = (chr "t", DISP_CHAR_BLANK)
                       /\ Z.land x 0xf0 = DISPLAY_TIME
                    \/ (a, b) = (DISP_CHAR_BLANK, chr "d")
                       /\ Z.land x 0xf0 = DISPLAY_DATE
                    \/ (a, b) = (chr "n", chr "o")
                       /\ Z.land x 0xf0 = DISPLAY_NONE)).
    { intros x [E | [E | [E | E]]]; rewrite E; do 2 eexists;
        (split; [reflexivity|]); cbv iota; auto 10. }
    assert (Hcol : forall x,
              exists a b,
                (if Z.land x 0x0f =? DISPLAY_COLONS_FLASH_EVERY_SECOND
                 then (chr "F", chr "L") else (chr "o", chr "n")) = (a, b)
                /\ ((a, b) = (chr "F", chr "L")
                    /\ Z.land x 0x0f = DISPLAY_COLONS_FLASH_EVERY_SECOND
                    \/ (a, b) = (chr "o", chr "n")
                       /\ Z.land x 0x0f
                          <> DISPLAY_COLONS_FLASH_EVERY_SECOND)).
    { intros x.
      destruct (Z.land x 0x0f =? DISPLAY_COLONS_FLASH_EVERY_SECOND) eqn:E;
        do 2 eexists; (split; [reflexivity|]);
        [apply Z.eqb_eq in E | apply Z.eqb_neq in E]; auto. }
    destruct (Hmode _ D1) as (a1 & b1 & -> & M1).
    destruct (Hmode _ D2) as (a2 & b2 & -> & M2).
    destruct (Hcol (ledSegmentsSettings c1)) as (e1 & f1 & -> & C1).
    destruct (Hcol (ledSegmentsSettings c2)) as (e2 & f2 & -> & C2).
    cbv zeta beta iota. intros E. injection E as E0 E1 E2 E3 E4 E5.
    subst a2 b2 e2 f2.
    split; [|split].
    + destruct M1 as [(A & ->) | [(A & ->) | [(A & ->) | (A & ->)]]],
               M2 as [(B & ->) | [(B & ->) | [(B & ->) | (B & ->)]]];
        try reflexivity; rewrite A in B; vm_compute in B; discriminate B.
    + exact (period_chars_determine _ _ T1 T2 E2 E3).
    + destruct C1 as [(A & F1) | (A & F1)], C2 as [(B & F2) | (B & F2)];
        try (split; intros _; assumption);
        try (rewrite A in B; vm_compute in B; discriminate B).
      split; intros H; contradiction.
  - intros c Hp Hf. unfold settingsChars. rewrite Hp.
    change (SET_POSITION_CLOCK_FACE =? SET_POSITION_CLOCK_FACE) with true.
    change (SET_POSITION_NONE !=? SET_POSITION_CLOCK_FACE) with true.
    cbv iota. cbn [firstn DISP_FACE app].
    unfold DEFAULT_FACTORY_CLOCK_FACES in Hf. change (chr "0") with 48 in *.
    rewrite byte_small by lia. rewrite Z.add_comm. reflexivity.
Qed.

Lemma settings_display_determines_settings_witness :
  settingsChars SET_POSITION_NONE
    (set_position SET_POSITION_ALT_TIMER powerOnClock)
  = [chr "t"; chr "d"; chr "1"; chr "0"; chr "F"; chr "L"]
  /\ (Z.land (ledSegmentsSettings powerOnClock) 0x0f
      = DISPLAY_COLONS_FLASH_EVERY_SECOND
      <-> Z.land (ledSegmentsSettings powerOnClock) 0x0f
          = DISPLAY_COLONS_FLASH_EVERY_SECOND).
Proof.
  split; [reflexivity|].
  assert (D : displayMode (ledSegmentsSettings powerOnClock))
    by (unfold displayMode; cbv - [Z.le Z.lt]; auto 10).
  assert (T : 0 <= ledSegmentsToggleSeconds powerOnClock < 100)
    by (cbv - [Z.le Z.lt]; lia).
  destruct (settings_display_determines_settings
              (set_position SET_POSITION_ALT_TIMER powerOnClock)
              (set_position SET_POSITION_TIME_DATE powerOnClock)
              ltac:(discriminate) ltac:(discriminate) D D T T) as (H & _).
  exact (proj2 (proj2 (H eq_refl))).
Defined.
